(** * evolve: station discovery, power estimation and local-status merge

    A shallow embedding of [evolve_site/services.py] (class [NRELClient])
    and of the station views of [evolve_site/views.py], with the models of
    [evolve_site/models.py] and the status form of [evolve_site/forms.py];
    then of the search form, of the vehicle lookups of [views.py] and of
    the host lists of [evolve/settings/production.py].

    Python values that come out of the JSON body of the station finder are
    values of [pyval]; a Python [dict] with string keys is a [gmap string];
    an exception is the [Raises] case of [outcome].  Strings are byte
    strings: the development covers ASCII text, which is what the provider
    sends for network names and dates.

    The remote services, the settings, the clock and the status table are
    the environment and the state of an explicit monad.  Logging, the
    page cache around the station list and the middleware in front of the
    views are not part of the embedding. *)

From Stdlib Require Import ZArith Floats Ascii String.
From stdpp Require Import base option list gmap strings pretty sorting.

Local Open Scope Z_scope.

(** ** Python values and exceptions *)

#[local] Unset Elimination Schemes.
Inductive pyval : Type :=
| VNone
| VBool (b : bool)
| VInt (n : Z)
| VFloat (f : float)
| VStr (s : string)
| VList (l : list pyval)
| VDict (d : gmap string pyval).
#[local] Set Elimination Schemes.

Abbreviation dict := (gmap string pyval).

(** The exception classes the modelled code can meet.  [Timeout],
    [ConnectionError], [HTTPError] and [JSONDecodeError] are the ones of
    [requests.exceptions]; the [Geocoder...] ones are those of [geopy.exc]. *)
Inductive exn : Type :=
| AttributeError
| TypeError
| KeyError
| ValueError
| Timeout
| ConnectionError
| HTTPError
| JSONDecodeError
| RequestException
| GeocoderTimedOut
| GeocoderUnavailable
| GeocoderQuotaExceeded
| GeocoderServiceError
| PageNotAnInteger
| EmptyPage.

Inductive outcome (A : Type) : Type :=
| Returns (a : A)
| Raises (e : exn).
Arguments Returns {A} a.
Arguments Raises {A} e.

(** The exception monad, with stdpp's notation: [x ← m; k] runs [k] when
    [m] returns and lets an exception of [m] pass. *)
#[global] Instance outcome_ret : MRet outcome := λ A a, Returns a.
#[global] Instance outcome_bind : MBind outcome := λ A B k m,
  match m with
  | Returns a => k a
  | Raises e => Raises e
  end.

Module Py.

(** [bool(v)]. *)
Definition truthy (v : pyval) : bool :=
  match v with
  | VNone => false
  | VBool b => b
  | VInt n => negb (Z.eqb n 0)
  | VFloat f => negb (PrimFloat.eqb f 0%float)
  | VStr s => negb (String.eqb s "")
  | VList l => match l with [] => false | _ => true end
  | VDict d => negb (Nat.eqb (size d) 0)
  end.

(** [d.get(k, dflt)], [k in d] and [d[k]] on a dict. *)
Definition get (d : dict) (k : string) (dflt : pyval) : pyval :=
  default dflt (d !! k).

Definition has_key (d : dict) (k : string) : bool :=
  bool_decide (is_Some (d !! k)).

Definition getitem (d : dict) (k : string) : outcome pyval :=
  match d !! k with
  | Some v => Returns v
  | None => Raises KeyError
  end.

(** [str.upper] on ASCII text. *)
Definition upper_char (c : ascii) : ascii :=
  let n := nat_of_ascii c in
  if (Nat.leb 97 n && Nat.leb n 122)%bool then ascii_of_nat (n - 32) else c.

Fixpoint upper (s : string) : string :=
  match s with
  | EmptyString => EmptyString
  | String c s' => String (upper_char c) (upper s')
  end.

(** [v.upper()]: only a [str] has the method. *)
Definition call_upper (v : pyval) : outcome string :=
  match v with
  | VStr s => Returns (upper s)
  | _ => Raises AttributeError
  end.

(** [needle in hay] on two strings. *)
Fixpoint contains (needle hay : string) : bool :=
  if String.prefix needle hay then true
  else match hay with
       | EmptyString => false
       | String _ hay' => contains needle hay'
       end.

(** [v >= c] for a string constant [c]: lexicographic on two strings, a
    [TypeError] when [v] is not a string. *)
Definition ge_str (v : pyval) (c : string) : outcome bool :=
  match v with
  | VStr s => Returns (String.leb c s)
  | _ => Raises TypeError
  end.

(** [v > 0] against the integer zero: defined on numbers ([bool] is a
    subclass of [int]); a [TypeError] otherwise. *)
Definition gt_zero (v : pyval) : outcome bool :=
  match v with
  | VInt n => Returns (Z.ltb 0 n)
  | VBool b => Returns b
  | VFloat f => Returns (PrimFloat.ltb 0%float f)
  | _ => Raises TypeError
  end.

(** [v.get(k, dflt)] on any value: only a dict has the method. *)
Definition call_get (v : pyval) (k : string) (dflt : pyval) : outcome pyval :=
  match v with
  | VDict d => Returns (get d k dflt)
  | _ => Raises AttributeError
  end.

Fixpoint chars (s : string) : list pyval :=
  match s with
  | EmptyString => []
  | String c s' => VStr (String c EmptyString) :: chars s'
  end.

(** What [for x in v] runs over: the items of a list, the characters of a
    string, the keys of a dict; the other values are not iterable. *)
Definition iter (v : pyval) : outcome (list pyval) :=
  match v with
  | VList l => Returns l
  | VStr s => Returns (chars s)
  | VDict d => Returns (VStr <$> (map_to_list d).*1)
  | _ => Raises TypeError
  end.

(** [str(v)]: the text itself for a string, the decimal numeral for an
    integer; [other] stands for the interpreter's text of a float or of
    a container. *)
Definition str (other : pyval → string) (v : pyval) : string :=
  match v with
  | VStr s => s
  | VInt n => pretty n
  | VNone => "None"
  | VBool true => "True"
  | VBool false => "False"
  | _ => other v
  end.

(** The whitespace of [str.strip()] within ASCII. *)
Definition is_space (c : ascii) : bool :=
  let n := nat_of_ascii c in
  orb (andb (Nat.leb 9 n) (Nat.leb n 13))
      (orb (andb (Nat.leb 28 n) (Nat.leb n 31)) (Nat.eqb n 32)).

Fixpoint lstrip (s : string) : string :=
  match s with
  | EmptyString => EmptyString
  | String c s' => if is_space c then lstrip s' else s
  end.

Fixpoint rstrip (s : string) : string :=
  match s with
  | EmptyString => EmptyString
  | String c s' =>
      match rstrip s' with
      | EmptyString => if is_space c then EmptyString else String c EmptyString
      | t => String c t
      end
  end.

Definition strip (s : string) : string := rstrip (lstrip s).

(** A dict comprehension [{k: v for ...}] over the pairs in iteration
    order: a later pair replaces an earlier one with the same key. *)
Definition dict_of {V : Type} (kvs : list (string * V)) : gmap string V :=
  foldl (λ m kv, <[kv.1 := kv.2]> m) ∅ kvs.

(** [l[bottom:top]] for two non-negative bounds. *)
Definition slice {A : Type} (l : list A) (bottom top : Z) : list A :=
  take (Z.to_nat top - Z.to_nat bottom) (drop (Z.to_nat bottom) l).

(** [isinstance(e, cls)] on the exception classes of [exn]. *)
Definition isinstance (e cls : exn) : bool :=
  match cls, e with
  | RequestException,
    (RequestException | Timeout | ConnectionError | HTTPError | JSONDecodeError) => true
  | ValueError, (ValueError | JSONDecodeError) => true
  | GeocoderServiceError,
    (GeocoderServiceError | GeocoderTimedOut | GeocoderUnavailable
     | GeocoderQuotaExceeded) => true
  | AttributeError, AttributeError | TypeError, TypeError | KeyError, KeyError
  | Timeout, Timeout | ConnectionError, ConnectionError | HTTPError, HTTPError
  | JSONDecodeError, JSONDecodeError | GeocoderTimedOut, GeocoderTimedOut
  | GeocoderUnavailable, GeocoderUnavailable
  | GeocoderQuotaExceeded, GeocoderQuotaExceeded
  | PageNotAnInteger, PageNotAnInteger | EmptyPage, EmptyPage => true
  | _, _ => false
  end.

(** [try: o / except classes: h] without state. *)
Definition catch {A : Type} (o : outcome A) (classes : list exn)
    (h : exn → outcome A) : outcome A :=
  match o with
  | Returns a => Returns a
  | Raises e => if existsb (isinstance e) classes then h e else Raises e
  end.

End Py.

(** ** The environment, the database and the effect monad *)

(** A row of the table behind [models.StationStatus]: the station
    identifier, the status, the (nullable) user and the [auto_now]
    timestamp, counted in microseconds. *)
Record StationStatus : Type := {
  nrel_station_id : string;
  status : string;
  user : option Z;
  updated_at : Z
}.

#[global] Instance StationStatus_eq_dec : EqDecision StationStatus.
Proof. solve_decision. Defined.

(** What [Nominatim.geocode] answers: a location, [None], or an exception. *)
Inductive geo_answer : Type :=
| GeoLocation (latitude longitude : float)
| GeoNone
| GeoRaises (e : exn).

(** A [requests.Response]: the status code, and the JSON value of the body
    when the body parses ([None] when [response.json()] fails). *)
Record Response : Type := {
  status_code : Z;
  body_json : option pyval
}.

(** What [requests.get] answers: a response, or one of the exceptions of
    [requests.exceptions]. *)
Inductive http_answer : Type :=
| HttpResponse (r : Response)
| HttpRaises (e : exn).

(** Everything the code reads from outside the repository: the Django
    setting, the two remote services, the clock, and two builtins of the
    interpreter that are taken as given ([str] on floats and containers,
    [int] on a string). *)
Record Env : Type := {
  NREL_API_KEY : option string;
  geocoder : string → geo_answer;
  http_get : string → list (string * pyval) → http_answer;
  now : Z;
  str_other : pyval → string;
  int_of_str : string → option Z
}.

(** The observable effects, in the order they happen: the two remote
    calls with their timeout, the two queries of the merge and the insert
    of a submission. *)
Inductive event : Type :=
| EvGeocode (query : string) (timeout : Z)
| EvHttpGet (url : string) (params : list (string * pyval)) (timeout : Z)
| EvDbLatest (station_ids : list string)
| EvDbRecords (station_ids : list string) (stamps : list Z)
| EvDbInsert (row : StationStatus).

(** The state threaded through a request: the rows of the status table, in
    the order an unordered query yields them, and the effects so far. *)
Record state : Type := {
  rows : list StationStatus;
  trace : list event
}.

Definition M (A : Type) : Type := state → outcome A * state.

#[global] Instance M_ret : MRet M := λ A a st, (Returns a, st).
#[global] Instance M_bind : MBind M := λ A B k m st,
  match m st with
  | (Returns a, st') => k a st'
  | (Raises e, st') => (Raises e, st')
  end.

Definition lift {A : Type} (o : outcome A) : M A := λ st, (o, st).

Definition emit (ev : event) : M unit :=
  λ st, (Returns tt, {| rows := rows st; trace := trace st ++ [ev] |}).

(** [try: body / except classes: handler]. *)
Definition try_except {A : Type} (body : M A) (classes : list exn)
    (handler : exn → M A) : M A := λ st,
  match body st with
  | (Returns a, st') => (Returns a, st')
  | (Raises e, st') =>
      if existsb (Py.isinstance e) classes then handler e st'
      else (Raises e, st')
  end.

(** ** [evolve_site/services.py]: the power estimator *)

Module NRELClient.

Definition BASE_URL : string :=
  "https://developer.nrel.gov/api/alt-fuel-stations/v1/nearest.json".

(** [NRELClient.extract_max_power(station)].  The [logger] calls are left
    out; the unused local [date_updated] is a [dict.get], which cannot
    raise. *)
Definition extract_max_power (station : dict) : outcome pyval :=
  explicit ←
    (if Py.has_key station "ev_dc_fast_charger_power"
     then (p ← Py.getitem station "ev_dc_fast_charger_power";
           Returns (Py.truthy p))
     else Returns false);
  if (explicit : bool) then Py.getitem station "ev_dc_fast_charger_power"
  else
    network ← Py.call_upper (Py.get station "ev_network" (VStr ""));
    station_name ← Py.call_upper (Py.get station "station_name" (VStr ""));
    if Py.contains "TESLA" network then
      let open_date := Py.get station "open_date" (VStr "") in
      v3 ← (if Py.truthy open_date then Py.ge_str open_date "2020-01-01"
            else Returns false);
      if (v3 : bool) then Returns (VInt 250)
      else
        v2 ← (if Py.truthy open_date then Py.ge_str open_date "2012-01-01"
              else Returns false);
        if (v2 : bool) then Returns (VInt 150)
        else Returns (VInt 150)
    else if Py.contains "ELECTRIFY AMERICA" network then Returns (VInt 350)
    else if Py.contains "EVGO" network then Returns (VInt 350)
    else if Py.contains "CHARGEPOINT" network then Returns (VFloat 62.5%float)
    else if Py.contains "FRANCIS" network then Returns (VInt 150)
    else if Py.contains "BLINK" network then Returns (VInt 50)
    else Returns (VInt 50).

(** [NRELClient.geocode_zip(zip_code)]: the pair [(latitude, longitude)],
    or [(None, None)]. *)
Definition geocode_zip (env : Env) (zip_code : string)
    : M (option float * option float) :=
  try_except
    (_ ← emit (EvGeocode (zip_code +:+ ", USA") 5);
     location ← lift (match geocoder env (zip_code +:+ ", USA") with
                      | GeoLocation lat lon => Returns (Some (lat, lon))
                      | GeoNone => Returns None
                      | GeoRaises e => Raises e
                      end);
     match location with
     | Some (lat, lon) => mret (Some lat, Some lon)
     | None => mret (None, None)
     end)
    [GeocoderTimedOut; GeocoderServiceError]
    (λ _, mret (None, None)).

(** [response.raise_for_status()] of [requests]: an [HTTPError] for a
    client error (4xx) or a server error (5xx) status. *)
Definition raise_for_status (r : Response) : outcome unit :=
  if andb (Z.leb 400 (status_code r)) (Z.ltb (status_code r) 600)
  then Raises HTTPError else Returns tt.

(** [response.json()]. *)
Definition json (r : Response) : outcome pyval :=
  match body_json r with
  | Some v => Returns v
  | None => Raises JSONDecodeError
  end.

(** The loop of [get_stations] over the stations of the response, with
    the list [filtered_stations] built so far. *)
Fixpoint filter_loop (stations : list pyval) (filtered_stations : list dict)
    : outcome (list dict) :=
  match stations with
  | [] => Returns filtered_stations
  | station :: rest =>
      n ← Py.call_get station "ev_dc_fast_num" (VInt 0);
      keep ← Py.gt_zero n;
      if (keep : bool) then
        match station with
        | VDict d =>
            p ← extract_max_power d;
            filter_loop rest (filtered_stations ++ [<["max_power_kw" := p]> d])
        | _ => Raises AttributeError
        end
      else filter_loop rest filtered_stations
  end.

Definition request_params (api_key : string) (latitude longitude : float)
    : list (string * pyval) :=
  [ ("api_key", VStr api_key);
    ("latitude", VFloat latitude);
    ("longitude", VFloat longitude);
    ("fuel_type", VStr "ELEC");
    ("ev_connector_type", VStr "CHADEMO,J1772COMBO,TESLA");
    ("ev_charging_level", VStr "dc_fast");
    ("limit", VInt 50);
    ("status", VStr "E");
    ("access", VStr "public");
    ("radius", VInt 25) ].

(** [NRELClient.get_stations(location)]. *)
Definition get_stations (env : Env) (location : string) : M (list dict) :=
  match NREL_API_KEY env with
  | None => mret []
  | Some api_key =>
      if negb (Py.truthy (VStr api_key)) then mret []
      else
        coords ← geocode_zip env location;
        match coords with
        | (Some latitude, Some longitude) =>
            let params := request_params api_key latitude longitude in
            try_except
              (_ ← emit (EvHttpGet BASE_URL params 5);
               response ← lift (match http_get env BASE_URL params with
                                | HttpResponse r => Returns r
                                | HttpRaises e => Raises e
                                end);
               _ ← lift (raise_for_status response);
               data ← lift (json response);
               stations ← lift (Py.call_get data "fuel_stations" (VList []));
               items ← lift (Py.iter stations);
               lift (filter_loop items []))
              [RequestException; ValueError]
              (λ _, mret [])
        | _ => mret []
        end
  end.

End NRELClient.

(** ** The status table: the queries of [views.py] on [StationStatus.objects] *)

Module objects.

(** The aggregate [Max('updated_at')] over a group of rows. *)
Definition Max (ts : list Z) : option Z :=
  match ts with
  | [] => None
  | t :: ts' => Some (foldl Z.max t ts')
  end.

Definition of_station (k : string) (rs : list StationStatus) : list StationStatus :=
  filter (λ r, nrel_station_id r = k) rs.

(** [.values('nrel_station_id').annotate(latest=Max('updated_at'))]: one
    pair per station identifier among [rs]. *)
Definition values_annotate_latest (rs : list StationStatus) : list (string * Z) :=
  omap (λ k, pair k <$> Max (updated_at <$> of_station k rs))
       (remove_dups (nrel_station_id <$> rs)).

(** [filter(nrel_station_id__in=station_ids)] followed by the grouping
    above, read when the view iterates the query.  The database is taken
    to answer: an error of the driver or of the database (an identifier
    it cannot encode, a lost connection) is outside the embedding. *)
Definition latest_statuses (station_ids : list string) : M (list (string * Z)) :=
  λ st,
    (Returns (values_annotate_latest
                (filter (λ r, nrel_station_id r ∈ station_ids) (rows st))),
     {| rows := rows st; trace := trace st ++ [EvDbLatest station_ids] |}).

(** [filter(nrel_station_id__in=station_ids, updated_at__in=stamps)]; the
    database is taken to answer, as above. *)
Definition status_records (station_ids : list string) (stamps : list Z)
    : M (list StationStatus) :=
  λ st,
    (Returns (filter (λ r, nrel_station_id r ∈ station_ids ∧ updated_at r ∈ stamps)
                     (rows st)),
     {| rows := rows st;
        trace := trace st ++ [EvDbRecords station_ids stamps] |}).

(** [StationStatus.objects.create(...)]: one [INSERT]; [auto_now] stamps
    the row with the current time. *)
Definition create (env : Env) (station_id status_ : string) (user_ : option Z)
    : M StationStatus :=
  λ st,
    let row := {| nrel_station_id := station_id; status := status_;
                  user := user_; updated_at := now env |} in
    (Returns row,
     {| rows := rows st ++ [row]; trace := trace st ++ [EvDbInsert row] |}).

End objects.

(** ** [django.core.paginator.Paginator], as [views.py] uses it *)

Inductive page_arg : Type :=
| PageNone
| PageStr (s : string)
| PageInt (n : Z).

Record Page : Type := {
  object_list : list dict;
  number : Z
}.

Module Paginator.

Section WithList.
Context (env : Env) (stations : list dict) (per_page : Z).

Definition count : Z := Z.of_nat (length stations).

(** [ceil(max(1, count) / per_page)]; there are no orphans and an empty
    first page is allowed. *)
Definition num_pages : Z :=
  let hits := Z.max 1 count in
  (hits + per_page - 1) `div` per_page.

Definition validate_number (number : page_arg) : outcome Z :=
  n ← match number with
      | PageInt n => Returns n
      | PageStr s => match int_of_str env s with
                     | Some n => Returns n
                     | None => Raises PageNotAnInteger
                     end
      | PageNone => Raises PageNotAnInteger
      end;
  if Z.ltb n 1 then Raises EmptyPage
  else if Z.ltb num_pages n then Raises EmptyPage
  else Returns n.

Definition page (number : page_arg) : outcome Page :=
  n ← validate_number number;
  let bottom := (n - 1) * per_page in
  let top := bottom + per_page in
  let top := if Z.leb count top then count else top in
  Returns {| object_list := Py.slice stations bottom top; number := n |}.

Definition get_page (number : page_arg) : outcome Page :=
  n ← Py.catch (validate_number number) [PageNotAnInteger; EmptyPage]
        (λ e, if Py.isinstance e PageNotAnInteger then Returns 1
              else Returns num_pages);
  page (PageInt n).

End WithList.

End Paginator.

(** ** [evolve_site/views.py]: the station list *)

Record Context : Type := {
  page_obj : Page;
  paginator_num_pages : Z;
  error_message : option string
}.

Module StationListView.

Definition station_id (env : Env) (s : dict) : outcome string :=
  v ← Py.getitem s "id";
  Returns (Py.str (str_other env) v).

Definition local_status_value (o : option string) : pyval :=
  match o with
  | Some s => VStr s
  | None => VNone
  end.

(** The block [# Merge local status] of [get_context_data]. *)
Definition merge_local_status (env : Env) (stations : list dict) : M (list dict) :=
  match stations with
  | [] => mret stations
  | _ =>
      station_ids ← lift (mapM (station_id env) stations);
      latest_statuses ← objects.latest_statuses station_ids;
      let latest_ids := Py.dict_of latest_statuses in
      status_records ←
        objects.status_records station_ids ((map_to_list latest_ids).*2);
      let status_map :=
        Py.dict_of ((λ s, (nrel_station_id s, status s)) <$> status_records) in
      lift (mapM (λ station,
                    sid ← station_id env station;
                    Returns (<["local_status" :=
                               local_status_value (status_map !! sid)]> station))
                 stations)
  end.

(** The block [# Pagination] of [get_context_data]. *)
Definition paginate (env : Env) (stations : list dict) (page_number : option string)
    : outcome Page :=
  let arg := match page_number with Some s => PageStr s | None => PageNone end in
  Py.catch (Paginator.get_page env stations 10 arg)
    [PageNotAnInteger; EmptyPage]
    (λ e, if Py.isinstance e PageNotAnInteger
          then Paginator.get_page env stations 10 (PageInt 1)
          else Paginator.get_page env stations 10
                 (PageInt (Paginator.num_pages stations 10))).

(** [get_context_data], from the validated search form on: [location] is
    the form's location when the form is valid, [page_number] is
    [request.GET.get('page')]. *)
Definition get_context_data (env : Env) (location : option string)
    (page_number : option string) : M Context :=
  found ← match location with
          | Some loc =>
              stations ← NRELClient.get_stations env loc;
              let error_message :=
                match stations with
                | [] => if Py.truthy (VStr loc)
                        then Some "No stations found or API unavailable. Please try again."
                        else None
                | _ => None
                end in
              stations ← merge_local_status env stations;
              mret (stations, error_message)
          | None => mret ([], None)
          end;
  page_obj ← lift (paginate env found.1 page_number);
  mret {| page_obj := page_obj;
          paginator_num_pages := Paginator.num_pages found.1 10;
          error_message := found.2 |}.

End StationListView.

(** ** [evolve_site/forms.py]: the status form *)

Module StationStatusForm.

Definition STATUS_CHOICES : list (string * string) :=
  [("Working", "Working"); ("Broken", "Broken"); ("Busy", "Busy")].

Record t : Type := {
  cleaned_station_id : option string;
  cleaned_status : option string;
  errors : list (string * string)
}.

Fixpoint has_nul (s : string) : bool :=
  match s with
  | EmptyString => false
  | String c s' => orb (Nat.eqb (nat_of_ascii c) 0) (has_nul s')
  end.

(** [station_id = forms.CharField(...)]: a required field, stripped of
    surrounding whitespace, without null characters. *)
Definition clean_station_id (raw : option string) : string + string :=
  let value := Py.strip (default "" raw) in
  if String.eqb value "" then inr "This field is required."
  else if has_nul value then inr "Null characters are not allowed."
  else inl value.

(** [status = forms.ChoiceField(choices=STATUS_CHOICES, ...)]: a required
    field whose value is one of the choices. *)
Definition clean_status (raw : option string) : string + string :=
  let value := default "" raw in
  if String.eqb value "" then inr "This field is required."
  else if existsb (λ kv, String.eqb value kv.1) STATUS_CHOICES then inl value
  else inr ("Select a valid choice. " +:+ value
            +:+ " is not one of the available choices.").

(** [StationStatusForm(request.POST)], fully cleaned. *)
Definition bind_form (POST : gmap string string) : t :=
  let sid := clean_station_id (POST !! "station_id") in
  let st := clean_status (POST !! "status") in
  {| cleaned_station_id := match sid with inl v => Some v | inr _ => None end;
     cleaned_status := match st with inl v => Some v | inr _ => None end;
     errors := match sid with inl _ => [] | inr e => [("station_id", e)] end
               ++ match st with inl _ => [] | inr e => [("status", e)] end |}.

Definition is_valid (form : t) : bool :=
  match errors form with [] => true | _ => false end.

End StationStatusForm.

(** ** [evolve_site/views.py]: the status submission *)

Record Request : Type := {
  request_user : option Z;          (* [None]: the anonymous user *)
  POST : gmap string string
}.

Record JsonResponse : Type := {
  response_status : Z;
  content : dict
}.

Module SubmitStationStatusView.

Definition errors_json (errs : list (string * string)) : pyval :=
  VDict (Py.dict_of ((λ fe, (fe.1, VList [VStr fe.2])) <$> errs)).

(** [SubmitStationStatusView.post]. *)
Definition post (env : Env) (request : Request) : M JsonResponse :=
  let form := StationStatusForm.bind_form (POST request) in
  match StationStatusForm.is_valid form,
        StationStatusForm.cleaned_station_id form,
        StationStatusForm.cleaned_status form with
  | true, Some station_id, Some status_ =>
      _ ← objects.create env station_id status_ (request_user request);
      mret {| response_status := 200;
              content := {[ "success" := VBool true; "status" := VStr status_ ]} |}
  | _, _, _ =>
      mret {| response_status := 400;
              content := {[ "success" := VBool false;
                            "errors" := errors_json (StationStatusForm.errors form) ]} |}
  end.

(** [SubmitStationStatusView.handle_no_permission]. *)
Definition handle_no_permission : JsonResponse :=
  {| response_status := 403;
     content := {[ "success" := VBool false; "error" := VStr "Login required" ]} |}.

(** A POST request through [LoginRequiredMixin.dispatch]: an anonymous
    user gets [handle_no_permission], anyone else reaches [post]. *)
Definition dispatch (env : Env) (request : Request) : M JsonResponse :=
  match request_user request with
  | None => mret handle_no_permission
  | Some _ => post env request
  end.

(** One submission after the other, each at its own time. *)
Fixpoint submit_all (envs : list Env) (request : Request) : M (list JsonResponse) :=
  match envs with
  | [] => mret []
  | env :: envs' =>
      r ← dispatch env request;
      rs ← submit_all envs' request;
      mret (r :: rs)
  end.

End SubmitStationStatusView.

(** ** The vocabulary of the statements

    [Spec.estimate_power] is the power estimator as the specification words
    it, to be compared with [NRELClient.extract_max_power]; the other
    definitions name what the statements speak of. *)

Module Spec.

(** The explicit DC-fast power field, when present and non-zero. *)
Definition explicit_power (station : dict) : option pyval :=
  match station !! "ev_dc_fast_charger_power" with
  | Some p => if Py.truthy p then Some p else None
  | None => None
  end.

Definition network_name (station : dict) : string :=
  match station !! "ev_network" with
  | Some (VStr s) => s
  | _ => ""
  end.

(** The open date, absent when the field is missing or empty. *)
Definition open_date (station : dict) : option string :=
  match station !! "open_date" with
  | Some (VStr s) => if String.eqb s "" then None else Some s
  | _ => None
  end.

(** Rule 2: 250 from 2020-01-01 on, 150 for every other case. *)
Definition tesla_power (date : option string) : pyval :=
  match date with
  | Some d => if String.leb "2020-01-01" d then VInt 250 else VInt 150
  | None => VInt 150
  end.

(** A calendar date in the provider's format, [YYYY-MM-DD]. *)
Definition digit (n : Z) : ascii := ascii_of_nat (48 + Z.to_nat (n `mod` 10)).

Definition two_digits (n : Z) : string :=
  String (digit (n `div` 10)) (String (digit n) "").

Definition four_digits (n : Z) : string :=
  String (digit (n `div` 1000)) (String (digit (n `div` 100)) (two_digits n)).

Definition iso_date (year month day : Z) : string :=
  four_digits year +:+ "-" +:+ two_digits month +:+ "-" +:+ two_digits day.

(** Rules 2 to 7, in their fixed order. *)
Definition network_rules : list (string * (option string → pyval)) :=
  [ ("TESLA", tesla_power);
    ("ELECTRIFY AMERICA", λ _, VInt 350);
    ("EVGO", λ _, VInt 350);
    ("CHARGEPOINT", λ _, VFloat 62.5%float);
    ("FRANCIS", λ _, VInt 150);
    ("BLINK", λ _, VInt 50) ].

(** Case-insensitive substring match of a rule's name in the network. *)
Definition matches (network : string) (rule : string * (option string → pyval)) : bool :=
  Py.contains rule.1 (Py.upper network).

(** [estimate_power]: the explicit value, else the first rule that
    matches, else the generic 50. *)
Definition estimate_power (explicit : option pyval) (network : string)
    (date : option string) : pyval :=
  match explicit with
  | Some p => p
  | None =>
      match List.find (matches network) network_rules with
      | Some rule => rule.2 date
      | None => VInt 50
      end
  end.

(** The values the rules can give. *)
Definition rule_values : list pyval :=
  [VInt 250; VInt 150; VInt 350; VFloat 62.5%float; VInt 50].

Definition is_str (v : pyval) : bool :=
  match v with VStr _ => true | _ => false end.

(** A record as the provider types it: the network and the station name
    are strings when present and, for a network that matches TESLA, so is
    the open date unless it is empty ([null], zero, an empty text). *)
Definition typed_station (station : dict) : bool :=
  is_str (Py.get station "ev_network" (VStr ""))
  && is_str (Py.get station "station_name" (VStr ""))
  && (negb (Py.contains "TESLA" (Py.upper (network_name station)))
      || negb (Py.truthy (Py.get station "open_date" (VStr "")))
      || is_str (Py.get station "open_date" (VStr ""))).

(** The answer of the station finder to the one request the client
    sends, when it sends one: the credential is configured and geocoding
    gave coordinates. *)
Definition upstream_answer (env : Env) (location : string) : option http_answer :=
  match NREL_API_KEY env, geocoder env (location +:+ ", USA") with
  | Some api_key, GeoLocation latitude longitude =>
      if Py.truthy (VStr api_key)
      then Some (http_get env NRELClient.BASE_URL
                   (NRELClient.request_params api_key latitude longitude))
      else None
  | _, _ => None
  end.

Definition non_2xx (code : Z) : bool :=
  negb (andb (Z.leb 200 code) (Z.ltb code 300)).

Definition error_4xx_5xx (code : Z) : bool :=
  andb (Z.leb 400 code) (Z.ltb code 600).

(** The failure modes of a station search; [bad_status] says which
    status codes count as a failure. *)
Inductive failure_mode (bad_status : Z → bool) (env : Env) (location : string)
    : Prop :=
| geocoding_no_result :
    geocoder env (location +:+ ", USA") = GeoNone →
    failure_mode bad_status env location
| geocoding_error e :
    geocoder env (location +:+ ", USA") = GeoRaises e →
    Py.isinstance e GeocoderServiceError = true →
    failure_mode bad_status env location
| request_timeout :
    upstream_answer env location = Some (HttpRaises Timeout) →
    failure_mode bad_status env location
| transport_error e :
    upstream_answer env location = Some (HttpRaises e) →
    Py.isinstance e RequestException = true →
    failure_mode bad_status env location
| bad_http_status r :
    upstream_answer env location = Some (HttpResponse r) →
    bad_status (status_code r) = true →
    failure_mode bad_status env location
| unparseable_body r :
    upstream_answer env location = Some (HttpResponse r) →
    body_json r = None →
    failure_mode bad_status env location.

(** A record with a DC-fast port count above zero. *)
Definition has_dc_fast (d : dict) : bool :=
  match Py.gt_zero (Py.get d "ev_dc_fast_num" (VInt 0)) with
  | Returns b => b
  | Raises _ => false
  end.

(** The records of a response that pass the filter, in order. *)
Definition dc_fast_records (stations : list pyval) : list dict :=
  omap (λ v, match v with
             | VDict d => if has_dc_fast d then Some d else None
             | _ => None
             end) stations.

(** A record the loop of [get_stations] gets through: a JSON object with
    a numeric (or absent) port count which, when it passes the filter,
    has an explicit power or is typed. *)
Definition well_formed_record (v : pyval) : bool :=
  match v with
  | VDict d =>
      match Py.gt_zero (Py.get d "ev_dc_fast_num" (VInt 0)) with
      | Returns true =>
          bool_decide (is_Some (explicit_power d)) || typed_station d
      | Returns false => true
      | Raises _ => false
      end
  | _ => false
  end.

(** The two ways a submission is turned down, as the caller tells them
    apart: by the status code of the response. *)
Inductive rejection : Type :=
| AuthorizationFailure
| ValidationFailure.

Definition rejection_of (resp : JsonResponse) : option rejection :=
  if Z.eqb (response_status resp) 403 then Some AuthorizationFailure
  else if Z.eqb (response_status resp) 400 then Some ValidationFailure
  else None.

(** A submitted status inside {Working, Broken, Busy}. *)
Definition status_in_choices (raw : option string) : bool :=
  match raw with
  | Some v => bool_decide (v ∈ ["Working"; "Broken"; "Busy"])
  | None => false
  end.

(** The row stored for a station identifier, a status and a user at the
    time of the request. *)
Definition submitted_row (station_id status_ : string) (user_ : Z) (env : Env)
    : StationStatus :=
  {| nrel_station_id := station_id; status := status_;
     user := Some user_; updated_at := now env |}.

(** The identifier of a station in its string form, as the merge keys
    it ([None] stands in for a missing identifier). *)
Definition station_key (env : Env) (s : dict) : string :=
  Py.str (str_other env) (default VNone (s !! "id")).

(** The map the merge builds from the rows [rs] for the queried
    identifiers: the two queries and the two comprehensions of the view,
    as one function of the table. *)
Definition status_map (station_ids : list string) (rs : list StationStatus)
    : gmap string string :=
  let latest_ids :=
    Py.dict_of (objects.values_annotate_latest
                  (filter (λ r, nrel_station_id r ∈ station_ids) rs)) in
  let status_records :=
    filter (λ r, nrel_station_id r ∈ station_ids
                 ∧ updated_at r ∈ (map_to_list latest_ids).*2) rs in
  Py.dict_of ((λ s, (nrel_station_id s, status s)) <$> status_records).

(** A station with the status found under its key attached. *)
Definition with_status (env : Env) (m : gmap string string) (s : dict) : dict :=
  <["local_status" := StationListView.local_status_value (m !! station_key env s)]> s.

(** The rows of one station, and the latest of them: a row whose
    timestamp no other row of the station exceeds. *)
Definition is_latest (k : string) (rs : list StationStatus) (r : StationStatus)
    : Prop :=
  r ∈ rs ∧ nrel_station_id r = k
  ∧ ∀ r', r' ∈ rs → nrel_station_id r' = k → updated_at r' ≤ updated_at r.

(** [r] is [s] with its estimated power attached. *)
Definition annotated (s r : dict) : Prop :=
  ∃ p, NRELClient.extract_max_power s = Returns p ∧ r = <["max_power_kw" := p]> s.

End Spec.

(** ** Sample data, after [evolve_site/tests.py] *)

Definition tesla_v3 : dict :=
  {[ "station_name" := VStr "Tesla Supercharger"; "ev_network" := VStr "Tesla";
     "open_date" := VStr "2020-05-01" ]}.

Definition tesla_v2 : dict :=
  {[ "station_name" := VStr "Tesla Supercharger"; "ev_network" := VStr "Tesla";
     "open_date" := VStr "2015-03-01" ]}.

Definition ea_station : dict :=
  {[ "station_name" := VStr "EA Station"; "ev_network" := VStr "Electrify America" ]}.

Definition explicit_station : dict :=
  {[ "station_name" := VStr "Generic Station"; "ev_network" := VStr "Unknown";
     "ev_dc_fast_charger_power" := VInt 175 ]}.

(** A record whose network is JSON [null]. *)
Definition null_network : dict := {[ "ev_network" := VNone ]}.

(** A Tesla record whose open date is [null], and a record of a known
    network whose station name is [null]. *)
Definition null_open_date : dict :=
  {[ "ev_network" := VStr "Tesla"; "open_date" := VNone ]}.

Definition null_station_name : dict :=
  {[ "ev_network" := VStr "Blink Network"; "station_name" := VNone ]}.

Definition amarillo : geo_answer := GeoLocation 35.25%float (-101.75)%float.

Definition supercharger : dict :=
  {[ "id" := VInt 12345; "station_name" := VStr "Test Supercharger";
     "ev_dc_fast_num" := VInt 8; "ev_network" := VStr "Tesla" ]}.

Definition level2_only : dict :=
  {[ "id" := VInt 67890; "station_name" := VStr "Test Level 2";
     "ev_dc_fast_num" := VInt 0; "ev_network" := VStr "ChargePoint Network" ]}.

Definition fuel_stations_body : pyval :=
  VDict {[ "fuel_stations" := VList [VDict supercharger; VDict level2_only] ]}.

(** An environment with a configured credential, in which the geocoder
    and the station finder give the same answer to every call. *)
Definition env_with (g : geo_answer) (h : http_answer) : Env :=
  {| NREL_API_KEY := Some "DEMO_KEY";
     geocoder := λ _, g;
     http_get := λ _ _, h;
     now := 0;
     str_other := λ _, "";
     int_of_str := λ _, None |}.

(** The station finder answers with the given status code and the body
    above. *)
Definition env_status (code : Z) : Env :=
  env_with amarillo
    (HttpResponse {| status_code := code; body_json := Some fuel_stations_body |}).

(** A record whose port count is JSON [null]. *)
Definition null_count_body : pyval :=
  VDict {[ "fuel_stations" :=
             VList [VDict {[ "id" := VInt 1; "ev_dc_fast_num" := VNone ]}] ]}.

Definition empty_state : state := {| rows := []; trace := [] |}.

(** Two stations as the station finder identifies them, by number. *)
Definition station_1 : dict := {[ "id" := VInt 1; "station_name" := VStr "First" ]}.
Definition station_2 : dict := {[ "id" := VInt 2; "station_name" := VStr "Second" ]}.

(** A status table in which station 1 was reported Broken at time 20 and
    Working at time 30, and station 2 was reported Busy at time 20; the
    rows are listed in the order the database yields them. *)
Definition report_1_working : StationStatus :=
  {| nrel_station_id := "1"; status := "Working"; user := Some 1; updated_at := 30 |}.
Definition report_1_broken : StationStatus :=
  {| nrel_station_id := "1"; status := "Broken"; user := Some 2; updated_at := 20 |}.
Definition report_2_busy : StationStatus :=
  {| nrel_station_id := "2"; status := "Busy"; user := Some 3; updated_at := 20 |}.

Definition shared_stamp_table : state :=
  {| rows := [report_1_working; report_1_broken; report_2_busy]; trace := [] |}.

(** The table of [StationListViewTest.setUp]. *)
Definition broken_12345 : state :=
  {| rows := [ {| nrel_station_id := "12345"; status := "Broken";
                  user := Some 1; updated_at := 5 |} ];
     trace := [] |}.

Definition at_time (t : Z) : Env :=
  {| NREL_API_KEY := None; geocoder := λ _, GeoNone;
     http_get := λ _ _, HttpRaises ConnectionError;
     now := t; str_other := λ _, ""; int_of_str := λ _, None |}.

(** [int] on the plain decimal numerals, the least any [int_of_str] does. *)
Fixpoint digits_value (s : string) (acc : Z) : option Z :=
  match s with
  | EmptyString => Some acc
  | String c s' =>
      let n := Z.of_nat (nat_of_ascii c) in
      if andb (Z.leb 48 n) (Z.leb n 57)
      then digits_value s' (10 * acc + (n - 48))
      else None
  end.

Definition decimal (s : string) : option Z :=
  match s with
  | EmptyString => None
  | _ => digits_value s 0
  end.

Definition env_decimal : Env :=
  {| NREL_API_KEY := None; geocoder := λ _, GeoNone;
     http_get := λ _ _, HttpRaises ConnectionError;
     now := 0; str_other := λ _, ""; int_of_str := decimal |}.

(** Twenty-five stations, numbered from 0. *)
Definition numbered (n : nat) : dict := {[ "id" := VInt (Z.of_nat n) ]}.
Definition twenty_five : list dict := numbered <$> seq 0 25.

Definition anonymous_post : Request :=
  {| request_user := None;
     POST := {[ "station_id" := "12345"; "status" := "Working" ]} |}.

Definition invalid_status_post : Request :=
  {| request_user := Some 1;
     POST := {[ "station_id" := "12345"; "status" := "InvalidStatus" ]} |}.

Definition working_post : Request :=
  {| request_user := Some 1;
     POST := {[ "station_id" := "12345"; "status" := "Working" ]} |}.

(** A valid submission whose identifier has a space on each side. *)
Definition padded_post : Request :=
  {| request_user := Some 1;
     POST := {[ "station_id" := " 12345 "; "status" := "Working" ]} |}.

(** ** [evolve_site/forms.py]: the search form *)

Module StationSearchForm.

Definition SEARCH_TYPE_CHOICES : list (string * string) :=
  [("zip", "Zip Code"); ("city", "City/State")].

Definition CONNECTOR_CHOICES : list (string * string) :=
  [("", "All Connectors"); ("CHADEMO", "CHAdeMO"); ("J1772COMBO", "CCS");
   ("TESLA", "Tesla/NACS")].

Definition NETWORK_CHOICES : list (string * string) :=
  [("", "All Networks"); ("Tesla", "Tesla Supercharger");
   ("Electrify America", "Electrify America"); ("EVgo Network", "EVgo");
   ("ChargePoint Network", "ChargePoint"); ("Blink Network", "Blink");
   ("Francis Energy", "Francis Energy")].

(** A bound form after [full_clean]: [cleaned_data], and the errors in
    the order they were added, each under its field. *)
Record t : Type := {
  cleaned_data : gmap string string;
  errors : list (string * string)
}.

Definition length_message (bound : string) (limit n : nat) : string :=
  "Ensure this value has at " +:+ bound +:+ " " +:+ pretty limit
  +:+ " characters (it has " +:+ pretty n +:+ ").".

(** [forms.CharField(min_length=..., max_length=..., required=False)]: the
    value is stripped; an empty value passes as it is, any other one runs
    through the length validators and the null-character validator, and
    every validator that fails reports. *)
Definition clean_char (min_length : option nat) (max_length : nat)
    (raw : option string) : string + list string :=
  let value := Py.strip (default "" raw) in
  if String.eqb value "" then inl value
  else
    let n := String.length value in
    let errs :=
      match min_length with
      | Some limit => if Nat.ltb n limit then [length_message "least" limit n] else []
      | None => []
      end
      ++ (if Nat.ltb max_length n then [length_message "most" max_length n] else [])
      ++ (if StationStatusForm.has_nul value
          then ["Null characters are not allowed."] else []) in
    match errs with
    | [] => inl value
    | _ => inr errs
    end.

(** [forms.ChoiceField(choices=..., required=...)]: the value as sent; an
    empty value is an error only on a required field, any other one has
    to be the key of a choice. *)
Definition clean_choice (required : bool) (choices : list (string * string))
    (raw : option string) : string + list string :=
  let value := default "" raw in
  if String.eqb value ""
  then (if required then inr ["This field is required."] else inl value)
  else if existsb (λ kv, String.eqb value kv.1) choices then inl value
  else inr ["Select a valid choice. " +:+ value
            +:+ " is not one of the available choices."].

(** The declared fields, in their order. *)
Definition fields : list (string * (option string → string + list string)) :=
  [ ("search_type", clean_choice true SEARCH_TYPE_CHOICES);
    ("zip_code", clean_char (Some 5%nat) 10);
    ("city_state", clean_char None 100);
    ("connector_type", clean_choice false CONNECTOR_CHOICES);
    ("network", clean_choice false NETWORK_CHOICES) ].

(** One round of the loop of [Form._clean_fields]. *)
Definition clean_field (data : gmap string string) (form : t)
    (field : string * (option string → string + list string)) : t :=
  match field.2 (data !! field.1) with
  | inl value =>
      {| cleaned_data := <[field.1 := value]> (cleaned_data form);
         errors := errors form |}
  | inr messages =>
      {| cleaned_data := cleaned_data form;
         errors := errors form ++ (pair field.1 <$> messages) |}
  end.

(** [self.add_error(field, message)]: the error is recorded and the field
    leaves [cleaned_data]. *)
Definition add_error (field message : string) (form : t) : t :=
  {| cleaned_data := delete field (cleaned_data form);
     errors := errors form ++ [(field, message)] |}.

(** [not v] for [v = cleaned_data.get(...)]. *)
Definition blank (v : option string) : bool :=
  match v with
  | Some s => String.eqb s ""
  | None => true
  end.

(** [StationSearchForm.clean]. *)
Definition clean (form : t) : t :=
  let search_type := cleaned_data form !! "search_type" in
  let zip_code := cleaned_data form !! "zip_code" in
  let city_state := cleaned_data form !! "city_state" in
  if bool_decide (search_type = Some "zip") && blank zip_code
  then add_error "zip_code" "Zip code is required when searching by zip." form
  else if bool_decide (search_type = Some "city") && blank city_state
  then add_error "city_state"
         "City and state are required when searching by city." form
  else form.

Definition full_clean (data : gmap string string) : t :=
  clean (foldl (clean_field data) {| cleaned_data := ∅; errors := [] |} fields).

(** [StationSearchForm(request.GET or None)]: a query string without
    parameters leaves the form unbound ([None]). *)
Definition bind_form (GET : gmap string string) : option t :=
  if Nat.eqb (size GET) 0 then None else Some (full_clean GET).

Definition is_valid (form : option t) : bool :=
  match form with
  | Some f => match errors f with [] => true | _ => false end
  | None => false
  end.

(** [form.cleaned_data[k]]. *)
Definition cleaned (form : t) (k : string) : outcome string :=
  match cleaned_data form !! k with
  | Some v => Returns v
  | None => Raises KeyError
  end.

End StationSearchForm.

(** ** [evolve_site/views.py]: the station list, from the request on *)

Module StationListRequest.

(** Lines 219 to 230 of [get_context_data]: the location the search runs
    on, [None] when the form is unbound or invalid. *)
Definition location (form : option StationSearchForm.t) : outcome (option string) :=
  match form with
  | Some f =>
      if StationSearchForm.is_valid form then
        search_type ← StationSearchForm.cleaned f "search_type";
        if String.eqb search_type "zip"
        then (zip_code ← StationSearchForm.cleaned f "zip_code";
              Returns (Some zip_code))
        else (city_state ← StationSearchForm.cleaned f "city_state";
              Returns (Some city_state))
      else Returns None
  | None => Returns None
  end.

(** [StationListView.get_context_data] on the query parameters [GET]. *)
Definition get_context_data (env : Env) (GET : gmap string string) : M Context :=
  loc ← lift (location (StationSearchForm.bind_form GET));
  StationListView.get_context_data env loc (GET !! "page").

End StationListRequest.

(** ** [evolve_site/models.py]: the vehicle table, and its lookups in
    [evolve_site/views.py] *)

(** A row of the table [vehicles]; the battery capacity, a decimal with
    one place, is counted in tenths of a kWh. *)
Record ElectricVehicle : Type := {
  manufacturer : string;
  model : string;
  model_year : Z;
  battery_capacity_kwh : Z;
  epa_range_miles : Z
}.

(** The queries run on a table the application does not manage
    ([managed = False]): the order of [order_by] on a text column is the
    collation of that table, [collate], which is left open.  The
    statements below take it to be a total order on strings, as a binary
    or any other deterministic collation is. *)
Section WithCollation.
Context (collate : relation string) `{!∀ x y, Decision (collate x y)}.

(** [.values_list(field, flat=True).distinct().order_by(field)] on a text
    column, and [.order_by('-model_year')] on the years. *)
Definition distinct_ordered (values : list string) : list string :=
  merge_sort collate (remove_dups values).

Definition distinct_descending (values : list Z) : list Z :=
  merge_sort Z.ge (remove_dups values).

(** What [filter(model_year=year)] makes of a year that came as text:
    [IntegerField.get_prep_value] calls [int] and lets its [ValueError]
    out. *)
Definition prep_year (env : Env) (year : string) : outcome Z :=
  match int_of_str env year with
  | Some n => Returns n
  | None => Raises ValueError
  end.

Definition manufacturers_of (env : Env) (table : list ElectricVehicle)
    (year : string) : outcome (list string) :=
  n ← prep_year env year;
  Returns (distinct_ordered (manufacturer <$> filter (λ v, model_year v = n) table)).

Definition models_of (env : Env) (table : list ElectricVehicle)
    (year make : string) : outcome (list string) :=
  n ← prep_year env year;
  Returns (distinct_ordered
             (model <$> filter (λ v, model_year v = n ∧ manufacturer v = make) table)).

(** [get_manufacturers(request)]. *)
Definition get_manufacturers (env : Env) (table : list ElectricVehicle)
    (GET : gmap string string) : outcome JsonResponse :=
  let year := GET !! "year" in
  manufacturers ←
    (if negb (StationSearchForm.blank year)
     then manufacturers_of env table (default "" year)
     else Returns []);
  Returns {| response_status := 200;
             content := {[ "manufacturers" := VList (VStr <$> manufacturers) ]} |}.

(** [get_models(request)]. *)
Definition get_models (env : Env) (table : list ElectricVehicle)
    (GET : gmap string string) : outcome JsonResponse :=
  let year := GET !! "year" in
  let make := GET !! "manufacturer" in
  models ←
    (if negb (StationSearchForm.blank year) && negb (StationSearchForm.blank make)
     then models_of env table (default "" year) (default "" make)
     else Returns []);
  Returns {| response_status := 200;
             content := {[ "models" := VList (VStr <$> models) ]} |}.

(** The three choice lists [Level2ChargerCalculatorView.get_form] sets on
    the form. *)
Record Choices : Type := {
  model_year_choices : list (pyval * pyval);
  manufacturer_choices : list (string * string);
  model_choices : list (string * string)
}.

(** [a or b] on two values of [QueryDict.get]. *)
Definition or_else (a b : option string) : option string :=
  if StationSearchForm.blank a then b else a.

(** [Level2ChargerCalculatorView.get_form], as far as the choices go. *)
Definition get_form (env : Env) (table : list ElectricVehicle)
    (POST GET : gmap string string) : outcome Choices :=
  let year_choices :=
    (VStr "", VStr "--- Choose a Year ---")
    :: ((λ y, (VInt y, VInt y)) <$> distinct_descending (model_year <$> table)) in
  let year := or_else (POST !! "model_year") (GET !! "model_year") in
  makes ←
    (if negb (StationSearchForm.blank year)
     then (manufacturers ← manufacturers_of env table (default "" year);
           Returns (("", "--- Choose a Make ---")
                    :: ((λ m, (m, m)) <$> manufacturers)))
     else Returns [("", "--- Choose a Make ---")]);
  let make := or_else (POST !! "manufacturer") (GET !! "manufacturer") in
  models ←
    (if negb (StationSearchForm.blank year) && negb (StationSearchForm.blank make)
     then (models ← models_of env table (default "" year) (default "" make);
           Returns (("", "--- Choose a Model ---") :: ((λ m, (m, m)) <$> models)))
     else Returns [("", "--- Choose a Model ---")]);
  Returns {| model_year_choices := year_choices;
             manufacturer_choices := makes;
             model_choices := models |}.

End WithCollation.

(** ** [evolve/settings/production.py]: the host lists *)

Module production.

(** [s.split(sep)] for a separator of one character. *)
Fixpoint split (sep : ascii) (s : string) : list string :=
  match s with
  | EmptyString => [EmptyString]
  | String c s' =>
      if Ascii.eqb c sep then EmptyString :: split sep s'
      else match split sep s' with
           | piece :: pieces => String c piece :: pieces
           | [] => [String c EmptyString]
           end
  end.

(** [[h.strip() for h in hosts if h.strip()]]. *)
Definition stripped (hosts : list string) : list string :=
  omap (λ h, if String.eqb (Py.strip h) "" then None else Some (Py.strip h)) hosts.

(** [os.environ.get(name, '')]. *)
Definition environ_get (environ : gmap string string) (name : string) : string :=
  default "" (environ !! name).

Definition ALLOWED_HOSTS (environ : gmap string string) : list string :=
  stripped (split "," (environ_get environ "ALLOWED_HOSTS")) ++ [".run.app"].

Definition CSRF_TRUSTED_ORIGINS (environ : gmap string string) : list string :=
  stripped (split "," (environ_get environ "CSRF_TRUSTED_ORIGINS")).

End production.

(** ** Auxiliary definitions for the statements *)

(** The exceptions of the loop are not among those [get_stations] catches. *)
Definition uncaught (e : exn) : Prop :=
  existsb (Py.isinstance e) [RequestException; ValueError] = false.

Definition geocoded (zip_code : string) (st : state) : state :=
  {| rows := rows st; trace := trace st ++ [EvGeocode (zip_code +:+ ", USA") 5] |}.

Definition inserted (row : StationStatus) (st : state) : state :=
  {| rows := rows st ++ [row]; trace := trace st ++ [EvDbInsert row] |}.

Definition success_response (status_ : string) : JsonResponse :=
  {| response_status := 200;
     content := {[ "success" := VBool true; "status" := VStr status_ ]} |}.

(** The page number [get_page] settles on. *)
Definition settled_page env (stations : list dict) (arg : page_arg) : Z :=
  match match arg with
        | PageInt n => Some n
        | PageStr s => int_of_str env s
        | PageNone => None
        end with
  | None => 1
  | Some n =>
      if Z.ltb n 1 then Paginator.num_pages stations 10
      else if Z.ltb (Paginator.num_pages stations 10) n
           then Paginator.num_pages stations 10
           else n
  end.

(** The timestamps the second query of the merge filters on. *)
Definition latest_stamps (station_ids : list string) (rs : list StationStatus)
    : list Z :=
  (map_to_list
     (Py.dict_of (objects.values_annotate_latest
                    (filter (λ r, nrel_station_id r ∈ station_ids) rs)))).*2.

Definition queried (station_ids : list string) (st : state) : state :=
  {| rows := rows st;
     trace := trace st ++ [EvDbLatest station_ids;
                           EvDbRecords station_ids
                             (latest_stamps station_ids (rows st))] |}.

Definition is_select (ev : event) : bool :=
  match ev with
  | EvDbLatest _ | EvDbRecords _ _ => true
  | _ => false
  end.

(** A computation that leaves the rows of the status table as they are. *)
Definition read_only {A : Type} (m : M A) : Prop :=
  ∀ st, rows (m st).2 = rows st.

(** Whether a text starts, or ends, with a whitespace character, and
    whether it holds a given character. *)
Definition first_is_space (s : string) : bool :=
  match s with
  | EmptyString => false
  | String c _ => Py.is_space c
  end.

Fixpoint last_is_space (s : string) : bool :=
  match s with
  | EmptyString => false
  | String c EmptyString => Py.is_space c
  | String _ s' => last_is_space s'
  end.

Fixpoint has_char (c : ascii) (s : string) : bool :=
  match s with
  | EmptyString => false
  | String c' s' => Ascii.eqb c' c || has_char c s'
  end.

(** [sep.join(pieces)] for a separator of one character. *)
Fixpoint join (sep : ascii) (pieces : list string) : string :=
  match pieces with
  | [] => EmptyString
  | [piece] => piece
  | piece :: pieces' => piece +:+ String sep (join sep pieces')
  end.

(** The remote calls of one station search, in order: none without a
    credential, else the geocoding of the location and, when it gives
    coordinates, the one request to the station finder. *)
Definition remote_calls (env : Env) (location : string) : list event :=
  match NREL_API_KEY env with
  | Some api_key =>
      if Py.truthy (VStr api_key) then
        EvGeocode (location +:+ ", USA") 5
        :: match geocoder env (location +:+ ", USA") with
           | GeoLocation latitude longitude =>
               [EvHttpGet NRELClient.BASE_URL
                  (NRELClient.request_params api_key latitude longitude) 5]
           | _ => []
           end
      else []
  | None => []
  end.

Definition is_remote (ev : event) : bool :=
  match ev with
  | EvGeocode _ _ | EvHttpGet _ _ _ => true
  | _ => false
  end.

(** The page numbers of a listing, from 1 to the number of pages. *)
Definition page_numbers (stations : list dict) : list Z :=
  Z.of_nat <$> seq 1 (Z.to_nat (Paginator.num_pages stations 10)).

(** A status table on which no two rows carry the same timestamp. *)
Definition distinct_stamp_table : state :=
  {| rows := [ report_1_working; report_1_broken;
               {| nrel_station_id := "2"; status := "Busy";
                  user := Some 3; updated_at := 25 |} ];
     trace := [] |}.

(** A row as the submission view stores it: one of the three statuses, an
    identifier that is not empty, has no whitespace around it and no null
    character, and a user. *)
Definition submitted_shape (r : StationStatus) : Prop :=
  status r ∈ ["Working"; "Broken"; "Busy"]
  ∧ nrel_station_id r ≠ ""
  ∧ first_is_space (nrel_station_id r) = false
  ∧ last_is_space (nrel_station_id r) = false
  ∧ StationStatusForm.has_nul (nrel_station_id r) = false
  ∧ is_Some (user r).

(** The state after a sequence of POST requests, each with its clock. *)
Definition after_requests (requests : list (Env * Request)) (st : state) : state :=
  foldl (λ st er, (SubmitStationStatusView.dispatch er.1 er.2 st).2) st requests.

(** The answer to [invalid_status_post]. *)
Definition invalid_status_response : JsonResponse :=
  {| response_status := 400;
     content :=
       {[ "success" := VBool false;
          "errors" :=
            VDict {[ "status" :=
                       VList [VStr ("Select a valid choice. InvalidStatus is not "
                                    +:+ "one of the available choices.")] ]} ]} |}.

(** The query parameters of a search by zip code, and of one whose zip
    code is missing. *)
Definition zip_search : gmap string string :=
  {[ "search_type" := "zip"; "zip_code" := " 79101 " ]}.

Definition zip_missing : gmap string string := {[ "search_type" := "zip" ]}.

(** The message of the station list, and the two contexts without
    stations: the one of a request without a valid search, and the one of
    a search that found nothing. *)
Definition no_stations_message : string :=
  "No stations found or API unavailable. Please try again.".

Definition no_search_context : Context :=
  {| page_obj := {| object_list := []; number := 1 |};
     paginator_num_pages := 1;
     error_message := None |}.

Definition no_stations_context : Context :=
  {| page_obj := {| object_list := []; number := 1 |};
     paginator_num_pages := 1;
     error_message := Some no_stations_message |}.

(** The context of the search of the test: the one station of the
    response that has DC-fast ports, with its estimate and the status
    reported for it. *)
Definition found_context : Context :=
  {| page_obj :=
       {| object_list :=
            [<["local_status" := VStr "Broken"]>
               (<["max_power_kw" := VInt 150]> supercharger)];
          number := 1 |};
     paginator_num_pages := 1;
     error_message := None |}.

(** A vehicle table: three vehicles of 2024 by two makers, one of 2023. *)
Definition vehicle (make name : string) (year : Z) : ElectricVehicle :=
  {| manufacturer := make; model := name; model_year := year;
     battery_capacity_kwh := 750; epa_range_miles := 300 |}.

Definition sample_vehicles : list ElectricVehicle :=
  [ vehicle "Tesla" "Model Y" 2024; vehicle "Hyundai" "Ioniq 5" 2024;
    vehicle "Tesla" "Model 3" 2024; vehicle "Tesla" "Model 3" 2023 ].

(** The manufacturers, and the models, as the two lookups answer them. *)
Definition manufacturers_response (names : list string) : JsonResponse :=
  {| response_status := 200;
     content := {[ "manufacturers" := VList (VStr <$> names) ]} |}.

Definition models_response (names : list string) : JsonResponse :=
  {| response_status := 200;
     content := {[ "models" := VList (VStr <$> names) ]} |}.

(** A vehicle of the table for a year given as text, and one of a maker. *)
Definition of_year (env : Env) (year : option string) (v : ElectricVehicle) : Prop :=
  ∃ y n, year = Some y ∧ y ≠ "" ∧ int_of_str env y = Some n ∧ model_year v = n.

Definition of_make (make : option string) (v : ElectricVehicle) : Prop :=
  ∃ m, make = Some m ∧ m ≠ "" ∧ manufacturer v = m.

(** The choices of the form for the Tesla vehicles of 2024. *)
Definition tesla_2024 : gmap string string :=
  {[ "model_year" := "2024"; "manufacturer" := "Tesla" ]}.

Definition tesla_2024_choices : Choices :=
  {| model_year_choices :=
       [ (VStr "", VStr "--- Choose a Year ---");
         (VInt 2024, VInt 2024); (VInt 2023, VInt 2023) ];
     manufacturer_choices :=
       [ ("", "--- Choose a Make ---"); ("Hyundai", "Hyundai"); ("Tesla", "Tesla") ];
     model_choices :=
       [ ("", "--- Choose a Model ---"); ("Model 3", "Model 3");
         ("Model Y", "Model Y") ] |}.

(** An entry of a host list as the settings keep it: not empty, without
    whitespace around it, without a comma. *)
Definition clean_entry (h : string) : Prop :=
  h ≠ "" ∧ first_is_space h = false ∧ last_is_space h = false
  ∧ has_char "," h = false.

(** An environment that lists two hosts, the second one padded. *)
Definition two_hosts : gmap string string :=
  {[ "ALLOWED_HOSTS" := "example.com, api.example.com " ]}.

(** * Theorems *)

(** A closed equation between two values that compute is settled by
    evaluating both sides. *)
Ltac by_evaluation :=
  lazymatch goal with
  | |- @eq ?T ?l ?r => vm_cast_no_check (@eq_refl T r)
  end.

(** ** Strings *)

Lemma append_nil (s : string) : "" +:+ s = s.
Proof. reflexivity. Qed.

Lemma append_cons (c : ascii) (a b : string) :
  String c a +:+ b = String c (a +:+ b).
Proof. reflexivity. Qed.

Lemma prefix_app (n h : string) :
  String.prefix n h = true ↔ ∃ post, h = n +:+ post.
Proof.
  revert h. induction n as [|c n IH]; intros h.
  - destruct h; (split; [intros _; by eexists | done]).
  - destruct h as [|c' h]; simpl.
    + split; [done | intros [post H]; by rewrite append_cons in H].
    + destruct (Ascii.ascii_dec c c') as [->|Hne].
      * rewrite IH. split; intros [post H]; exists post.
        -- by rewrite append_cons, H.
        -- rewrite append_cons in H. by injection H.
      * split; [done | intros [post H]; rewrite append_cons in H; congruence].
Qed.

Lemma contains_unfold (n h : string) :
  Py.contains n h =
  if String.prefix n h then true
  else match h with
       | EmptyString => false
       | String _ h' => Py.contains n h'
       end.
Proof. by destruct h. Qed.

(** [needle in hay] holds exactly when [hay] has [needle] as a substring. *)
Lemma contains_substring (n h : string) :
  Py.contains n h = true ↔ ∃ pre post, h = pre +:+ n +:+ post.
Proof.
  induction h as [|c h IH]; rewrite contains_unfold.
  - destruct (String.prefix n "") eqn:Hp.
    + apply prefix_app in Hp as [post Hp]. split; [|done].
      intros _. by exists "", post.
    + split; [done|]. intros (pre & post & H).
      destruct pre; [|by rewrite append_cons in H].
      assert (String.prefix n "" = true) by (apply prefix_app; eauto).
      congruence.
  - destruct (String.prefix n (String c h)) eqn:Hp.
    + apply prefix_app in Hp as [post Hp]. split; [|done].
      intros _. by exists "", post.
    + rewrite IH. split.
      * intros (pre & post & ->). by exists (String c pre), post.
      * intros (pre & post & H). destruct pre as [|c' pre].
        -- assert (String.prefix n (String c h) = true) by (apply prefix_app; eauto).
           congruence.
        -- exists pre, post. rewrite append_cons in H. congruence.
Qed.

Lemma upper_app (a b : string) :
  Py.upper (a +:+ b) = Py.upper a +:+ Py.upper b.
Proof.
  induction a as [|c a IH]; [done|].
  rewrite append_cons. simpl. by rewrite IH.
Qed.

Lemma upper_split (s a b : string) :
  Py.upper s = a +:+ b →
  ∃ s1 s2, s = s1 +:+ s2 ∧ Py.upper s1 = a ∧ Py.upper s2 = b.
Proof.
  revert s. induction a as [|c a IH]; intros s H.
  - by exists "", s.
  - rewrite append_cons in H.
    destruct s as [|c' s]; simpl in H; [done|].
    injection H as Hc H. apply IH in H as (s1 & s2 & -> & <- & <-).
    exists (String c' s1), s2. simpl. by rewrite Hc.
Qed.

(** The match of a rule is a case-insensitive substring match: the network
    has a substring whose upper-case form is the rule's name. *)
Lemma contains_upper_case_insensitive (name network : string) :
  Py.contains name (Py.upper network) = true ↔
  ∃ pre mid post, network = pre +:+ mid +:+ post ∧ Py.upper mid = name.
Proof.
  rewrite contains_substring. split.
  - intros (a & b & H).
    apply upper_split in H as (pre & rest & -> & _ & H).
    apply upper_split in H as (mid & post & -> & H & _).
    eauto.
  - intros (pre & mid & post & -> & <-).
    exists (Py.upper pre), (Py.upper post). by rewrite !upper_app.
Qed.

(** ** The power estimator *)

(** The cases of [NRELClientTest]. *)
Example test_extract_max_power_tesla :
  NRELClient.extract_max_power tesla_v3 = Returns (VInt 250)
  ∧ NRELClient.extract_max_power tesla_v2 = Returns (VInt 150).
Proof. split; by_evaluation. Qed.

Example test_extract_max_power_electrify_america :
  NRELClient.extract_max_power ea_station = Returns (VInt 350).
Proof. by_evaluation. Qed.

Example test_extract_max_power_explicit :
  NRELClient.extract_max_power explicit_station = Returns (VInt 175).
Proof. by_evaluation. Qed.

Lemma typed_station_network (station : dict) :
  Spec.typed_station station = true →
  Py.get station "ev_network" (VStr "") = VStr (Spec.network_name station).
Proof.
  unfold Spec.typed_station, Spec.network_name, Py.get.
  destruct (station !! "ev_network") as [[]|]; simpl; done.
Qed.

Lemma typed_station_name (station : dict) :
  Spec.typed_station station = true →
  ∃ s, Py.get station "station_name" (VStr "") = VStr s.
Proof.
  unfold Spec.typed_station, Py.get. rewrite !andb_true_iff.
  intros [[_ H] _]. destruct (default _ _); try done. eauto.
Qed.

Lemma typed_station_date (station : dict) :
  Spec.typed_station station = true →
  Py.contains "TESLA" (Py.upper (Spec.network_name station)) = true →
  negb (Py.truthy (Py.get station "open_date" (VStr "")))
  || Spec.is_str (Py.get station "open_date" (VStr "")) = true.
Proof.
  unfold Spec.typed_station. rewrite !andb_true_iff. intros [_ H] E.
  by rewrite E in H.
Qed.

(** What the branch on the open date computes, against rule 2. *)
Lemma tesla_branch (station : dict) :
  negb (Py.truthy (Py.get station "open_date" (VStr "")))
  || Spec.is_str (Py.get station "open_date" (VStr "")) = true →
  (let open_date := Py.get station "open_date" (VStr "") in
   v3 ← (if Py.truthy open_date then Py.ge_str open_date "2020-01-01"
         else Returns false);
   if (v3 : bool) then Returns (VInt 250)
   else
     v2 ← (if Py.truthy open_date then Py.ge_str open_date "2012-01-01"
           else Returns false);
     if (v2 : bool) then Returns (VInt 150) else Returns (VInt 150))
  = Returns (Spec.tesla_power (Spec.open_date station)).
Proof.
  unfold Spec.open_date, Py.get.
  intros H. destruct (station !! "open_date") as [d|]; simpl in *; [|done].
  destruct d as [|b|n|f|s|l|m]; simpl in *;
    rewrite ?orb_false_r, ?orb_true_r in H;
    try (apply negb_true_iff in H; rewrite H; done); [done|].
  destruct (String.eqb s "") eqn:E; simpl; [done|].
  destruct (String.leb "2020-01-01" s); simpl; [done|].
  by destruct (String.leb "2012-01-01" s).
Qed.

Lemma compare_app (a a' b b' : string) :
  String.length a = String.length a' →
  String.compare (a +:+ b) (a' +:+ b')
  = match String.compare a a' with
    | Eq => String.compare b b'
    | c => c
    end.
Proof.
  revert a'. induction a as [|c a IH]; intros [|c' a'] Hlen; try done.
  rewrite !append_cons. simpl. destruct (Ascii.compare c c'); [|done..].
  apply IH. simpl in Hlen. congruence.
Qed.

Lemma four_digits_compare (y : Z) :
  0 ≤ y < 10000 → String.compare "2020" (Spec.four_digits y) = (2020 ?= y).
Proof.
  intros Hy.
  assert (forallb (λ y, bool_decide (String.compare "2020" (Spec.four_digits y)
                                      = (2020 ?= y)))
            (seqZ 0 10000) = true) as H by by_evaluation.
  rewrite forallb_forall in H. apply (bool_decide_eq_true_1 _), H.
  apply list_elem_of_In, elem_of_seqZ. lia.
Qed.

Lemma month_day_compare (m d : Z) :
  1 ≤ m ≤ 12 → 1 ≤ d ≤ 31 →
  String.compare "-01-01" ("-" +:+ Spec.two_digits m +:+ "-" +:+ Spec.two_digits d)
  ≠ Gt.
Proof.
  intros Hm Hd.
  assert (forallb (λ m, forallb (λ d,
            bool_decide (String.compare "-01-01"
                           ("-" +:+ Spec.two_digits m +:+ "-" +:+ Spec.two_digits d)
                         ≠ Gt)) (seqZ 1 31)) (seqZ 1 12) = true) as H
    by by_evaluation.
  rewrite forallb_forall in H.
  assert (In m (seqZ 1 12)) as Hm' by (apply list_elem_of_In, elem_of_seqZ; lia).
  specialize (H m Hm'). rewrite forallb_forall in H.
  apply (bool_decide_eq_true_1 _), H. apply list_elem_of_In, elem_of_seqZ. lia.
Qed.

(** On calendar dates in the provider's format the comparison of texts is
    the comparison of dates: a date is at or after 2020-01-01 exactly when
    its year is 2020 or later. *)
Lemma iso_date_from_2020 (y m d : Z) :
  0 ≤ y < 10000 → 1 ≤ m ≤ 12 → 1 ≤ d ≤ 31 →
  String.leb "2020-01-01" (Spec.iso_date y m d) = Z.leb 2020 y.
Proof.
  intros Hy Hm Hd. unfold String.leb, Spec.iso_date.
  change "2020-01-01" with ("2020" +:+ "-01-01").
  rewrite compare_app by done. rewrite four_digits_compare by done.
  pose proof (month_day_compare m d Hm Hd) as Hmd.
  destruct (Z.compare_spec 2020 y) as [E|E|E].
  - destruct (String.compare _ _); [| |done]; symmetry; apply Z.leb_le; lia.
  - symmetry. apply Z.leb_le. lia.
  - symmetry. apply Z.leb_gt. lia.
Qed.

(** Rule 2 on a calendar date. *)
Lemma tesla_power_iso_date (y m d : Z) :
  0 ≤ y < 10000 → 1 ≤ m ≤ 12 → 1 ≤ d ≤ 31 →
  Spec.tesla_power (Some (Spec.iso_date y m d))
  = if Z.leb 2020 y then VInt 250 else VInt 150.
Proof.
  intros Hy Hm Hd. unfold Spec.tesla_power. by rewrite iso_date_from_2020.
Qed.

Lemma rule_value_tesla (date : option string) :
  Spec.tesla_power date ∈ Spec.rule_values.
Proof.
  unfold Spec.tesla_power, Spec.rule_values.
  destruct date as [d|]; [destruct (String.leb _ d)|]; set_solver.
Qed.

(** Past the explicit field, a typed record gets the value of the first
    rule its network matches. *)
Ltac network_rules_cascade station Ht :=
  rewrite (typed_station_network station Ht);
  destruct (typed_station_name station Ht) as [name ->];
  pose proof (typed_station_date station Ht) as Hdate;
  simpl; unfold Spec.estimate_power, Spec.network_rules, Spec.matches; simpl;
  destruct (Py.contains "TESLA" (Py.upper (Spec.network_name station)));
  simpl;
  [ pose proof (tesla_branch station (Hdate eq_refl)) as Hb;
    cbv zeta in Hb; rewrite Hb;
    (eexists; split; [reflexivity|]; split; [reflexivity|];
     right; apply rule_value_tesla)
  | repeat match goal with
      | |- context [Py.contains ?r (Py.upper ?s)] =>
          destruct (Py.contains r (Py.upper s)); simpl
      end;
    (eexists; split; [reflexivity|]; split; [reflexivity|];
     right; unfold Spec.rule_values; set_solver) ].

Lemma extract_max_power_estimate (station : dict) :
  Spec.explicit_power station ≠ None ∨ Spec.typed_station station = true →
  ∃ v, NRELClient.extract_max_power station = Returns v
       ∧ v = Spec.estimate_power (Spec.explicit_power station)
               (Spec.network_name station) (Spec.open_date station)
       ∧ (Spec.explicit_power station = Some v ∨ v ∈ Spec.rule_values).
Proof.
  unfold NRELClient.extract_max_power, Spec.explicit_power, Py.has_key, Py.getitem.
  destruct (station !! "ev_dc_fast_charger_power") as [p|].
  - rewrite bool_decide_true by eauto. simpl.
    destruct (Py.truthy p); simpl.
    + intros _. exists p. auto.
    + intros [?|Ht]; [done|]. network_rules_cascade station Ht.
  - rewrite bool_decide_false by (by intros [? ?]). simpl.
    intros [?|Ht]; [done|]. network_rules_cascade station Ht.
Qed.

Ltac typed_or_raises station :=
  unfold Spec.typed_station, Spec.network_name, Py.get;
  destruct (station !! "ev_network") as [[]|]; simpl; try done;
  (destruct (station !! "station_name") as [[]|]; simpl; try done);
  (destruct (Py.contains "TESLA" _); simpl; [|done]);
  (destruct (station !! "open_date") as [[]|]; simpl; try done);
  repeat (case_match; simpl in *; try done).

(** The estimator returns on no other record. *)
Lemma extract_max_power_returns (station : dict) (v : pyval) :
  NRELClient.extract_max_power station = Returns v →
  Spec.explicit_power station ≠ None ∨ Spec.typed_station station = true.
Proof.
  unfold NRELClient.extract_max_power, Spec.explicit_power, Py.has_key, Py.getitem.
  destruct (station !! "ev_dc_fast_charger_power") as [p|].
  - rewrite bool_decide_true by eauto. simpl.
    destruct (Py.truthy p); simpl; [by left|].
    intros H. right. revert H. typed_or_raises station.
  - rewrite bool_decide_false by (by intros [? ?]). simpl.
    intros H. right. revert H. typed_or_raises station.
Qed.

(** C2: the estimator is not total.  On a record whose network is [null]
    it raises [AttributeError], where the rules of the claim give 50, no
    network name matching; and on a record of a known network whose
    station name, which no rule reads, is [null] it raises as well, where
    the rules give 50 for Blink.  The code does default a network that is
    missing and does guard an open date that is [null]: those records get
    their value.  On every record with an explicit power, or typed as the
    provider types it, the estimator returns the value that the
    precedence of the rules gives, case-insensitively ([tesla_v3] names
    its network in lower case). *)
Theorem extract_max_power_null_network :
  NRELClient.extract_max_power null_network = Raises AttributeError
  ∧ Spec.estimate_power (Spec.explicit_power null_network)
      (Spec.network_name null_network) (Spec.open_date null_network) = VInt 50
  ∧ NRELClient.extract_max_power null_station_name = Raises AttributeError
  ∧ Spec.estimate_power (Spec.explicit_power null_station_name)
      (Spec.network_name null_station_name) (Spec.open_date null_station_name)
    = VInt 50
  ∧ NRELClient.extract_max_power ∅ = Returns (VInt 50)
  ∧ NRELClient.extract_max_power null_open_date = Returns (VInt 150)
  ∧ NRELClient.extract_max_power tesla_v3 = Returns (VInt 250)
  ∧ (∀ station : dict,
       Spec.explicit_power station ≠ None ∨ Spec.typed_station station = true →
       ∃ v, NRELClient.extract_max_power station = Returns v
            ∧ v = Spec.estimate_power (Spec.explicit_power station)
                    (Spec.network_name station) (Spec.open_date station)
            ∧ (Spec.explicit_power station = Some v ∨ v ∈ Spec.rule_values))
  ∧ ¬ (∀ station : dict, ∃ v, NRELClient.extract_max_power station = Returns v).
Proof.
  assert (NRELClient.extract_max_power null_network = Raises AttributeError) as E
    by by_evaluation.
  split; [exact E|]. split; [by_evaluation|]. split; [by_evaluation|].
  split; [by_evaluation|]. split; [by_evaluation|]. split; [by_evaluation|].
  split; [by_evaluation|]. split.
  - intros station H. apply (extract_max_power_estimate station H).
  - intros H. destruct (H null_network) as [v Hv]. congruence.
Qed.

(** ** The station-source client *)

Lemma extract_max_power_insert_annotation (station : dict) (p : pyval) :
  NRELClient.extract_max_power (<["max_power_kw" := p]> station)
  = NRELClient.extract_max_power station.
Proof.
  unfold NRELClient.extract_max_power, Py.has_key, Py.getitem, Py.get.
  by rewrite !lookup_insert_ne by done.
Qed.

Lemma filter_loop_app (items : list pyval) (acc l : list dict) :
  NRELClient.filter_loop items acc = Returns l →
  ∃ kept, l = acc ++ kept ∧ Forall2 Spec.annotated (Spec.dc_fast_records items) kept.
Proof.
  revert acc l. induction items as [|station items IH]; intros acc l; simpl.
  - intros [= <-]. exists []. by rewrite app_nil_r.
  - destruct station as [| | | | | |d]; simpl; try done.
    unfold Spec.has_dc_fast.
    destruct (Py.gt_zero (Py.get d "ev_dc_fast_num" (VInt 0))) as [[]|]; simpl;
      [| apply IH | done].
    destruct (NRELClient.extract_max_power d) as [p|] eqn:Hp; simpl; [|done].
    intros H. apply IH in H as (kept & -> & HF).
    exists (<["max_power_kw" := p]> d :: kept). split.
    + by rewrite <- app_assoc.
    + constructor; [|done]. by exists p.
Qed.

Ltac run_M :=
  unfold NRELClient.get_stations, NRELClient.geocode_zip, try_except,
    mbind, M_bind, emit, lift, mret, M_ret in *; simpl in *.

Lemma geocode_zip_location env zip_code st lat lon :
  geocoder env (zip_code +:+ ", USA") = GeoLocation lat lon →
  NRELClient.geocode_zip env zip_code st
  = (Returns (Some lat, Some lon), geocoded zip_code st).
Proof. intros H. run_M. by rewrite H. Qed.

Lemma geocode_zip_no_result env zip_code st :
  geocoder env (zip_code +:+ ", USA") = GeoNone →
  NRELClient.geocode_zip env zip_code st = (Returns (None, None), geocoded zip_code st).
Proof. intros H. run_M. by rewrite H. Qed.

Lemma geocode_zip_error env zip_code st e :
  geocoder env (zip_code +:+ ", USA") = GeoRaises e →
  Py.isinstance e GeocoderServiceError = true →
  NRELClient.geocode_zip env zip_code st = (Returns (None, None), geocoded zip_code st).
Proof.
  intros H He. run_M. rewrite H. simpl.
  destruct e; simpl in *; done.
Qed.

(** C4: without a configured credential (the setting absent, or empty)
    [get_stations] returns the empty list at once; the state comes back
    as it was, so no geocoding and no HTTP request was made. *)
Theorem get_stations_without_credential env location st :
  NREL_API_KEY env = None ∨ NREL_API_KEY env = Some "" →
  NRELClient.get_stations env location st = (Returns [], st)
  ∧ trace (NRELClient.get_stations env location st).2 = trace st.
Proof.
  intros [H|H]; unfold NRELClient.get_stations; rewrite H; done.
Qed.

(** The theorem in an environment without a credential. *)
Lemma get_stations_without_credential_witness :
  NRELClient.get_stations (at_time 0) "79101" empty_state = (Returns [], empty_state)
  ∧ trace (NRELClient.get_stations (at_time 0) "79101" empty_state).2 = [].
Proof.
  apply (get_stations_without_credential (at_time 0) "79101" empty_state).
  left. reflexivity.
Defined.

(** The request [get_stations] sends, and what comes of the answer. *)
Lemma get_stations_request env location st answer :
  Spec.upstream_answer env location = Some answer →
  (NRELClient.get_stations env location st).1
  = match answer with
    | HttpResponse r =>
        Py.catch (_ ← NRELClient.raise_for_status r;
                  data ← NRELClient.json r;
                  stations ← Py.call_get data "fuel_stations" (VList []);
                  items ← Py.iter stations;
                  NRELClient.filter_loop items [])
          [RequestException; ValueError] (λ _, Returns [])
    | HttpRaises e =>
        Py.catch (Raises e) [RequestException; ValueError] (λ _, Returns [])
    end.
Proof.
  unfold Spec.upstream_answer, NRELClient.get_stations.
  destruct (NREL_API_KEY env) as [api_key|]; [|done].
  destruct (geocoder env (location +:+ ", USA")) as [lat lon| |e] eqn:Hg; [|done..].
  destruct (Py.truthy (VStr api_key)); [|done]. intros [= <-].
  cbn [negb]. cbv iota. unfold mbind at 1, M_bind at 1. cbv beta.
  rewrite (geocode_zip_location _ _ _ lat lon Hg).
  unfold try_except, mbind, M_bind, emit, lift, mret, M_ret, Py.catch; simpl.
  destruct (http_get _ _ _) as [r|e']; simpl.
  - destruct (NRELClient.raise_for_status r) as [[]|e1]; simpl.
    + destruct (NRELClient.json r) as [data|e2]; simpl.
      * destruct (Py.call_get data _ _) as [stations|e3]; simpl.
        -- destruct (Py.iter stations) as [items|e4]; simpl.
           ++ destruct (NRELClient.filter_loop items []) as [l|e5]; simpl; [done|].
              by destruct (_ || _).
           ++ by destruct (_ || _).
        -- by destruct (_ || _).
      * by destruct (_ || _).
    + by destruct (_ || _).
  - by destruct (_ || _).
Qed.

Lemma get_stations_no_request env location st :
  Spec.upstream_answer env location = None →
  (∀ e, geocoder env (location +:+ ", USA") = GeoRaises e →
        Py.isinstance e GeocoderServiceError = true) →
  (NRELClient.get_stations env location st).1 = Returns [].
Proof.
  unfold Spec.upstream_answer, NRELClient.get_stations.
  destruct (NREL_API_KEY env) as [api_key|]; [|done].
  destruct (Py.truthy (VStr api_key)); [|done]. cbn [negb]. cbv iota.
  unfold mbind at 1, M_bind at 1. cbv beta.
  destruct (geocoder env (location +:+ ", USA")) as [lat lon| |e] eqn:Hg; [done| |].
  - intros _ _. by rewrite (geocode_zip_no_result _ _ _ Hg).
  - intros _ He. by rewrite (geocode_zip_error _ _ _ e Hg (He e eq_refl)).
Qed.

(** The failure cases of [NRELClientTest]: a timeout, a request error, a
    body that is not JSON, a geocoding failure.  In the last one no HTTP
    request is made. *)
Example test_get_stations_failures :
  (NRELClient.get_stations (env_with amarillo (HttpRaises Timeout))
     "79101" empty_state).1 = Returns []
  ∧ (NRELClient.get_stations (env_with amarillo (HttpRaises RequestException))
       "79101" empty_state).1 = Returns []
  ∧ (NRELClient.get_stations
       (env_with amarillo (HttpResponse {| status_code := 200; body_json := None |}))
       "79101" empty_state).1 = Returns []
  ∧ NRELClient.get_stations (env_with GeoNone (HttpRaises Timeout))
      "00000" empty_state
    = (Returns [], {| rows := []; trace := [EvGeocode "00000, USA" 5] |}).
Proof. repeat split; by_evaluation. Qed.

(** Outside the failure modes above: a body that parses but holds a record
    whose port count is [null] makes the comparison with zero raise a
    [TypeError], which [get_stations] does not catch. *)
Example get_stations_null_count :
  (NRELClient.get_stations
     (env_with amarillo
        (HttpResponse {| status_code := 200; body_json := Some null_count_body |}))
     "79101" empty_state).1 = Raises TypeError.
Proof. by_evaluation. Qed.

(** C3, as amended: for every failure mode of a station search
    (geocoding without a result or with a service error, a request
    timeout, any transport error of [requests], a 4xx or 5xx status, a
    body that is not JSON) [get_stations] returns the empty list, so no
    exception reaches the caller. *)
Theorem get_stations_absorbs_failures env location st :
  Spec.failure_mode Spec.error_4xx_5xx env location →
  (NRELClient.get_stations env location st).1 = Returns [].
Proof.
  intros [Hg|e Hg He|Ha|e Ha He|r Ha Hs|r Ha Hb].
  - apply get_stations_no_request.
    + unfold Spec.upstream_answer. rewrite Hg. by destruct (NREL_API_KEY env).
    + intros e. by rewrite Hg.
  - apply get_stations_no_request.
    + unfold Spec.upstream_answer. rewrite Hg. by destruct (NREL_API_KEY env).
    + intros e'. rewrite Hg. by intros [= <-].
  - by rewrite (get_stations_request _ _ _ _ Ha).
  - rewrite (get_stations_request _ _ _ _ Ha). unfold Py.catch.
    cbn [existsb]. by rewrite He.
  - rewrite (get_stations_request _ _ _ _ Ha).
    unfold NRELClient.raise_for_status. unfold Spec.error_4xx_5xx in Hs.
    by rewrite Hs.
  - rewrite (get_stations_request _ _ _ _ Ha).
    unfold NRELClient.raise_for_status, NRELClient.json. rewrite Hb.
    by destruct (_ && _).
Qed.

(** The theorem at a response with status 503. *)
Lemma get_stations_absorbs_failures_witness :
  Spec.failure_mode Spec.error_4xx_5xx (env_status 503) "79101"
  ∧ (NRELClient.get_stations (env_status 503) "79101" empty_state).1 = Returns [].
Proof.
  assert (Spec.failure_mode Spec.error_4xx_5xx (env_status 503) "79101") as H.
  { apply (Spec.bad_http_status _ _ _
             {| status_code := 503; body_json := Some fuel_stations_body |});
      [by_evaluation | reflexivity]. }
  split; [exact H|].
  exact (get_stations_absorbs_failures (env_status 503) "79101" empty_state H).
Defined.

(** C3, as stated, fails: a response with status 300 is a non-2xx
    response, [raise_for_status] lets it pass, and its stations are
    returned. *)
Lemma non_2xx_status_not_absorbed :
  Spec.failure_mode Spec.non_2xx (env_status 300) "79101"
  ∧ (NRELClient.get_stations (env_status 300) "79101" empty_state).1
    = Returns [<["max_power_kw" := VInt 150]> supercharger]
  ∧ ¬ (∀ env location st, Spec.failure_mode Spec.non_2xx env location →
         (NRELClient.get_stations env location st).1 = Returns []).
Proof.
  assert (Spec.failure_mode Spec.non_2xx (env_status 300) "79101") as H.
  { apply (Spec.bad_http_status _ _ _
             {| status_code := 300; body_json := Some fuel_stations_body |});
      [by_evaluation | reflexivity]. }
  assert ((NRELClient.get_stations (env_status 300) "79101" empty_state).1
          = Returns [<["max_power_kw" := VInt 150]> supercharger]) as E.
  { by_evaluation. }
  split; [done|]. split; [done|].
  intros Hall. specialize (Hall _ _ empty_state H). rewrite E in Hall. done.
Qed.

Ltac network_branch_raises Hup Hge :=
  destruct (Py.call_upper (Py.get _ "ev_network" _)) as [network|e1] eqn:E1; simpl;
  try (intros [= <-]; by rewrite (Hup _ E1));
  destruct (Py.call_upper (Py.get _ "station_name" _)) as [name|e2] eqn:E2; simpl;
  try (intros [= <-]; by rewrite (Hup _ E2));
  destruct (Py.contains "TESLA" network); simpl;
  try (by repeat case_match);
  destruct (Py.truthy (Py.get _ "open_date" _)); simpl; try done;
  destruct (Py.ge_str _ "2020-01-01") as [[]|e3] eqn:E3; simpl; try done;
  try (intros [= <-]; by rewrite (Hge _ _ E3));
  destruct (Py.ge_str _ "2012-01-01") as [[]|e4] eqn:E4; simpl; try done;
  try (intros [= <-]; by rewrite (Hge _ _ E4)).

Lemma extract_max_power_raises station e :
  NRELClient.extract_max_power station = Raises e → uncaught e.
Proof.
  unfold NRELClient.extract_max_power, Py.has_key, Py.getitem, uncaught.
  assert (∀ v s, Py.ge_str v s = Raises e → e = TypeError) as Hge
    by (intros v s; destruct v; simpl; congruence).
  assert (∀ v, Py.call_upper v = Raises e → e = AttributeError) as Hup
    by (intros v; destruct v; simpl; congruence).
  destruct (station !! "ev_dc_fast_charger_power") as [p|].
  - rewrite bool_decide_true by eauto. simpl.
    destruct (Py.truthy p); simpl; [done|]. network_branch_raises Hup Hge.
  - rewrite bool_decide_false by (by intros [? ?]). simpl.
    network_branch_raises Hup Hge.
Qed.

Lemma filter_loop_raises items acc e :
  NRELClient.filter_loop items acc = Raises e → uncaught e.
Proof.
  revert acc. induction items as [|station items IH]; intros acc; simpl; [done|].
  destruct station as [| | | | | |d]; simpl; try (by intros [= <-]).
  destruct (Py.gt_zero _) as [[]|e'] eqn:Hn; simpl.
  - destruct (NRELClient.extract_max_power d) as [p|e'] eqn:Hp; simpl; [apply IH|].
    intros [= <-]. by eapply extract_max_power_raises.
  - apply IH.
  - intros [= <-]. unfold Py.gt_zero in Hn. by repeat case_match; simplify_eq.
Qed.

Lemma filter_loop_returns items acc :
  Forall (λ v, Spec.well_formed_record v = true) items →
  ∃ l, NRELClient.filter_loop items acc = Returns l.
Proof.
  intros H. revert acc. induction H as [|station items Hw _ IH]; intros acc; simpl.
  - eauto.
  - destruct station as [| | | | | |d]; simpl in Hw; try done. simpl.
    destruct (Py.gt_zero _) as [[]|e']; simpl; [|apply IH|done].
    destruct (extract_max_power_estimate d) as (p & -> & _).
    + apply orb_true_iff in Hw as [Hw|Hw]; [left|by right].
      apply bool_decide_eq_true in Hw as [? Hw]. by rewrite Hw.
    + simpl. apply IH.
Qed.

Lemma has_dc_fast_insert_annotation (d : dict) (p : pyval) :
  Spec.has_dc_fast (<["max_power_kw" := p]> d) = Spec.has_dc_fast d.
Proof. unfold Spec.has_dc_fast, Py.get. by rewrite lookup_insert_ne. Qed.

Lemma annotated_record (s r : dict) :
  Spec.annotated s r →
  ∃ p, r !! "max_power_kw" = Some p ∧ NRELClient.extract_max_power r = Returns p.
Proof.
  intros (p & Hp & ->). exists p.
  by rewrite lookup_insert_eq, extract_max_power_insert_annotation.
Qed.

Lemma dc_fast_records_positive (stations : list pyval) (d : dict) :
  d ∈ Spec.dc_fast_records stations ↔ VDict d ∈ stations ∧ Spec.has_dc_fast d = true.
Proof.
  unfold Spec.dc_fast_records. rewrite list_elem_of_omap. split.
  - intros (v & Hv & H). destruct v; try done.
    destruct (Spec.has_dc_fast d0) eqn:E; by simplify_eq.
  - intros [Hv H]. exists (VDict d). by rewrite H.
Qed.

(** A record without the port count, or with a count of zero, does not
    pass the filter. *)
Lemma has_dc_fast_zero_or_absent (d : dict) :
  d !! "ev_dc_fast_num" = None ∨ d !! "ev_dc_fast_num" = Some (VInt 0) →
  Spec.has_dc_fast d = false.
Proof. unfold Spec.has_dc_fast, Py.get. by intros [-> | ->]. Qed.

(** Whatever the environment, a list that [get_stations] returns is
    empty or is what the loop built from the stations of a response. *)
Lemma get_stations_returned env location st l :
  (NRELClient.get_stations env location st).1 = Returns l →
  l = [] ∨ ∃ items, NRELClient.filter_loop items [] = Returns l.
Proof.
  destruct (Spec.upstream_answer env location) as [answer|] eqn:Ha.
  - rewrite (get_stations_request _ _ _ _ Ha). unfold Py.catch.
    destruct answer as [r|e]; [|destruct (existsb _ _); [left|]; congruence].
    destruct (NRELClient.raise_for_status r) as [[]|e1]; simpl;
      [|destruct (_ || _); [left|]; congruence].
    destruct (NRELClient.json r) as [data|e2]; simpl;
      [|destruct (_ || _); [left|]; congruence].
    destruct (Py.call_get data _ _) as [stations|e3]; simpl;
      [|destruct (_ || _); [left|]; congruence].
    destruct (Py.iter stations) as [items|e4]; simpl;
      [|destruct (_ || _); [left|]; congruence].
    destruct (NRELClient.filter_loop items []) as [l'|e5] eqn:Hl; simpl;
      [|destruct (_ || _); [left|]; congruence].
    intros [= <-]. right. eauto.
  - intros H. left. revert Ha H.
    unfold Spec.upstream_answer, NRELClient.get_stations.
    destruct (NREL_API_KEY env) as [api_key|]; [|by intros _ [= <-]].
    destruct (Py.truthy (VStr api_key)); [|by intros _ [= <-]].
    cbn [negb]. cbv iota. unfold mbind at 1, M_bind at 1. cbv beta.
    destruct (geocoder env (location +:+ ", USA")) as [lat lon| |e] eqn:Hg; [done| |].
    + rewrite (geocode_zip_no_result _ _ _ Hg). by intros _ [= <-].
    + intros _. unfold NRELClient.geocode_zip, try_except, mbind, M_bind, emit,
        lift, mret, M_ret. simpl. rewrite Hg. simpl.
      destruct (_ || _); simpl; [by intros [= <-]|done].
Qed.

(** Hence every record [get_stations] returns, in any environment, has a
    DC-fast port count above zero and carries the estimator's value. *)
Lemma get_stations_records env location st l :
  (NRELClient.get_stations env location st).1 = Returns l →
  Forall (λ rec, Spec.has_dc_fast rec = true
                 ∧ ∃ p, rec !! "max_power_kw" = Some p
                        ∧ NRELClient.extract_max_power rec = Returns p) l.
Proof.
  intros H. apply get_stations_returned in H as [->|[items H]]; [done|].
  apply filter_loop_app in H as (kept & -> & HF). simpl.
  apply Forall_forall. intros rec Hrec.
  apply list_elem_of_lookup in Hrec as [i Hi].
  destruct (Forall2_lookup_r _ _ _ _ _ HF Hi) as (s & Hsi & Hann).
  assert (s ∈ Spec.dc_fast_records items) as Hin
    by (apply list_elem_of_lookup; eauto).
  apply dc_fast_records_positive in Hin as [_ Hpos].
  split; [|by eapply annotated_record].
  destruct Hann as (p & _ & ->). by rewrite has_dc_fast_insert_annotation.
Qed.

(** C5: on a successful response (a status that [raise_for_status]
    accepts, a JSON object whose [fuel_stations] is a list) the list
    [get_stations] returns is the list of the records with a DC-fast port
    count above zero, each with its estimated power attached: every
    returned record has a count above zero and carries under
    [max_power_kw] the value of the estimator on it, and a record with a
    zero or absent count has no place in the list.  The list is returned
    whenever the records are well formed. *)
Theorem get_stations_filters_and_annotates env location st r data stations :
  Spec.upstream_answer env location = Some (HttpResponse r) →
  Spec.error_4xx_5xx (status_code r) = false →
  body_json r = Some (VDict data) →
  Py.get data "fuel_stations" (VList []) = VList stations →
  (Forall (λ v, Spec.well_formed_record v = true) stations →
   ∃ l, (NRELClient.get_stations env location st).1 = Returns l)
  ∧ ∀ l, (NRELClient.get_stations env location st).1 = Returns l →
      Forall2 Spec.annotated (Spec.dc_fast_records stations) l
      ∧ Forall (λ rec, Spec.has_dc_fast rec = true
                       ∧ Py.gt_zero (Py.get rec "ev_dc_fast_num" (VInt 0)) = Returns true
                       ∧ ∃ p, rec !! "max_power_kw" = Some p
                              ∧ NRELClient.extract_max_power rec = Returns p) l
      ∧ (∀ d, d !! "ev_dc_fast_num" = None ∨ d !! "ev_dc_fast_num" = Some (VInt 0) →
              (d ∉ l) ∧ (∀ rec, rec ∈ l → ¬ Spec.annotated d rec)).
Proof.
  intros Ha Hs Hb Hd.
  rewrite (get_stations_request _ _ _ _ Ha).
  unfold NRELClient.raise_for_status, NRELClient.json, Spec.error_4xx_5xx in *.
  rewrite Hs, Hb. simpl. rewrite Hd. simpl.
  split.
  - intros Hw. destruct (filter_loop_returns stations [] Hw) as [l ->]. eauto.
  - intros l. destruct (NRELClient.filter_loop stations []) as [l'|e] eqn:Hl.
    + simpl. intros [= <-]. apply filter_loop_app in Hl as (kept & -> & HF).
      simpl. split; [done|].
      assert (∀ rec, rec ∈ kept → Spec.has_dc_fast rec = true
                ∧ ∃ p, rec !! "max_power_kw" = Some p
                       ∧ NRELClient.extract_max_power rec = Returns p) as Hkept.
      { intros rec Hrec. apply list_elem_of_lookup in Hrec as [i Hi].
        destruct (Forall2_lookup_r _ _ _ _ _ HF Hi) as (s & Hsi & Hann).
        assert (s ∈ Spec.dc_fast_records stations) as Hin
          by (apply list_elem_of_lookup; eauto).
        apply dc_fast_records_positive in Hin as [_ Hpos].
        split; [|by eapply annotated_record].
        destruct Hann as (p & _ & ->). by rewrite has_dc_fast_insert_annotation. }
      split.
      * apply Forall_forall. intros rec Hrec.
        destruct (Hkept rec Hrec) as [Hpos Hann]. split; [done|]. split; [|done].
        unfold Spec.has_dc_fast in Hpos.
        by destruct (Py.gt_zero _) as [[]|].
      * intros d Hz. apply has_dc_fast_zero_or_absent in Hz. split.
        -- intros Hin. destruct (Hkept d Hin) as [Hpos _]. congruence.
        -- intros rec Hrec (p & _ & ->). destruct (Hkept _ Hrec) as [Hpos _].
           rewrite has_dc_fast_insert_annotation in Hpos. congruence.
    + apply filter_loop_raises in Hl. unfold uncaught in Hl. simpl in *.
      by rewrite Hl.
Qed.

(** The theorem at a response with status 200 and two records, one of
    them without DC-fast ports. *)
Lemma get_stations_filters_and_annotates_witness :
  (NRELClient.get_stations (env_status 200) "79101" empty_state).1
  = Returns [<["max_power_kw" := VInt 150]> supercharger]
  ∧ Forall2 Spec.annotated
      (Spec.dc_fast_records [VDict supercharger; VDict level2_only])
      [<["max_power_kw" := VInt 150]> supercharger].
Proof.
  assert ((NRELClient.get_stations (env_status 200) "79101" empty_state).1
          = Returns [<["max_power_kw" := VInt 150]> supercharger]) as E
    by by_evaluation.
  split; [exact E|].
  refine (proj1 (proj2 (get_stations_filters_and_annotates (env_status 200) "79101"
            empty_state {| status_code := 200; body_json := Some fuel_stations_body |}
            {[ "fuel_stations" := VList [VDict supercharger; VDict level2_only] ]}
            [VDict supercharger; VDict level2_only] _ _ _ _) _ E)).
  - by_evaluation.
  - reflexivity.
  - reflexivity.
  - by_evaluation.
Defined.

(** ** The status submission *)

Lemma clean_status_choices (raw : option string) :
  Spec.status_in_choices raw = false →
  ∃ e, StationStatusForm.clean_status raw = inr e.
Proof.
  unfold Spec.status_in_choices, StationStatusForm.clean_status.
  destruct raw as [v|]; simpl; [|eauto].
  intros H. apply bool_decide_eq_false in H.
  destruct (String.eqb v "") eqn:E; [eauto|].
  destruct (String.eqb v "Working") eqn:E1;
    [apply String.eqb_eq in E1; subst; set_solver|].
  destruct (String.eqb v "Broken") eqn:E2;
    [apply String.eqb_eq in E2; subst; set_solver|].
  destruct (String.eqb v "Busy") eqn:E3;
    [apply String.eqb_eq in E3; subst; set_solver|].
  simpl. eauto.
Qed.

Lemma clean_status_inl (raw : option string) (v : string) :
  StationStatusForm.clean_status raw = inl v →
  raw = Some v ∧ Spec.status_in_choices raw = true.
Proof.
  destruct (Spec.status_in_choices raw) eqn:E.
  - unfold StationStatusForm.clean_status. destruct raw as [s|]; simpl; [|done].
    repeat case_match; by intros [= <-].
  - apply clean_status_choices in E as [e ->]. done.
Qed.

Lemma clean_station_id_inl (raw : option string) (v : string) :
  StationStatusForm.clean_station_id raw = inl v →
  ∃ sid, raw = Some sid ∧ v = Py.strip sid.
Proof.
  unfold StationStatusForm.clean_station_id.
  destruct raw as [sid|]; simpl; [|done].
  repeat case_match; intros [= <-]. eauto.
Qed.

Ltac run_submit :=
  unfold SubmitStationStatusView.dispatch, SubmitStationStatusView.post,
    StationStatusForm.bind_form, StationStatusForm.is_valid, objects.create,
    mbind, M_bind, mret, M_ret; simpl.

(** C6: an anonymous submission, and an authenticated one whose status is
    not one of Working, Broken and Busy, are both turned down without
    storing anything; the first with status 403 (authorization), the
    second with status 400 (validation), so the caller tells them apart,
    and neither answer is the success answer. *)
Theorem submission_rejected env request st :
  request_user request = None
  ∨ Spec.status_in_choices (POST request !! "status") = false →
  ∃ resp, SubmitStationStatusView.dispatch env request st = (Returns resp, st)
    ∧ Spec.rejection_of resp
      = Some (match request_user request with
              | None => Spec.AuthorizationFailure
              | Some _ => Spec.ValidationFailure
              end)
    ∧ response_status resp
      = match request_user request with None => 403 | Some _ => 400 end
    ∧ response_status resp ≠ 200
    ∧ content resp !! "success" = Some (VBool false).
Proof.
  intros H. run_submit.
  destruct (request_user request) as [u|].
  - destruct H as [?|H]; [done|].
    apply clean_status_choices in H as [e ->].
    destruct (StationStatusForm.clean_station_id _); simpl; eexists; done.
  - eexists. done.
Qed.

(** The theorem at an anonymous submission and at one with the status
    [InvalidStatus]. *)
Lemma submission_rejected_witness :
  (∃ resp, SubmitStationStatusView.dispatch (at_time 7) anonymous_post empty_state
           = (Returns resp, empty_state)
     ∧ response_status resp = 403)
  ∧ (∃ resp, SubmitStationStatusView.dispatch (at_time 7) invalid_status_post empty_state
             = (Returns resp, empty_state)
       ∧ response_status resp = 400).
Proof.
  split.
  - destruct (submission_rejected (at_time 7) anonymous_post empty_state)
      as (resp & E & _ & Hs & _); [left; reflexivity|].
    exists resp. split; [exact E | exact Hs].
  - destruct (submission_rejected (at_time 7) invalid_status_post empty_state)
      as (resp & E & _ & Hs & _); [right; by_evaluation|].
    exists resp. split; [exact E | exact Hs].
Defined.

(** What [dispatch] does with a request, by cases. *)
Lemma dispatch_cases env request st :
  match request_user request,
        StationStatusForm.clean_station_id (POST request !! "station_id"),
        StationStatusForm.clean_status (POST request !! "status") with
  | Some u, inl sid, inl s =>
      SubmitStationStatusView.dispatch env request st
      = (Returns (success_response s), inserted (Spec.submitted_row sid s u env) st)
  | _, _, _ =>
      ∃ resp, SubmitStationStatusView.dispatch env request st = (Returns resp, st)
              ∧ response_status resp ≠ 200
  end.
Proof.
  run_submit. destruct (request_user request) as [u|]; [|by eexists].
  destruct (StationStatusForm.clean_station_id _) as [sid|e1];
    destruct (StationStatusForm.clean_status _) as [s|e2]; simpl;
    first [done | by eexists].
Qed.

Lemma dispatch_success env request st resp st' :
  SubmitStationStatusView.dispatch env request st = (Returns resp, st') →
  response_status resp = 200 →
  ∃ u station_id status_,
    request_user request = Some u
    ∧ POST request !! "station_id" = Some station_id
    ∧ POST request !! "status" = Some status_
    ∧ StationStatusForm.clean_station_id (POST request !! "station_id")
      = inl (Py.strip station_id)
    ∧ StationStatusForm.clean_status (POST request !! "status") = inl status_.
Proof.
  intros E Hs. pose proof (dispatch_cases env request st) as H.
  destruct (request_user request) as [u|];
    [| destruct H as (r & Hr & Hne); congruence].
  destruct (StationStatusForm.clean_station_id _) as [sid|e1] eqn:E1;
    [| destruct H as (r & Hr & Hne); congruence].
  destruct (StationStatusForm.clean_status _) as [s|e2] eqn:E2;
    [| destruct H as (r & Hr & Hne); congruence].
  apply clean_station_id_inl in E1 as (station_id & E1 & ->).
  apply clean_status_inl in E2 as [E2 _].
  exists u, station_id, s. by rewrite E1, E2.
Qed.

Lemma submit_all_valid envs request st u sid s :
  request_user request = Some u →
  StationStatusForm.clean_station_id (POST request !! "station_id") = inl sid →
  StationStatusForm.clean_status (POST request !! "status") = inl s →
  ∃ st', SubmitStationStatusView.submit_all envs request st
         = (Returns (replicate (length envs) (success_response s)), st')
         ∧ rows st' = rows st ++ (Spec.submitted_row sid s u <$> envs).
Proof.
  intros Hu Hsid Hs. revert st.
  induction envs as [|env envs IH]; intros st; simpl.
  - exists st. by rewrite app_nil_r.
  - pose proof (dispatch_cases env request st) as H.
    rewrite Hu, Hsid, Hs in H.
    unfold mbind at 1, M_bind at 1. rewrite H.
    destruct (IH (inserted (Spec.submitted_row sid s u env) st)) as (st' & E & Hrows).
    unfold mbind at 1, M_bind at 1. rewrite E. exists st'. split; [done|].
    rewrite Hrows. simpl. by rewrite <- app_assoc.
Qed.

(** C7, as amended: a successful submission comes from an authenticated
    user, and it appends exactly one row that holds the submitted station
    identifier with the surrounding whitespace stripped, the submitted
    status, the user and the time of the request; the rows that were
    there stay as they were, in place.  Hence the same request sent [N]
    times stores [N] more rows, one per submission. *)
Theorem successful_submission_appends env request st resp st' :
  SubmitStationStatusView.dispatch env request st = (Returns resp, st') →
  response_status resp = 200 →
  ∃ u station_id status_,
    request_user request = Some u
    ∧ POST request !! "station_id" = Some station_id
    ∧ POST request !! "status" = Some status_
    ∧ rows st' = rows st ++ [Spec.submitted_row (Py.strip station_id) status_ u env]
    ∧ ∀ envs, ∃ resps st'',
        SubmitStationStatusView.submit_all envs request st = (Returns resps, st'')
        ∧ Forall (λ r, response_status r = 200) resps
        ∧ rows st'' = rows st
                      ++ (Spec.submitted_row (Py.strip station_id) status_ u <$> envs)
        ∧ length (rows st'') = (length (rows st) + length envs)%nat.
Proof.
  intros E Hs.
  destruct (dispatch_success _ _ _ _ _ E Hs) as (u & sid & s & Hu & Hsid & Hst & C1 & C2).
  exists u, sid, s. repeat split; try done.
  - pose proof (dispatch_cases env request st) as H.
    rewrite Hu, C1, C2 in H. rewrite H in E. by simplify_eq.
  - intros envs.
    destruct (submit_all_valid envs request st u _ _ Hu C1 C2) as (st'' & E' & Hrows).
    eexists _, st''. split; [exact E'|]. split; [|split; [done|]].
    + by apply Forall_replicate.
    + rewrite Hrows, length_app, length_fmap. done.
Qed.

(** The theorem at the submission of [Working] for station [12345]. *)
Lemma successful_submission_appends_witness :
  rows (SubmitStationStatusView.dispatch (at_time 7) working_post empty_state).2
  = [Spec.submitted_row "12345" "Working" 1 (at_time 7)].
Proof.
  destruct (successful_submission_appends (at_time 7) working_post empty_state
              (success_response "Working")
              (inserted (Spec.submitted_row "12345" "Working" 1 (at_time 7)) empty_state))
    as (u & sid & s & Hu & Hsid & Hs & Hrows & _).
  - by_evaluation.
  - reflexivity.
  - by_evaluation.
Defined.

(** C7, as stated, fails: a valid submission of the identifier [" 12345 "]
    succeeds and stores a row whose identifier is ["12345"], not the
    identifier that was submitted. *)
Lemma padded_identifier_not_stored :
  ∃ resp st',
    SubmitStationStatusView.dispatch (at_time 7) padded_post empty_state
    = (Returns resp, st')
    ∧ response_status resp = 200
    ∧ POST padded_post !! "station_id" = Some " 12345 "
    ∧ rows st' = [Spec.submitted_row "12345" "Working" 1 (at_time 7)]
    ∧ rows st' ≠ rows empty_state
                 ++ [Spec.submitted_row " 12345 " "Working" 1 (at_time 7)].
Proof.
  exists (success_response "Working"),
    (inserted (Spec.submitted_row "12345" "Working" 1 (at_time 7)) empty_state).
  split; [by_evaluation|]. split; [done|]. split; [by_evaluation|].
  split; [done|]. simpl. by intros [= ?].
Qed.

(** ** Pagination *)

Lemma num_pages_positive (stations : list dict) :
  1 ≤ Paginator.num_pages stations 10.
Proof.
  unfold Paginator.num_pages, Paginator.count.
  apply Z.div_le_lower_bound; lia.
Qed.

Lemma num_pages_covers (stations : list dict) (n : Z) :
  n ≤ Paginator.num_pages stations 10 →
  (n - 1) * 10 < Z.max 1 (Z.of_nat (length stations)).
Proof.
  unfold Paginator.num_pages, Paginator.count. intros H.
  pose proof (Z.mul_div_le (Z.max 1 (Z.of_nat (length stations)) + 10 - 1) 10).
  lia.
Qed.

Lemma slice_page (stations : list dict) (n : Z) :
  1 ≤ n ≤ Paginator.num_pages stations 10 →
  Py.slice stations ((n - 1) * 10)
    (if Z.leb (Paginator.count stations) ((n - 1) * 10 + 10)
     then Paginator.count stations else (n - 1) * 10 + 10)
  = take 10 (drop (Z.to_nat ((n - 1) * 10)) stations).
Proof.
  intros [H1 H2]. apply num_pages_covers in H2.
  unfold Py.slice, Paginator.count.
  destruct (Z.leb_spec (Z.of_nat (length stations)) ((n - 1) * 10 + 10)).
  - rewrite Nat2Z.id. rewrite !take_ge; [done| |]; rewrite length_drop; lia.
  - f_equal. lia.
Qed.

Lemma page_in_range env (stations : list dict) (n : Z) :
  1 ≤ n ≤ Paginator.num_pages stations 10 →
  Paginator.page env stations 10 (PageInt n)
  = Returns {| object_list := take 10 (drop (Z.to_nat ((n - 1) * 10)) stations);
               number := n |}.
Proof.
  intros H. unfold Paginator.page, Paginator.validate_number. simpl.
  destruct (Z.ltb_spec n 1); [lia|].
  destruct (Z.ltb_spec (Paginator.num_pages stations 10) n); [lia|]. simpl.
  by rewrite slice_page.
Qed.

Lemma settled_page_in_range env stations arg :
  1 ≤ settled_page env stations arg ≤ Paginator.num_pages stations 10.
Proof.
  pose proof (num_pages_positive stations). unfold settled_page.
  repeat case_match; lia.
Qed.

Lemma get_page_settled env (stations : list dict) (arg : page_arg) :
  Paginator.get_page env stations 10 arg
  = Paginator.page env stations 10 (PageInt (settled_page env stations arg)).
Proof.
  unfold Paginator.get_page, Paginator.validate_number, settled_page, Py.catch.
  destruct arg as [|s|n]; simpl; [done| |].
  - destruct (int_of_str env s) as [n|]; simpl; [|done].
    destruct (Z.ltb n 1); simpl; [done|].
    by destruct (Z.ltb _ n).
  - destruct (Z.ltb n 1); simpl; [done|].
    by destruct (Z.ltb _ n).
Qed.

(** Three pages of 10, 10 and 5 stations: page ["2"] is the second ten, a
    word gives page 1, and pages ["99"] and ["0"] give the last page. *)
Example paginate_twenty_five :
  StationListView.paginate env_decimal twenty_five (Some "2")
  = Returns {| object_list := numbered <$> seq 10 10; number := 2 |}
  ∧ StationListView.paginate env_decimal twenty_five (Some "two")
    = Returns {| object_list := numbered <$> seq 0 10; number := 1 |}
  ∧ StationListView.paginate env_decimal twenty_five None
    = Returns {| object_list := numbered <$> seq 0 10; number := 1 |}
  ∧ StationListView.paginate env_decimal twenty_five (Some "99")
    = Returns {| object_list := numbered <$> seq 20 5; number := 3 |}
  ∧ StationListView.paginate env_decimal twenty_five (Some "0")
    = Returns {| object_list := numbered <$> seq 20 5; number := 3 |}
  ∧ StationListView.paginate env_decimal [] (Some "7")
    = Returns {| object_list := []; number := 1 |}.
Proof. repeat split; by_evaluation. Qed.

Lemma num_pages_enough (stations : list dict) :
  Z.of_nat (length stations) ≤ 10 * Paginator.num_pages stations 10.
Proof.
  unfold Paginator.num_pages, Paginator.count.
  pose proof (Z.div_mod (Z.max 1 (Z.of_nat (length stations)) + 10 - 1) 10).
  pose proof (Z.mod_pos_bound (Z.max 1 (Z.of_nat (length stations)) + 10 - 1) 10).
  lia.
Qed.

(** C8: for every station list and every page parameter the pagination of
    the view returns a page, never an error; the page is the slice of at
    most 10 stations at its number; a missing or non-integer parameter
    gives page 1, a number beyond the last page (or below 1) gives the
    last page, and a number within range gives that page.  The last page
    is fixed by the length of the list: it is the least number of pages
    of 10 that hold every station (one for the empty list), so the last
    page holds the stations from the last multiple of 10 to the end, and
    no page of a list that is not empty is empty. *)
Theorem paginate_total env (stations : list dict) (page_number : option string) :
  ∃ page,
    StationListView.paginate env stations page_number = Returns page
    ∧ 1 ≤ number page ≤ Paginator.num_pages stations 10
    ∧ object_list page
      = take 10 (drop (Z.to_nat ((number page - 1) * 10)) stations)
    ∧ (length (object_list page) ≤ 10)%nat
    ∧ (page_number = None
       ∨ (∃ s, page_number = Some s ∧ int_of_str env s = None) →
       number page = 1)
    ∧ (∀ s n, page_number = Some s → int_of_str env s = Some n →
              Paginator.num_pages stations 10 < n →
              number page = Paginator.num_pages stations 10)
    ∧ (∀ s n, page_number = Some s → int_of_str env s = Some n →
              1 ≤ n ≤ Paginator.num_pages stations 10 →
              number page = n)
    ∧ (∀ s n, page_number = Some s → int_of_str env s = Some n → n < 1 →
              number page = Paginator.num_pages stations 10)
    ∧ (Paginator.num_pages stations 10 - 1) * 10
      < Z.max 1 (Z.of_nat (length stations))
      ≤ Paginator.num_pages stations 10 * 10
    ∧ (number page = Paginator.num_pages stations 10 →
       object_list page
       = drop (Z.to_nat ((Paginator.num_pages stations 10 - 1) * 10)) stations)
    ∧ (number page < Paginator.num_pages stations 10 →
       length (object_list page) = 10%nat)
    ∧ (stations ≠ [] → object_list page ≠ []).
Proof.
  set (arg := match page_number with Some s => PageStr s | None => PageNone end).
  pose proof (settled_page_in_range env stations arg) as Hr.
  pose proof (num_pages_positive stations) as Hpos.
  pose proof (num_pages_enough stations) as Hen.
  pose proof (num_pages_covers stations (Paginator.num_pages stations 10)
                ltac:(lia)) as Hcov.
  eexists. split.
  { unfold StationListView.paginate. fold arg.
    rewrite get_page_settled, page_in_range by done. reflexivity. }
  cbn [number object_list].
  split; [done|]. split; [done|]. split; [rewrite length_take; lia|].
  split; [|split; [|split; [|split; [|split; [|split; [|split]]]]]].
  - intros [->|(s & -> & E)]; subst arg; unfold settled_page; simpl; [done|].
    by rewrite E.
  - intros s n -> E Hn. subst arg. unfold settled_page. simpl. rewrite E.
    destruct (Z.ltb_spec n 1); [done|].
    destruct (Z.ltb_spec (Paginator.num_pages stations 10) n); [done|lia].
  - intros s n -> E Hn. subst arg. unfold settled_page. simpl. rewrite E.
    destruct (Z.ltb_spec n 1); [lia|].
    destruct (Z.ltb_spec (Paginator.num_pages stations 10) n); [lia|done].
  - intros s n -> E Hn. subst arg. unfold settled_page. simpl. rewrite E.
    destruct (Z.ltb_spec n 1); [done|lia].
  - lia.
  - intros ->. apply take_ge. rewrite length_drop. lia.
  - intros Hlt. rewrite length_take, length_drop.
    pose proof (num_pages_covers stations (settled_page env stations arg + 1)
                  ltac:(lia)).
    lia.
  - intros Hne Hnil. apply (f_equal length) in Hnil.
    rewrite length_take, length_drop in Hnil.
    change (length (@nil dict)) with 0%nat in Hnil.
    assert (0 < length stations)%nat by (destruct stations; [done|simpl; lia]).
    pose proof (num_pages_covers stations (settled_page env stations arg)
                  ltac:(lia)).
    lia.
Qed.

(** ** The merge of the local status *)

Lemma mapM_outcome_cons {A B : Type} (f : A → outcome B) (x : A) (l : list A) :
  mapM f (x :: l)
  = match f x with
    | Returns y => match mapM f l with
                   | Returns k => Returns (y :: k)
                   | Raises e => Raises e
                   end
    | Raises e => Raises e
    end.
Proof. reflexivity. Qed.

Lemma station_ids_run env (stations : list dict) :
  Forall (λ s, is_Some (s !! "id")) stations →
  mapM (StationListView.station_id env) stations
  = Returns (Spec.station_key env <$> stations).
Proof.
  induction 1 as [|s stations [v Hv] _ IH]; [done|].
  rewrite mapM_outcome_cons, IH, fmap_cons.
  assert (Spec.station_key env s = Py.str (str_other env) v) as ->
    by (unfold Spec.station_key; by rewrite Hv).
  unfold StationListView.station_id, Py.getitem. rewrite Hv. reflexivity.
Qed.

Lemma attach_run env (m : gmap string string) (stations : list dict) :
  Forall (λ s, is_Some (s !! "id")) stations →
  mapM (λ station,
          sid ← StationListView.station_id env station;
          Returns (<["local_status" :=
                     StationListView.local_status_value (m !! sid)]> station))
       stations
  = Returns (Spec.with_status env m <$> stations).
Proof.
  induction 1 as [|s stations [v Hv] _ IH]; [done|].
  rewrite mapM_outcome_cons, IH, fmap_cons.
  assert (Spec.with_status env m s
          = <["local_status" := StationListView.local_status_value
                                  (m !! Py.str (str_other env) v)]> s) as ->
    by (unfold Spec.with_status, Spec.station_key; by rewrite Hv).
  unfold StationListView.station_id, Py.getitem. rewrite Hv. reflexivity.
Qed.

(** The merge on stations that all have an identifier. *)
Lemma merge_local_status_run env (stations : list dict) st :
  stations ≠ [] →
  Forall (λ s, is_Some (s !! "id")) stations →
  StationListView.merge_local_status env stations st
  = (Returns (Spec.with_status env
                (Spec.status_map (Spec.station_key env <$> stations) (rows st))
              <$> stations),
     queried (Spec.station_key env <$> stations) st).
Proof.
  intros Hne Hid. unfold StationListView.merge_local_status.
  destruct stations as [|s0 stations0]; [done|]. cbv iota.
  set (stations := s0 :: stations0) in *.
  unfold mbind, M_bind, lift. rewrite station_ids_run by done.
  unfold objects.latest_statuses, objects.status_records. simpl rows.
  rewrite attach_run by done.
  unfold queried, Spec.status_map. simpl. by rewrite <- app_assoc.
Qed.

(** C9: the merge writes nothing.  For every station list and every state
    of the status table, the rows after the merge are the rows before it,
    and the only effects of the merge are queries. *)
Theorem merge_local_status_reads_only env (stations : list dict) st :
  rows (StationListView.merge_local_status env stations st).2 = rows st
  ∧ ∃ evs, trace (StationListView.merge_local_status env stations st).2
           = trace st ++ evs
           ∧ Forall (λ ev, is_select ev = true) evs.
Proof.
  unfold StationListView.merge_local_status.
  destruct stations as [|s0 stations0].
  { split; [done|]. exists []. by rewrite app_nil_r. }
  cbv iota. set (stations := s0 :: stations0).
  unfold mbind, M_bind, lift, objects.latest_statuses, objects.status_records.
  destruct (mapM (StationListView.station_id env) stations) as [ids|e];
    cbv beta iota; cbn [rows trace].
  - match goal with |- context [mapM ?f stations] => destruct (mapM f stations) end;
      cbn [snd rows trace]; (split; [done|]);
      exists [EvDbLatest ids; EvDbRecords ids (latest_stamps ids (rows st))];
      (split; [by rewrite <- app_assoc|]);
      by repeat constructor.
  - split; [done|]. exists []. by rewrite app_nil_r.
Qed.

Lemma dict_of_snoc {V : Type} (kvs : list (string * V)) (k : string) (v : V) :
  Py.dict_of (kvs ++ [(k, v)]) = <[k := v]> (Py.dict_of kvs).
Proof. unfold Py.dict_of. by rewrite foldl_app. Qed.

Lemma dict_of_lookup_Some {V : Type} (kvs : list (string * V)) (k : string) (v : V) :
  Py.dict_of kvs !! k = Some v → (k, v) ∈ kvs.
Proof.
  induction kvs as [|[k' v'] kvs IH] using rev_ind; [done|].
  rewrite dict_of_snoc. simpl. destruct (decide (k' = k)) as [->|Hne].
  - rewrite lookup_insert_eq. intros [= ->]. set_solver.
  - rewrite lookup_insert_ne by done. set_solver.
Qed.

(** A status in the map of the merge is the status of a stored row of that
    key, among the queried keys. *)
Lemma status_map_from_row (station_ids : list string) (rs : list StationStatus)
    (k v : string) :
  Spec.status_map station_ids rs !! k = Some v →
  ∃ r, r ∈ rs ∧ nrel_station_id r = k ∧ status r = v ∧ k ∈ station_ids.
Proof.
  unfold Spec.status_map. intros H. apply dict_of_lookup_Some in H.
  apply list_elem_of_fmap in H as (r & [= -> ->] & Hr).
  apply list_elem_of_filter in Hr as [[Hk _] Hr]. eauto.
Qed.

(** C10: the merge keys every station by the string form of its external
    identifier.  The two queries are made with these strings, and each
    station gets the status found under its own string in the map built
    from the answers; so a station identified by the number [n] gets a
    status only from stored rows whose identifier is the decimal numeral
    of [n]. *)
Theorem merge_local_status_coerces_identifiers env (stations : list dict) st :
  stations ≠ [] →
  Forall (λ s, is_Some (s !! "id")) stations →
  let keys := Spec.station_key env <$> stations in
  let m := Spec.status_map keys (rows st) in
  (StationListView.merge_local_status env stations st).1
  = Returns (Spec.with_status env m <$> stations)
  ∧ trace (StationListView.merge_local_status env stations st).2
    = trace st ++ [EvDbLatest keys; EvDbRecords keys (latest_stamps keys (rows st))]
  ∧ ∀ s n, s ∈ stations → s !! "id" = Some (VInt n) →
      Spec.station_key env s = pretty n
      ∧ Spec.with_status env m s
        = <["local_status" := StationListView.local_status_value (m !! pretty n)]> s
      ∧ ∀ v, m !! pretty n = Some v →
          ∃ r, r ∈ rows st ∧ nrel_station_id r = pretty n ∧ status r = v.
Proof.
  intros Hne Hid keys m. rewrite merge_local_status_run by done.
  split; [done|]. split; [done|].
  intros s n Hs Hn.
  assert (Spec.station_key env s = pretty n) as Hk
    by (unfold Spec.station_key; by rewrite Hn).
  split; [done|]. split.
  - unfold Spec.with_status. by rewrite Hk.
  - intros v Hv. apply status_map_from_row in Hv as (r & ? & ? & ? & _). eauto.
Qed.

(** The theorem at the station numbered 12345 and a table with one row
    for ["12345"], as in [test_station_list_merges_local_status]. *)
Lemma merge_local_status_coerces_identifiers_witness :
  (StationListView.merge_local_status (at_time 0) [supercharger] broken_12345).1
  = Returns [<["local_status" := VStr "Broken"]> supercharger].
Proof.
  destruct (merge_local_status_coerces_identifiers (at_time 0) [supercharger]
              broken_12345) as (E & _ & _).
  - discriminate.
  - repeat constructor. exists (VInt 12345). by_evaluation.
  - rewrite E. by_evaluation.
Defined.

(** C1, on the code: with stations 1 and 2 listed and the table above, the
    latest row of station 1 says Working (time 30, against Broken at time
    20), the rows of each station have distinct timestamps, and yet the
    merge attaches Broken to station 1: the row of time 20 passes the
    filter on timestamps because 20 is the latest timestamp of station 2,
    and it comes after the latest row in the table.  Listed alone, station
    1 gets Working. *)
Theorem merge_local_status_attaches_older_status :
  Spec.is_latest "1" (rows shared_stamp_table) report_1_working
  ∧ status report_1_working = "Working"
  ∧ NoDup (updated_at <$> objects.of_station "1" (rows shared_stamp_table))
  ∧ NoDup (updated_at <$> objects.of_station "2" (rows shared_stamp_table))
  ∧ (StationListView.merge_local_status (at_time 0) [station_1; station_2]
       shared_stamp_table).1
    = Returns [ <["local_status" := VStr "Broken"]> station_1;
                <["local_status" := VStr "Busy"]> station_2 ]
  ∧ (StationListView.merge_local_status (at_time 0) [station_1]
       shared_stamp_table).1
    = Returns [ <["local_status" := VStr "Working"]> station_1 ].
Proof.
  split.
  { split; [set_solver|]. split; [done|].
    intros r' Hr' _. simpl in Hr'.
    repeat (apply elem_of_cons in Hr' as [->|Hr']; [simpl; lia|]).
    by apply elem_of_nil in Hr'. }
  split; [done|].
  split; [vm_compute; repeat constructor; set_solver|].
  split; [vm_compute; repeat constructor; set_solver|].
  split; by_evaluation.
Qed.

(** *** Where the merge does attach the latest status *)

Lemma foldl_max_spec (l : list Z) (t : Z) :
  (foldl Z.max t l = t ∨ foldl Z.max t l ∈ l)
  ∧ t ≤ foldl Z.max t l
  ∧ ∀ x, x ∈ l → x ≤ foldl Z.max t l.
Proof.
  revert t. induction l as [|y l IH]; intros t; simpl.
  - split; [by left|]. split; [lia|]. intros x Hx. by apply elem_of_nil in Hx.
  - destruct (IH (Z.max t y)) as (Hin & Hle & Hall).
    split; [|split].
    + destruct Hin as [Hin|Hin]; [|right; set_solver].
      destruct (Z.max_spec t y) as [[_ E]|[_ E]].
      * right. rewrite Hin, E. set_solver.
      * left. by rewrite Hin, E.
    + lia.
    + intros x Hx. apply elem_of_cons in Hx as [->|Hx]; [lia|by apply Hall].
Qed.

(** [Max] gives the greatest element of a non-empty list. *)
Lemma Max_spec (ts : list Z) (m : Z) :
  objects.Max ts = Some m ↔ m ∈ ts ∧ ∀ t, t ∈ ts → t ≤ m.
Proof.
  destruct ts as [|t ts]; simpl.
  - split; [done|]. intros [H _]. by apply elem_of_nil in H.
  - destruct (foldl_max_spec ts t) as (Hin & Hle & Hall). split.
    + intros [= <-]. split; [set_solver|].
      intros x Hx. apply elem_of_cons in Hx as [->|Hx]; [done|by apply Hall].
    + intros [Hm Hmax]. f_equal. apply Z.le_antisymm.
      * apply Hmax. destruct Hin as [->|Hin]; set_solver.
      * apply elem_of_cons in Hm as [->|Hm]; [done|by apply Hall].
Qed.

Lemma dict_of_lookup_NoDup {V : Type} (kvs : list (string * V)) (k : string) (v : V) :
  NoDup kvs.*1 → (k, v) ∈ kvs → Py.dict_of kvs !! k = Some v.
Proof.
  induction kvs as [|[k' v'] kvs IH] using rev_ind; intros Hnd Hin.
  - by apply elem_of_nil in Hin.
  - rewrite dict_of_snoc. rewrite fmap_app in Hnd.
    apply NoDup_app in Hnd as (Hnd & Hdisj & _).
    apply elem_of_app in Hin as [Hin|Hin].
    + assert (k ≠ k') as Hne.
      { intros ->. apply (Hdisj k'); [|set_solver].
        apply list_elem_of_fmap. by exists (k', v). }
      simpl. rewrite lookup_insert_ne by done. by apply IH.
    + apply list_elem_of_singleton in Hin as [= -> ->]. by rewrite lookup_insert_eq.
Qed.

Lemma dict_of_lookup_is_Some {V : Type} (kvs : list (string * V)) (k : string) :
  k ∈ kvs.*1 → is_Some (Py.dict_of kvs !! k).
Proof.
  induction kvs as [|[k' v'] kvs IH] using rev_ind; intros Hin.
  - by apply elem_of_nil in Hin.
  - rewrite dict_of_snoc. simpl. destruct (decide (k' = k)) as [->|Hne].
    + rewrite lookup_insert_eq. eauto.
    + rewrite lookup_insert_ne by done. apply IH.
      rewrite fmap_app in Hin. set_solver.
Qed.

Lemma values_annotate_latest_keys (rs : list StationStatus) :
  NoDup (objects.values_annotate_latest rs).*1.
Proof.
  unfold objects.values_annotate_latest.
  apply (sublist_NoDup _ (remove_dups (nrel_station_id <$> rs)));
    [apply NoDup_remove_dups|].
  induction (remove_dups (nrel_station_id <$> rs)) as [|k ks IH]; simpl; [done|].
  destruct (objects.Max _) as [t|]; simpl.
  - by apply sublist_skip.
  - by apply sublist_cons.
Qed.

(** The first query pairs each station that has rows with the greatest of
    its timestamps. *)
Lemma latest_ids_lookup (rs : list StationStatus) (k : string) (t : Z) :
  Py.dict_of (objects.values_annotate_latest rs) !! k = Some t
  ↔ objects.Max (updated_at <$> objects.of_station k rs) = Some t.
Proof.
  split.
  - intros H. apply dict_of_lookup_Some in H.
    unfold objects.values_annotate_latest in H.
    apply list_elem_of_omap in H as (k' & _ & H).
    destruct (objects.Max _) as [t'|] eqn:E; simpl in H; by simplify_eq.
  - intros H. apply dict_of_lookup_NoDup; [apply values_annotate_latest_keys|].
    unfold objects.values_annotate_latest. apply list_elem_of_omap.
    exists k. split; [|by rewrite H].
    apply elem_of_remove_dups. apply Max_spec in H as [H _].
    apply list_elem_of_fmap in H as (r & _ & Hr).
    apply list_elem_of_filter in Hr as [Hk Hr].
    apply list_elem_of_fmap. by exists r.
Qed.

Lemma latest_stamps_elem (station_ids : list string) (rs : list StationStatus) (t : Z) :
  t ∈ latest_stamps station_ids rs
  ↔ ∃ k, objects.Max (updated_at <$>
           objects.of_station k (filter (λ r, nrel_station_id r ∈ station_ids) rs))
         = Some t.
Proof.
  unfold latest_stamps. rewrite list_elem_of_fmap. split.
  - intros ([k t'] & -> & H). apply elem_of_map_to_list in H.
    exists k. by apply latest_ids_lookup.
  - intros [k H]. exists (k, t). split; [done|].
    apply elem_of_map_to_list. by apply latest_ids_lookup.
Qed.

Lemma NoDup_fmap_elem {A B : Type} (f : A → B) (l : list A) (x y : A) :
  NoDup (f <$> l) → x ∈ l → y ∈ l → f x = f y → x = y.
Proof.
  intros Hnd Hx Hy E.
  apply list_elem_of_lookup in Hx as [i Hi]. apply list_elem_of_lookup in Hy as [j Hj].
  assert (i = j) as ->.
  { apply (NoDup_lookup (f <$> l) i j (f x)); [done| |].
    - by rewrite list_lookup_fmap, Hi.
    - by rewrite list_lookup_fmap, Hj, E. }
  congruence.
Qed.

(** When no two rows of the queried stations share a timestamp, the map of
    the merge holds, for each queried station, the status of its latest
    row, and nothing for a station without rows. *)
Lemma status_map_latest (station_ids : list string) (rs : list StationStatus)
    (k : string) :
  NoDup (updated_at <$> filter (λ r, nrel_station_id r ∈ station_ids) rs) →
  k ∈ station_ids →
  (∀ r, Spec.is_latest k rs r → Spec.status_map station_ids rs !! k = Some (status r))
  ∧ ((∀ r, r ∈ rs → nrel_station_id r ≠ k) → Spec.status_map station_ids rs !! k = None).
Proof.
  intros Hnd Hk. set (frs := filter (λ r, nrel_station_id r ∈ station_ids) rs) in *.
  split.
  - intros r (Hr & Hid & Hmax).
    assert (r ∈ frs) as Hfr by (apply list_elem_of_filter; by rewrite Hid).
    assert (objects.Max (updated_at <$> objects.of_station k frs) = Some (updated_at r))
      as HM.
    { apply Max_spec. split.
      - apply list_elem_of_fmap. exists r. split; [done|].
        by apply list_elem_of_filter.
      - intros t Ht. apply list_elem_of_fmap in Ht as (r' & -> & Hr').
        apply list_elem_of_filter in Hr' as [Hid' Hr'].
        apply list_elem_of_filter in Hr' as [_ Hr']. by apply Hmax. }
    assert (r ∈ filter (λ r, nrel_station_id r ∈ station_ids
                             ∧ updated_at r ∈ latest_stamps station_ids rs) rs) as Hrec.
    { apply list_elem_of_filter. split; [|done]. split; [by rewrite Hid|].
      apply latest_stamps_elem. by exists k. }
    destruct (dict_of_lookup_is_Some
                ((λ s, (nrel_station_id s, status s)) <$>
                 filter (λ r, nrel_station_id r ∈ station_ids
                              ∧ updated_at r ∈ latest_stamps station_ids rs) rs) k)
      as [v Hv].
    { rewrite <- list_fmap_compose. apply list_elem_of_fmap. by exists r. }
    unfold Spec.status_map. fold (latest_stamps station_ids rs). rewrite Hv.
    apply dict_of_lookup_Some in Hv.
    apply list_elem_of_fmap in Hv as (r' & [= Hid' ->] & Hr').
    apply list_elem_of_filter in Hr' as [[Hin' Hst'] Hr'].
    assert (r' ∈ frs) as Hfr' by (by apply list_elem_of_filter).
    apply latest_stamps_elem in Hst' as [k' HM'].
    pose proof HM' as Hatt. apply Max_spec in Hatt as [Hatt _].
    apply list_elem_of_fmap in Hatt as (r'' & E & Hr'').
    apply list_elem_of_filter in Hr'' as [Hid'' Hfr''].
    assert (r' = r'') as <- by (by eapply (NoDup_fmap_elem updated_at frs)).
    assert (k' = k) as -> by congruence.
    fold frs in HM'.
    assert (updated_at r' = updated_at r) as Ets by congruence.
    by rewrite (NoDup_fmap_elem updated_at frs r' r Hnd Hfr' Hfr Ets).
  - intros Hnone. destruct (Spec.status_map station_ids rs !! k) as [v|] eqn:E; [|done].
    apply status_map_from_row in E as (r & Hr & Hid & _). by destruct (Hnone r Hr).
Qed.

(** Hence the merge is right on such a table: each station gets the status
    of the latest row of its identifier, and none when the identifier has
    no row. *)
Lemma merge_local_status_latest env (stations : list dict) st :
  stations ≠ [] →
  Forall (λ s, is_Some (s !! "id")) stations →
  NoDup (updated_at <$>
         filter (λ r, nrel_station_id r ∈ Spec.station_key env <$> stations) (rows st)) →
  ∃ out, (StationListView.merge_local_status env stations st).1 = Returns out
    ∧ length out = length stations
    ∧ ∀ i s, stations !! i = Some s →
        (∀ r, Spec.is_latest (Spec.station_key env s) (rows st) r →
              out !! i = Some (<["local_status" := VStr (status r)]> s))
        ∧ ((∀ r, r ∈ rows st → nrel_station_id r ≠ Spec.station_key env s) →
           out !! i = Some (<["local_status" := VNone]> s)).
Proof.
  intros Hne Hid Hnd. rewrite merge_local_status_run by done.
  eexists. split; [done|]. split; [by rewrite length_fmap|].
  intros i s Hi. rewrite list_lookup_fmap, Hi. simpl.
  assert (Spec.station_key env s ∈ Spec.station_key env <$> stations) as Hk.
  { apply list_elem_of_fmap. exists s. split; [done|].
    apply list_elem_of_lookup. eauto. }
  destruct (status_map_latest _ _ _ Hnd Hk) as [Hlatest Hnone].
  unfold Spec.with_status. split.
  - intros r Hr. by rewrite (Hlatest r Hr).
  - intros Hr. by rewrite (Hnone Hr).
Qed.

(** *** Reads only, by construction *)

Lemma read_only_ret {A : Type} (a : A) : read_only (mret a : M A).
Proof. by intros st. Qed.

Lemma read_only_lift {A : Type} (o : outcome A) : read_only (lift o).
Proof. by intros st. Qed.

Lemma read_only_emit (ev : event) : read_only (emit ev).
Proof. by intros st. Qed.

Lemma read_only_bind {A B : Type} (m : M A) (k : A → M B) :
  read_only m → (∀ a, read_only (k a)) → read_only (m ≫= k).
Proof.
  intros Hm Hk st. unfold mbind, M_bind. specialize (Hm st).
  destruct (m st) as [[a|e] st']; simpl in *; [|done].
  by rewrite Hk.
Qed.

Lemma read_only_try_except {A : Type} (body : M A) classes (handler : exn → M A) :
  read_only body → (∀ e, read_only (handler e)) →
  read_only (try_except body classes handler).
Proof.
  intros Hb Hh st. unfold try_except. specialize (Hb st).
  destruct (body st) as [[a|e] st']; simpl in *; [done|].
  destruct (existsb _ _); [|done]. by rewrite Hh.
Qed.

Lemma read_only_latest_statuses station_ids :
  read_only (objects.latest_statuses station_ids).
Proof. by intros st. Qed.

Lemma read_only_status_records station_ids stamps :
  read_only (objects.status_records station_ids stamps).
Proof. by intros st. Qed.

Create HintDb read_only.
#[local] Hint Resolve read_only_ret read_only_lift read_only_emit
  read_only_latest_statuses read_only_status_records : read_only.

Ltac read_only_step :=
  first [ apply read_only_bind; [|intros ?]
        | apply read_only_try_except; [|intros ?]
        | solve [auto with read_only]
        | case_match ].

Lemma read_only_get_stations env location :
  read_only (NRELClient.get_stations env location).
Proof.
  unfold NRELClient.get_stations, NRELClient.geocode_zip.
  repeat read_only_step.
Qed.

Lemma read_only_merge_local_status env stations :
  read_only (StationListView.merge_local_status env stations).
Proof.
  unfold StationListView.merge_local_status. repeat read_only_step.
Qed.

(** The whole of [get_context_data] leaves the status table as it is. *)
Lemma read_only_get_context_data env location page_number :
  read_only (StationListView.get_context_data env location page_number).
Proof.
  unfold StationListView.get_context_data.
  pose proof (read_only_get_stations env).
  pose proof (read_only_merge_local_status env).
  repeat read_only_step.
Qed.

(** * Further properties of the code *)

(** ** Stripping *)

Lemma lstrip_first (s : string) : first_is_space (Py.lstrip s) = false.
Proof.
  induction s as [|c s IH]; simpl; [done|].
  destruct (Py.is_space c) eqn:E; [done|]. simpl. by rewrite E.
Qed.

Lemma lstrip_fixed (s : string) : first_is_space s = false → Py.lstrip s = s.
Proof. destruct s as [|c s]; simpl; [done|]. by intros ->. Qed.

Lemma rstrip_first (s : string) :
  first_is_space s = false → first_is_space (Py.rstrip s) = false.
Proof.
  destruct s as [|c s]; simpl; [done|]. intros E.
  destruct (Py.rstrip s); [by rewrite E|done].
Qed.

Lemma rstrip_last (s : string) : last_is_space (Py.rstrip s) = false.
Proof.
  induction s as [|c s IH]; simpl; [done|].
  destruct (Py.rstrip s) as [|d t].
  - by destruct (Py.is_space c) eqn:E; simpl.
  - done.
Qed.

Lemma rstrip_fixed (s : string) : last_is_space s = false → Py.rstrip s = s.
Proof.
  induction s as [|c s IH]; [done|]. destruct s as [|d t].
  - simpl. by intros ->.
  - intros H. change (Py.rstrip (String c (String d t)))
      with (match Py.rstrip (String d t) with
            | EmptyString => if Py.is_space c then EmptyString else String c EmptyString
            | u => String c u
            end).
    by rewrite (IH H).
Qed.

Lemma strip_fixed_iff (s : string) :
  Py.strip s = s ↔ first_is_space s = false ∧ last_is_space s = false.
Proof.
  unfold Py.strip. split.
  - intros <-. split; [apply rstrip_first, lstrip_first|apply rstrip_last].
  - intros [Hf Hl]. by rewrite (lstrip_fixed _ Hf), (rstrip_fixed _ Hl).
Qed.

Lemma strip_idempotent (s : string) : Py.strip (Py.strip s) = Py.strip s.
Proof.
  apply strip_fixed_iff. unfold Py.strip.
  split; [apply rstrip_first, lstrip_first|apply rstrip_last].
Qed.

Lemma lstrip_has_char (c : ascii) (s : string) :
  has_char c (Py.lstrip s) = true → has_char c s = true.
Proof.
  induction s as [|d s IH]; simpl; [done|].
  destruct (Py.is_space d); [|done].
  intros H. rewrite (IH H). by destruct (Ascii.eqb d c).
Qed.

Lemma rstrip_has_char (c : ascii) (s : string) :
  has_char c (Py.rstrip s) = true → has_char c s = true.
Proof.
  induction s as [|d s IH]; simpl; [done|].
  destruct (Py.rstrip s) as [|e t].
  - destruct (Py.is_space d); simpl; [done|].
    destruct (Ascii.eqb d c); [done|]. by rewrite orb_false_r.
  - simpl in *. destruct (Ascii.eqb d c); [done|]. simpl. apply IH.
Qed.

Lemma strip_has_char (c : ascii) (s : string) :
  has_char c (Py.strip s) = true → has_char c s = true.
Proof. intros H. by apply lstrip_has_char, rstrip_has_char. Qed.

Lemma has_nul_has_char (s : string) :
  StationStatusForm.has_nul s = has_char "000"%char s.
Proof.
  induction s as [|c s IH]; simpl; [done|]. rewrite IH. f_equal.
  destruct (Ascii.eqb_spec c "000"%char) as [->|Hne]; [done|].
  apply Nat.eqb_neq. intros Hc. apply Hne.
  by rewrite <- (ascii_nat_embedding c), Hc.
Qed.

(** ** The station-source client: calls, exceptions and the estimator *)

Lemma geocode_zip_other env zip_code st e :
  geocoder env (zip_code +:+ ", USA") = GeoRaises e →
  Py.isinstance e GeocoderServiceError = false →
  NRELClient.geocode_zip env zip_code st = (Raises e, geocoded zip_code st).
Proof.
  intros Hg He. run_M. rewrite Hg. by destruct e.
Qed.

(** [geocode_zip] makes exactly one geocoding call, for the location
    followed by [", USA"] with a timeout of 5 seconds, whatever the answer.
    It returns both coordinates of the geocoder's location or none, never
    one of the two; and an exception leaves it only when the geocoder
    raised it and it is not one of the geocoder's service errors. *)
Theorem geocode_zip_outcomes env zip_code st :
  (NRELClient.geocode_zip env zip_code st).2 = geocoded zip_code st
  ∧ (∀ lat lon, (NRELClient.geocode_zip env zip_code st).1 = Returns (lat, lon) →
       (lat = None ↔ lon = None)
       ∧ ∀ x, lat = Some x →
           ∃ y, lon = Some y
                ∧ geocoder env (zip_code +:+ ", USA") = GeoLocation x y)
  ∧ (∀ e, (NRELClient.geocode_zip env zip_code st).1 = Raises e →
       geocoder env (zip_code +:+ ", USA") = GeoRaises e
       ∧ Py.isinstance e GeocoderServiceError = false).
Proof.
  destruct (geocoder env (zip_code +:+ ", USA")) as [x y| |e] eqn:Hg.
  - rewrite (geocode_zip_location _ _ _ x y Hg). simpl.
    split; [done|]. split; [|done].
    intros lat lon [= <- <-]. split; [done|]. intros ? [= <-]. eauto.
  - rewrite (geocode_zip_no_result _ _ _ Hg). simpl.
    split; [done|]. split; [|done]. by intros lat lon [= <- <-].
  - destruct (Py.isinstance e GeocoderServiceError) eqn:He.
    + rewrite (geocode_zip_error _ _ _ e Hg He). simpl.
      split; [done|]. split; [|done]. by intros lat lon [= <- <-].
    + rewrite (geocode_zip_other _ _ _ e Hg He). simpl.
      split; [done|]. split; [done|]. by intros e' [= <-].
Qed.

Lemma get_stations_state env location st :
  (NRELClient.get_stations env location st).2
  = {| rows := rows st; trace := trace st ++ remote_calls env location |}.
Proof.
  unfold NRELClient.get_stations, remote_calls.
  destruct (NREL_API_KEY env) as [api_key|];
    [|destruct st; simpl; by rewrite app_nil_r].
  destruct (Py.truthy (VStr api_key));
    [|destruct st; simpl; by rewrite app_nil_r].
  cbn [negb]. cbv iota. unfold mbind at 1, M_bind at 1. cbv beta.
  destruct (geocoder env (location +:+ ", USA")) as [lat lon| |e] eqn:Hg.
  - rewrite (geocode_zip_location _ _ _ lat lon Hg).
    unfold try_except, mbind, M_bind, emit, lift, mret, M_ret, geocoded; simpl.
    rewrite <- app_assoc. simpl.
    destruct (http_get _ _ _) as [r|e']; simpl; [|by destruct (_ || _)].
    destruct (NRELClient.raise_for_status r) as [[]|e1]; simpl; [|by destruct (_ || _)].
    destruct (NRELClient.json r) as [data|e2]; simpl; [|by destruct (_ || _)].
    destruct (Py.call_get data _ _) as [stations|e3]; simpl; [|by destruct (_ || _)].
    destruct (Py.iter stations) as [items|e4]; simpl; [|by destruct (_ || _)].
    destruct (NRELClient.filter_loop items []) as [l|e5]; simpl; [done|].
    by destruct (_ || _).
  - by rewrite (geocode_zip_no_result _ _ _ Hg).
  - destruct (Py.isinstance e GeocoderServiceError) eqn:He.
    + by rewrite (geocode_zip_error _ _ _ e Hg He).
    + by rewrite (geocode_zip_other _ _ _ e Hg He).
Qed.

Lemma get_stations_no_answer env location st :
  Spec.upstream_answer env location = None →
  (NRELClient.get_stations env location st).1
  = match NREL_API_KEY env, geocoder env (location +:+ ", USA") with
    | Some api_key, GeoRaises e =>
        if Py.truthy (VStr api_key) && negb (Py.isinstance e GeocoderServiceError)
        then Raises e else Returns []
    | _, _ => Returns []
    end.
Proof.
  unfold Spec.upstream_answer, NRELClient.get_stations.
  destruct (NREL_API_KEY env) as [api_key|].
  - destruct (Py.truthy (VStr api_key)).
    + cbn [negb]. cbv iota. unfold mbind at 1, M_bind at 1. cbv beta.
      destruct (geocoder env (location +:+ ", USA")) as [lat lon| |e] eqn:Hg; [done| |].
      * intros _. by rewrite (geocode_zip_no_result _ _ _ Hg).
      * intros _. destruct (Py.isinstance e GeocoderServiceError) eqn:He.
        -- by rewrite (geocode_zip_error _ _ _ e Hg He).
        -- by rewrite (geocode_zip_other _ _ _ e Hg He).
    + intros _. by destruct (geocoder env (location +:+ ", USA")).
  - done.
Qed.

Lemma get_stations_result env location st st' :
  (NRELClient.get_stations env location st).1
  = (NRELClient.get_stations env location st').1.
Proof.
  destruct (Spec.upstream_answer env location) as [answer|] eqn:Hup.
  - by rewrite (get_stations_request _ _ st _ Hup), (get_stations_request _ _ st' _ Hup).
  - by rewrite (get_stations_no_answer _ _ st Hup), (get_stations_no_answer _ _ st' Hup).
Qed.

(** A station search makes the calls of [remote_calls] and no other: at
    most one geocoding, then at most one request to the station finder,
    each with a timeout of 5 seconds, and the request only with a
    credential and coordinates.  This holds also when the search raises.
    The status table plays no part: the rows stay as they are and the
    result is the same on every table and after every history. *)
Theorem get_stations_calls env location st :
  (NRELClient.get_stations env location st).2
  = {| rows := rows st; trace := trace st ++ remote_calls env location |}
  ∧ (∀ st', (NRELClient.get_stations env location st').1
            = (NRELClient.get_stations env location st).1)
  ∧ (length (remote_calls env location) ≤ 2)%nat
  ∧ Forall (λ ev, is_remote ev = true) (remote_calls env location)
  ∧ (∀ url params timeout,
       EvHttpGet url params timeout ∈ remote_calls env location →
       ∃ api_key latitude longitude,
         NREL_API_KEY env = Some api_key ∧ api_key ≠ ""
         ∧ geocoder env (location +:+ ", USA") = GeoLocation latitude longitude
         ∧ url = NRELClient.BASE_URL ∧ timeout = 5
         ∧ params = NRELClient.request_params api_key latitude longitude).
Proof.
  split; [apply get_stations_state|].
  split; [intros st'; apply get_stations_result|].
  unfold remote_calls.
  destruct (NREL_API_KEY env) as [api_key|]; [|by repeat split; [simpl; lia|set_solver..]].
  destruct (Py.truthy (VStr api_key)) eqn:Hk;
    [|by repeat split; [simpl; lia|set_solver..]].
  assert (api_key ≠ "") as Hne by (by intros ->).
  destruct (geocoder env (location +:+ ", USA")) as [lat lon| |e].
  - split; [simpl; lia|]. split; [by repeat constructor|].
    intros url params timeout Hin.
    apply elem_of_cons in Hin as [?|Hin]; [done|].
    apply list_elem_of_singleton in Hin as [= -> -> ->].
    by exists api_key, lat, lon.
  - split; [simpl; lia|]. split; [by repeat constructor|].
    intros ??? Hin. apply list_elem_of_singleton in Hin. done.
  - split; [simpl; lia|]. split; [by repeat constructor|].
    intros ??? Hin. apply list_elem_of_singleton in Hin. done.
Qed.

(** What can leave [get_stations] as an exception: an exception of the
    geocoder that is not one of its service errors, or an exception that
    is neither a [RequestException] nor a [ValueError]; these come from
    the answer of the station finder (a body that is no object, stations
    that are no list of objects, a record the estimator fails on). *)
Theorem get_stations_raises env location st e :
  (NRELClient.get_stations env location st).1 = Raises e →
  (geocoder env (location +:+ ", USA") = GeoRaises e
   ∧ Py.isinstance e GeocoderServiceError = false)
  ∨ (uncaught e ∧ ∃ answer, Spec.upstream_answer env location = Some answer).
Proof.
  destruct (Spec.upstream_answer env location) as [answer|] eqn:Hup.
  - rewrite (get_stations_request _ _ _ _ Hup). intros H. right.
    split; [|by eauto]. revert H. unfold Py.catch, uncaught.
    destruct answer as [r|e'].
    + destruct (NRELClient.raise_for_status r) as [[]|e1] eqn:E1; simpl.
      * destruct (NRELClient.json r) as [data|e2] eqn:E2; simpl.
        -- destruct (Py.call_get data _ _) as [stations|e3] eqn:E3; simpl.
           ++ destruct (Py.iter stations) as [items|e4] eqn:E4; simpl.
              ** destruct (NRELClient.filter_loop items []) as [l|e5] eqn:E5; [done|].
                 apply filter_loop_raises in E5. unfold uncaught in E5.
                 simpl in *. rewrite E5. by intros [= <-].
              ** by destruct (_ || _) eqn:E; [|intros [= <-]].
           ++ by destruct (_ || _) eqn:E; [|intros [= <-]].
        -- by destruct (_ || _) eqn:E; [|intros [= <-]].
      * by destruct (_ || _) eqn:E; [|intros [= <-]].
    + simpl. by destruct (_ || _) eqn:E; [|intros [= <-]].
  - rewrite (get_stations_no_answer _ _ _ Hup). left.
    destruct (NREL_API_KEY env) as [api_key|]; [|done].
    destruct (geocoder _ _) as [| |e']; [done..|].
    destruct (Py.truthy (VStr api_key)); [|done].
    destruct (Py.isinstance e' GeocoderServiceError) eqn:He; [done|].
    simpl in H. by injection H as <-.
Qed.

(** The exception of a record whose port count is [null] gets out of
    [get_stations]: a [TypeError], which the [except] clause does not
    catch. *)
Lemma get_stations_raises_witness :
  (geocoder (env_with amarillo
               (HttpResponse {| status_code := 200; body_json := Some null_count_body |}))
     ("79101" +:+ ", USA") = GeoRaises TypeError
   ∧ Py.isinstance TypeError GeocoderServiceError = false)
  ∨ (uncaught TypeError
     ∧ ∃ answer,
         Spec.upstream_answer
           (env_with amarillo
              (HttpResponse {| status_code := 200; body_json := Some null_count_body |}))
           "79101" = Some answer).
Proof.
  apply (get_stations_raises _ "79101" empty_state TypeError). by_evaluation.
Defined.

(** The estimator reads the network name through [upper()] only: two
    records that differ in the case of the letters of the network name
    and in nothing else get the same estimate, or fail alike. *)
Theorem extract_max_power_network_case (station : dict) (n n' : string) :
  station !! "ev_network" = Some (VStr n) →
  Py.upper n' = Py.upper n →
  NRELClient.extract_max_power (<["ev_network" := VStr n']> station)
  = NRELClient.extract_max_power station.
Proof.
  intros Hn Hup.
  unfold NRELClient.extract_max_power, Py.has_key, Py.getitem, Py.get.
  rewrite !lookup_insert_ne by done. rewrite lookup_insert_eq, Hn. simpl.
  by rewrite Hup.
Qed.

(** On the record of the test, with the network written in capitals. *)
Lemma extract_max_power_network_case_witness :
  NRELClient.extract_max_power (<["ev_network" := VStr "TESLA"]> tesla_v3)
  = NRELClient.extract_max_power tesla_v3.
Proof.
  apply (extract_max_power_network_case tesla_v3 "Tesla" "TESLA"); reflexivity.
Defined.

(** On a Tesla record without an explicit power whose open date is a
    calendar date in the provider's format, the comparison of the dates as
    text decides by the year: 250 for a year from 2020 on, 150 before,
    whatever the month and the day. *)
Theorem extract_max_power_tesla_by_year (station : dict) (n : string) (y m d : Z) :
  Spec.explicit_power station = None →
  station !! "ev_network" = Some (VStr n) →
  Py.contains "TESLA" (Py.upper n) = true →
  Spec.is_str (Py.get station "station_name" (VStr "")) = true →
  station !! "open_date" = Some (VStr (Spec.iso_date y m d)) →
  0 ≤ y < 10000 → 1 ≤ m ≤ 12 → 1 ≤ d ≤ 31 →
  NRELClient.extract_max_power station
  = Returns (if Z.leb 2020 y then VInt 250 else VInt 150).
Proof.
  intros Hex Hn Ht Hname Hdate Hy Hm Hd.
  assert (Spec.network_name station = n) as Hnet
    by (unfold Spec.network_name; by rewrite Hn).
  assert (Spec.open_date station = Some (Spec.iso_date y m d)) as Hopen
    by (unfold Spec.open_date; by rewrite Hdate).
  destruct (extract_max_power_estimate station) as (v & -> & -> & _).
  { right. unfold Spec.typed_station, Py.get in *.
    rewrite Hnet, Hn, Hdate. simpl. rewrite Hname. simpl.
    by rewrite orb_true_r. }
  rewrite Hex, Hnet, Hopen. unfold Spec.estimate_power, Spec.network_rules.
  cbn [List.find]. unfold Spec.matches at 1. cbn [fst snd]. rewrite Ht.
  by rewrite tesla_power_iso_date.
Qed.

(** The two records of the test: opened on 2020-05-01 and on 2015-03-01. *)
Lemma extract_max_power_tesla_by_year_witness :
  NRELClient.extract_max_power tesla_v3 = Returns (VInt 250)
  ∧ NRELClient.extract_max_power tesla_v2 = Returns (VInt 150).
Proof.
  split.
  - apply (extract_max_power_tesla_by_year tesla_v3 "Tesla" 2020 5 1);
      first [lia | reflexivity].
  - apply (extract_max_power_tesla_by_year tesla_v2 "Tesla" 2015 3 1);
      first [lia | reflexivity].
Defined.

(** ** Pagination: the pages make up the listing *)

Lemma mapM_outcome_Returns {A B : Type} (f : A → outcome B) (g : A → B) (l : list A) :
  (∀ x, x ∈ l → f x = Returns (g x)) → mapM f l = Returns (g <$> l).
Proof.
  induction l as [|x l IH]; intros H; [done|].
  rewrite mapM_outcome_cons, (H x), IH by set_solver. done.
Qed.

Lemma chunks_concat {A : Type} (n : nat) (l : list A) :
  (length l ≤ 10 * n)%nat →
  concat ((λ i, take 10 (drop (10 * i) l)) <$> seq 0 n) = l.
Proof.
  revert l. induction n as [|n IH]; intros l Hl.
  - destruct l; [done|simpl in Hl; lia].
  - cbn [seq fmap list_fmap concat]. rewrite <- fmap_S_seq, <- list_fmap_compose.
    transitivity (take 10 l ++ drop 10 l); [|apply take_drop].
    f_equal.
    etrans; [|apply (IH (drop 10 l)); rewrite length_drop; lia].
    f_equal. apply list_fmap_ext. intros _ i _. simpl.
    rewrite drop_drop. do 2 f_equal. lia.
Qed.

Lemma get_page_in_range env (stations : list dict) (k : Z) :
  1 ≤ k ≤ Paginator.num_pages stations 10 →
  Paginator.get_page env stations 10 (PageInt k)
  = Returns {| object_list := take 10 (drop (Z.to_nat ((k - 1) * 10)) stations);
               number := k |}.
Proof.
  intros Hk. rewrite get_page_settled. unfold settled_page.
  destruct (Z.ltb_spec k 1); [lia|].
  destruct (Z.ltb_spec (Paginator.num_pages stations 10) k); [lia|].
  by apply page_in_range.
Qed.

(** Asking for the pages 1 to [num_pages] in turn gives pages that carry
    these numbers and whose stations, put one after the other, are the
    listing: every station is on exactly one page, in its place. *)
Theorem get_page_partition env (stations : list dict) :
  ∃ pages,
    mapM (λ k, Paginator.get_page env stations 10 (PageInt k)) (page_numbers stations)
    = Returns pages
    ∧ number <$> pages = page_numbers stations
    ∧ concat (object_list <$> pages) = stations.
Proof.
  set (g := λ k, {| object_list := take 10 (drop (Z.to_nat ((k - 1) * 10)) stations);
                    number := k |}).
  exists (g <$> page_numbers stations). split; [|split].
  - apply mapM_outcome_Returns. intros k Hk. apply get_page_in_range.
    unfold page_numbers in Hk. apply list_elem_of_fmap in Hk as (i & -> & Hi).
    apply elem_of_seq in Hi. lia.
  - rewrite <- list_fmap_compose. etrans; [|apply list_fmap_id].
    by apply list_fmap_ext.
  - etrans; [|apply (chunks_concat (Z.to_nat (Paginator.num_pages stations 10)));
              pose proof (num_pages_enough stations); lia].
    f_equal. unfold page_numbers. rewrite <- fmap_S_seq, <- !list_fmap_compose.
    apply list_fmap_ext. intros _ i _. simpl. do 2 f_equal. lia.
Qed.

(** Every page before the last holds exactly 10 stations, and the last
    page of a listing that is not empty holds between 1 and 10. *)
Theorem get_page_sizes env (stations : list dict) (k : Z) :
  1 ≤ k ≤ Paginator.num_pages stations 10 →
  ∃ page,
    Paginator.get_page env stations 10 (PageInt k) = Returns page
    ∧ (k < Paginator.num_pages stations 10 → length (object_list page) = 10%nat)
    ∧ (k = Paginator.num_pages stations 10 →
       Z.of_nat (length (object_list page))
       = Z.of_nat (length stations) - 10 * (k - 1)
       ∧ (stations ≠ [] → (1 ≤ length (object_list page) ≤ 10)%nat)).
Proof.
  intros Hk. rewrite (get_page_in_range _ _ _ Hk). eexists. split; [done|].
  cbn [object_list]. rewrite length_take, length_drop.
  pose proof (num_pages_enough stations) as Hen.
  pose proof (num_pages_covers stations k ltac:(lia)) as Hcov.
  split.
  - intros Hlt. pose proof (num_pages_covers stations (k + 1) ltac:(lia)). lia.
  - intros ->. split; [lia|]. intros Hne.
    assert (0 < length stations)%nat by (destruct stations; [done|simpl; lia]).
    lia.
Qed.

(** The third and last page of twenty-five stations holds five. *)
Lemma get_page_sizes_witness :
  ∃ page,
    Paginator.get_page env_decimal twenty_five 10 (PageInt 3) = Returns page
    ∧ (3 < Paginator.num_pages twenty_five 10 → length (object_list page) = 10%nat)
    ∧ (3 = Paginator.num_pages twenty_five 10 →
       Z.of_nat (length (object_list page))
       = Z.of_nat (length twenty_five) - 10 * (3 - 1)
       ∧ (twenty_five ≠ [] → (1 ≤ length (object_list page) ≤ 10)%nat)).
Proof.
  apply (get_page_sizes env_decimal twenty_five 3). by vm_compute.
Defined.

(** ** The merge: missing identifiers, the shape of the result, one station *)

Lemma station_ids_raise env (stations : list dict) :
  Exists (λ s, s !! "id" = None) stations →
  mapM (StationListView.station_id env) stations = Raises KeyError.
Proof.
  induction 1 as [s l Hs|s l _ IH]; rewrite mapM_outcome_cons.
  - unfold StationListView.station_id, Py.getitem. by rewrite Hs.
  - rewrite IH. unfold StationListView.station_id, Py.getitem.
    by destruct (s !! "id").
Qed.

Lemma stations_ids_or_not (stations : list dict) :
  Forall (λ s, is_Some (s !! "id")) stations
  ∨ Exists (λ s, s !! "id" = None) stations.
Proof.
  induction stations as [|s l [IH|IH]]; [by left| |by right; constructor 2].
  destruct (s !! "id") eqn:E.
  - left. constructor; [by rewrite E|done].
  - right. by constructor 1.
Qed.

Lemma merge_local_status_missing_id env (stations : list dict) st :
  Exists (λ s, s !! "id" = None) stations →
  StationListView.merge_local_status env stations st = (Raises KeyError, st).
Proof.
  intros Hex. unfold StationListView.merge_local_status.
  destruct stations as [|s l]; [by apply Exists_nil in Hex|].
  unfold mbind at 1, M_bind at 1, lift at 1.
  by rewrite (station_ids_raise env _ Hex).
Qed.

(** Collecting the identifiers of the stations, the first step of the
    merge, fails exactly when a station of the list has no [id], and then
    with a [KeyError]; the merge raises it before any query is made, the
    state being the one the merge started in. *)
Theorem merge_local_status_key_error env (stations : list dict) st :
  (∀ e, mapM (StationListView.station_id env) stations = Raises e
        ↔ e = KeyError ∧ Exists (λ s, s !! "id" = None) stations)
  ∧ (Exists (λ s, s !! "id" = None) stations →
     StationListView.merge_local_status env stations st = (Raises KeyError, st)).
Proof.
  split; [|apply merge_local_status_missing_id].
  intros e. split.
  - intros He. destruct (stations_ids_or_not stations) as [Hid|Hex].
    + by rewrite (station_ids_run env stations Hid) in He.
    + rewrite (station_ids_raise env stations Hex) in He.
      by injection He as <-.
  - intros [-> Hex]. by apply station_ids_raise.
Qed.

(** A station without an identifier after one that has its own: nothing
    is queried. *)
Lemma merge_local_status_key_error_witness :
  StationListView.merge_local_status (at_time 0) [supercharger; tesla_v3] broken_12345
  = (Raises KeyError, broken_12345).
Proof.
  apply (proj2 (merge_local_status_key_error (at_time 0) [supercharger; tesla_v3]
                  broken_12345)).
  apply Exists_cons. right. apply Exists_cons. by left.
Defined.

(** When the merge returns, the result lists the same stations in the
    same order; each keeps all its fields and gains [local_status], which
    is [None] or the status of a stored row of that station's
    identifier. *)
Theorem merge_local_status_shape env (stations out : list dict) st :
  (StationListView.merge_local_status env stations st).1 = Returns out →
  length out = length stations
  ∧ ∀ i s, stations !! i = Some s →
      ∃ r, out !! i = Some r
        ∧ (∀ k, k ≠ "local_status" → r !! k = s !! k)
        ∧ (r !! "local_status" = Some VNone
           ∨ ∃ row, row ∈ rows st
                    ∧ nrel_station_id row = Spec.station_key env s
                    ∧ r !! "local_status" = Some (VStr (status row))).
Proof.
  intros H. destruct (stations_ids_or_not stations) as [Hid|Hex];
    [|by rewrite merge_local_status_missing_id in H].
  destruct stations as [|s0 l]; [by injection H as <-|].
  remember (s0 :: l) as stations eqn:Es.
  rewrite merge_local_status_run in H by (by subst). injection H as <-.
  split; [by rewrite length_fmap|].
  intros i s Hi. rewrite list_lookup_fmap, Hi. eexists. split; [done|].
  unfold Spec.with_status. split.
  - intros k Hk. by rewrite lookup_insert_ne.
  - rewrite lookup_insert_eq.
    destruct (Spec.status_map _ _ !! Spec.station_key env s) as [v|] eqn:E;
      [right|by left].
    apply status_map_from_row in E as (r & Hr & Hk & Hv & _).
    exists r. by rewrite Hv.
Qed.

(** The station of the test gets the status of its one stored row. *)
Lemma merge_local_status_shape_witness :
  length [<["local_status" := VStr "Broken"]> supercharger] = length [supercharger]
  ∧ ∀ i s, [supercharger] !! i = Some s →
      ∃ r, [<["local_status" := VStr "Broken"]> supercharger] !! i = Some r
        ∧ (∀ k, k ≠ "local_status" → r !! k = s !! k)
        ∧ (r !! "local_status" = Some VNone
           ∨ ∃ row, row ∈ rows broken_12345
                    ∧ nrel_station_id row = Spec.station_key (at_time 0) s
                    ∧ r !! "local_status" = Some (VStr (status row))).
Proof.
  apply (merge_local_status_shape (at_time 0) [supercharger]
           [<["local_status" := VStr "Broken"]> supercharger] broken_12345).
  by_evaluation.
Defined.

(** A station listed alone gets the status of a latest row of its
    identifier, and [None] when the identifier has no row: the timestamps
    of other stations cannot interfere with a list of one. *)
Theorem merge_local_status_single env (s : dict) st :
  is_Some (s !! "id") →
  ∃ out,
    (StationListView.merge_local_status env [s] st).1 = Returns [out]
    ∧ ((∀ r, r ∈ rows st → nrel_station_id r ≠ Spec.station_key env s) →
       out = <["local_status" := VNone]> s)
    ∧ (∀ r0, r0 ∈ rows st → nrel_station_id r0 = Spec.station_key env s →
         ∃ r, Spec.is_latest (Spec.station_key env s) (rows st) r
              ∧ out = <["local_status" := VStr (status r)]> s).
Proof.
  intros Hid. rewrite merge_local_status_run by (done || by constructor).
  cbn [fst fmap list_fmap]. eexists. split; [done|].
  unfold Spec.with_status.
  set (k := Spec.station_key env s). set (rs := rows st). split.
  - intros Hnone. destruct (Spec.status_map [k] rs !! k) eqn:E; [|done].
    apply status_map_from_row in E as (r & Hr & Hk & _). by destruct (Hnone r Hr).
  - intros r0 Hr0 Hk0.
    set (frs := filter (λ r, nrel_station_id r ∈ [k]) rs).
    assert (∀ r, r ∈ frs ↔ r ∈ rs ∧ nrel_station_id r = k) as Hfrs.
    { intros r. unfold frs. rewrite list_elem_of_filter, list_elem_of_singleton.
      tauto. }
    assert (∀ r, r ∈ objects.of_station k frs ↔ r ∈ rs ∧ nrel_station_id r = k)
      as Hof.
    { intros r. unfold objects.of_station. rewrite list_elem_of_filter, Hfrs. tauto. }
    assert (∃ t, objects.Max (updated_at <$> objects.of_station k frs) = Some t)
      as [t Ht].
    { destruct (objects.of_station k frs) as [|r1 l] eqn:E; [|simpl; eauto].
      assert (r0 ∈ @nil StationStatus) as Hin by (by apply Hof).
      by apply elem_of_nil in Hin. }
    assert (∀ t', t' ∈ latest_stamps [k] rs ↔ t' = t) as Hstamps.
    { intros t'. rewrite latest_stamps_elem. fold frs. split.
      - intros [k' Hk']. destruct (decide (k' = k)) as [->|Hne]; [congruence|].
        destruct (objects.of_station k' frs) as [|r1 l] eqn:E; [done|].
        assert (r1 ∈ objects.of_station k' frs) as Hin by (rewrite E; left).
        unfold objects.of_station in Hin.
        apply list_elem_of_filter in Hin as [Hk1 Hin]. apply Hfrs in Hin as [_ ?].
        congruence.
      - intros ->. by exists k. }
    apply Max_spec in Ht as [Htin Htmax].
    apply list_elem_of_fmap in Htin as (r1 & Ht1 & Hr1). apply Hof in Hr1 as [Hr1 Hk1].
    unfold Spec.status_map. fold (latest_stamps [k] rs).
    set (records := filter _ rs).
    assert (∀ r, r ∈ records ↔ r ∈ rs ∧ nrel_station_id r = k ∧ updated_at r = t)
      as Hrec.
    { intros r. unfold records.
      rewrite list_elem_of_filter, list_elem_of_singleton, Hstamps. tauto. }
    destruct (dict_of_lookup_is_Some
                ((λ s, (nrel_station_id s, status s)) <$> records) k) as [v Hv].
    { rewrite <- list_fmap_compose. apply list_elem_of_fmap. exists r1.
      split; [done|]. by apply Hrec. }
    rewrite Hv. apply dict_of_lookup_Some in Hv.
    apply list_elem_of_fmap in Hv as (r & [= Hk Hv] & Hr).
    apply Hrec in Hr as (Hr & _ & Hst). exists r. split; [|by rewrite Hv].
    split; [done|]. split; [done|]. intros r' Hr' Hk'. rewrite Hst.
    apply Htmax, list_elem_of_fmap. exists r'. split; [done|]. by apply Hof.
Qed.

(** Station 1, listed alone on the table of the two stations that share
    a timestamp, gets the status of its latest report. *)
Lemma merge_local_status_single_witness :
  ∃ out,
    (StationListView.merge_local_status (at_time 0) [station_1] shared_stamp_table).1
    = Returns [out]
    ∧ ((∀ r, r ∈ rows shared_stamp_table →
             nrel_station_id r ≠ Spec.station_key (at_time 0) station_1) →
       out = <["local_status" := VNone]> station_1)
    ∧ (∀ r0, r0 ∈ rows shared_stamp_table →
         nrel_station_id r0 = Spec.station_key (at_time 0) station_1 →
         ∃ r, Spec.is_latest (Spec.station_key (at_time 0) station_1)
                (rows shared_stamp_table) r
              ∧ out = <["local_status" := VStr (status r)]> station_1).
Proof.
  apply (merge_local_status_single (at_time 0) station_1 shared_stamp_table).
  by exists (VInt 1).
Defined.

(** The two stations on a table whose three rows have three timestamps:
    station 1 is Working (time 30, not Broken at time 20), station 2 is
    Busy. *)
Lemma merge_local_status_latest_witness :
  ∃ out, (StationListView.merge_local_status (at_time 0) [station_1; station_2]
            distinct_stamp_table).1 = Returns out
    ∧ length out = length [station_1; station_2]
    ∧ ∀ i s, [station_1; station_2] !! i = Some s →
        (∀ r, Spec.is_latest (Spec.station_key (at_time 0) s)
                (rows distinct_stamp_table) r →
              out !! i = Some (<["local_status" := VStr (status r)]> s))
        ∧ ((∀ r, r ∈ rows distinct_stamp_table →
                 nrel_station_id r ≠ Spec.station_key (at_time 0) s) →
           out !! i = Some (<["local_status" := VNone]> s)).
Proof.
  apply (merge_local_status_latest (at_time 0) [station_1; station_2]
           distinct_stamp_table).
  - done.
  - constructor; [by exists (VInt 1)|]. constructor; [by exists (VInt 2)|].
    constructor.
  - apply (bool_decide_unpack _). by vm_compute.
Defined.

(** ** The status submission: outcomes, stored rows, error report *)

Lemma clean_station_id_spec (raw : option string) (v : string) :
  StationStatusForm.clean_station_id raw = inl v ↔
  v = Py.strip (default "" raw) ∧ v ≠ "" ∧ StationStatusForm.has_nul v = false.
Proof.
  unfold StationStatusForm.clean_station_id. cbv zeta.
  destruct (String.eqb_spec (Py.strip (default "" raw)) "") as [He|Hne].
  - split; [done|]. intros (-> & Hv & _). done.
  - destruct (StationStatusForm.has_nul (Py.strip (default "" raw))) eqn:Hn.
    + split; [done|]. intros (-> & _ & Hv). congruence.
    + split; [by intros [= <-]|]. by intros (-> & _ & _).
Qed.

(** The answer to a POST, whatever the request: it is always a response,
    with status 200, 400 or 403; 403 exactly for the anonymous user; on
    200 exactly one row was inserted, it carries the requesting user and
    the status the response echoes; on any other status the table and the
    trace are as before. *)
Theorem dispatch_outcome env request st :
  ∃ resp st',
    SubmitStationStatusView.dispatch env request st = (Returns resp, st')
    ∧ response_status resp ∈ [200; 400; 403]
    ∧ (response_status resp = 403 ↔ request_user request = None)
    ∧ (response_status resp = 200 →
       ∃ row, st' = inserted row st
              ∧ user row = request_user request
              ∧ updated_at row = now env
              ∧ content resp !! "status" = Some (VStr (status row))
              ∧ content resp !! "success" = Some (VBool true))
    ∧ (response_status resp ≠ 200 →
       st' = st ∧ content resp !! "success" = Some (VBool false)).
Proof.
  run_submit. destruct (request_user request) as [u|].
  - destruct (StationStatusForm.clean_station_id _) as [sid|e1];
      destruct (StationStatusForm.clean_status _) as [s|e2]; simpl;
      do 2 eexists; (split; [done|]); simpl;
      (split; [set_solver|]); (split; [done|]); split; try done.
    intros _. eexists. split; [done|]. done.
  - do 2 eexists. split; [done|]. simpl. split; [set_solver|]. done.
Qed.

Lemma dispatch_shape env request st :
  Forall submitted_shape (rows st) →
  Forall submitted_shape (rows (SubmitStationStatusView.dispatch env request st).2).
Proof.
  intros Hst. pose proof (dispatch_cases env request st) as H.
  destruct (request_user request) as [u|]; [|by destruct H as (? & -> & _)].
  destruct (StationStatusForm.clean_station_id _) as [sid|e1] eqn:E1;
    [|by destruct H as (? & -> & _)].
  destruct (StationStatusForm.clean_status _) as [s|e2] eqn:E2;
    [|by destruct H as (? & -> & _)].
  rewrite H. simpl. apply Forall_app. split; [done|]. constructor; [|done].
  apply clean_station_id_spec in E1 as (Hsid & Hne & Hnul).
  apply clean_status_inl in E2 as [Hraw Hin].
  assert (Py.strip sid = sid) as Hfix by (rewrite Hsid; apply strip_idempotent).
  apply strip_fixed_iff in Hfix as [Hf Hl].
  unfold submitted_shape. simpl.
  refine (conj _ (conj Hne (conj Hf (conj Hl (conj Hnul _))))); [|by eexists].
  rewrite Hraw in Hin. by apply bool_decide_eq_true in Hin.
Qed.

Lemma dispatch_rows env request st :
  rows (SubmitStationStatusView.dispatch env request st).2 = rows st
  ∨ ∃ row, rows (SubmitStationStatusView.dispatch env request st).2 = rows st ++ [row].
Proof.
  pose proof (dispatch_cases env request st) as H.
  destruct (request_user request) as [u|]; [|by destruct H as (? & -> & _); left].
  destruct (StationStatusForm.clean_station_id _) as [sid|e1];
    [|by destruct H as (? & -> & _); left].
  destruct (StationStatusForm.clean_status _) as [s|e2];
    [|by destruct H as (? & -> & _); left].
  rewrite H. right. by eexists.
Qed.

(** An invariant of the status table under submissions: whatever
    requests arrive, in whatever order, every stored row has one of the
    three statuses, an identifier that is not empty, has no surrounding
    whitespace and no null character, and a user; no existing row is
    changed or removed. *)
Theorem submissions_keep_shape (requests : list (Env * Request)) st :
  Forall submitted_shape (rows st) →
  Forall submitted_shape (rows (after_requests requests st))
  ∧ ∃ added, rows (after_requests requests st) = rows st ++ added
             ∧ (length added ≤ length requests)%nat.
Proof.
  unfold after_requests. revert st.
  induction requests as [|[env request] requests IH]; intros st Hst.
  - split; [done|]. exists []. by rewrite app_nil_r.
  - cbn [foldl fst snd].
    destruct (IH _ (dispatch_shape env request st Hst)) as (Hall & added & Hrows & Hlen).
    split; [done|]. rewrite Hrows.
    destruct (dispatch_rows env request st) as [->|[row ->]].
    + exists added. split; [done|]. simpl. lia.
    + exists (row :: added). split; [by rewrite <- app_assoc|]. simpl. lia.
Qed.

(** From the empty table, after a rejected, a padded and a plain
    submission. *)
Lemma submissions_keep_shape_witness :
  Forall submitted_shape
    (rows (after_requests [(at_time 1, invalid_status_post); (at_time 2, padded_post);
                           (at_time 3, working_post)] empty_state))
  ∧ ∃ added,
      rows (after_requests [(at_time 1, invalid_status_post); (at_time 2, padded_post);
                            (at_time 3, working_post)] empty_state)
      = rows empty_state ++ added
      ∧ (length added ≤ 3)%nat.
Proof.
  apply (submissions_keep_shape
           [(at_time 1, invalid_status_post); (at_time 2, padded_post);
            (at_time 3, working_post)] empty_state).
  constructor.
Defined.

(** Cleaning the identifier is idempotent: an identifier the form
    accepted, submitted again as it was stored, is accepted unchanged, so
    the reports of one station meet under one key. *)
Theorem clean_station_id_idempotent (raw : option string) (v : string) :
  StationStatusForm.clean_station_id raw = inl v →
  StationStatusForm.clean_station_id (Some v) = inl v.
Proof.
  intros (Hv & Hne & Hnul)%clean_station_id_spec.
  apply clean_station_id_spec. simpl. split; [|done].
  rewrite Hv. symmetry. apply strip_idempotent.
Qed.

(** The padded identifier of the submission above. *)
Lemma clean_station_id_idempotent_witness :
  StationStatusForm.clean_station_id (Some "12345") = inl "12345".
Proof.
  apply (clean_station_id_idempotent (Some " 12345 ") "12345"). reflexivity.
Defined.

Lemma errors_json_fields (errs : list (string * string)) (k : string) :
  is_Some (Py.dict_of ((λ fe, (fe.1, VList [VStr fe.2])) <$> errs) !! k)
  ↔ k ∈ errs.*1.
Proof.
  split.
  - intros [v Hv]. apply dict_of_lookup_Some in Hv.
    apply list_elem_of_fmap in Hv as ([k' e] & [= -> _] & Hin).
    apply list_elem_of_fmap. by exists (k', e).
  - intros Hin. apply dict_of_lookup_is_Some.
    rewrite <- list_fmap_compose. apply list_elem_of_fmap in Hin as (fe & -> & Hin).
    apply list_elem_of_fmap. by exists fe.
Qed.

Lemma clean_status_accepts (raw : option string) :
  Spec.status_in_choices raw = true →
  ∃ v, StationStatusForm.clean_status raw = inl v.
Proof.
  destruct raw as [v|]; [|done]. simpl. intros H%bool_decide_eq_true.
  exists v. set_unfold in H. by destruct H as [->|[->|[->|[]]]].
Qed.

(** The error report of a refused submission names exactly the fields
    that failed: [station_id] when the identifier is missing, blank or
    holds a null character, [status] when the status is missing or not a
    choice, and no other key. *)
Theorem post_reports_failed_fields env request st resp st' :
  SubmitStationStatusView.post env request st = (Returns resp, st') →
  response_status resp = 400 →
  ∃ errs, content resp !! "errors" = Some (VDict errs)
    ∧ (is_Some (errs !! "station_id")
       ↔ ∀ v, StationStatusForm.clean_station_id (POST request !! "station_id") ≠ inl v)
    ∧ (is_Some (errs !! "status")
       ↔ Spec.status_in_choices (POST request !! "status") = false)
    ∧ (∀ k, is_Some (errs !! k) → k = "station_id" ∨ k = "status")
    ∧ errs ≠ ∅.
Proof.
  unfold SubmitStationStatusView.post, StationStatusForm.bind_form,
    StationStatusForm.is_valid, SubmitStationStatusView.errors_json.
  pose proof (clean_status_accepts (POST request !! "status")) as Hacc.
  pose proof (clean_status_choices (POST request !! "status")) as Hinr.
  destruct (StationStatusForm.clean_station_id _) as [sid|e1];
    destruct (StationStatusForm.clean_status _) as [s|e2]; cbn -[Py.dict_of];
    intros [= <- <-]; cbn -[Py.dict_of]; [done|..]; intros _;
    (eexists; split; [reflexivity|]); unfold Py.dict_of; cbn [foldl fst snd];
    (split; [|split; [|split]]).
  - rewrite lookup_insert_ne, lookup_empty by done. split; [by intros [? [=]]|].
    intros H. by destruct (H sid).
  - rewrite lookup_insert_eq. split; [intros _|by eauto].
    destruct (Spec.status_in_choices _); [|done]. by destruct (Hacc eq_refl).
  - intros k. destruct (decide (k = "status")) as [->|Hk]; [by right|].
    rewrite lookup_insert_ne, lookup_empty by done. by intros [? [=]].
  - apply insert_non_empty.
  - rewrite lookup_insert_eq. split; [done|by eauto].
  - rewrite lookup_insert_ne, lookup_empty by done. split; [by intros [? [=]]|].
    intros H. by destruct (Hinr H).
  - intros k. destruct (decide (k = "station_id")) as [->|Hk]; [by left|].
    rewrite lookup_insert_ne, lookup_empty by done. by intros [? [=]].
  - apply insert_non_empty.
  - rewrite lookup_insert_ne, lookup_insert_eq by done. split; [done|by eauto].
  - rewrite lookup_insert_eq. split; [intros _|by eauto].
    destruct (Spec.status_in_choices _); [|done]. by destruct (Hacc eq_refl).
  - intros k. destruct (decide (k = "status")) as [->|Hk]; [by right|].
    rewrite lookup_insert_ne by done.
    destruct (decide (k = "station_id")) as [->|Hk']; [by left|].
    rewrite lookup_insert_ne, lookup_empty by done. by intros [? [=]].
  - apply insert_non_empty.
Qed.

(** The refused submission of the test: only the status is reported. *)
Lemma post_reports_failed_fields_witness :
  ∃ errs, content invalid_status_response !! "errors" = Some (VDict errs)
    ∧ (is_Some (errs !! "station_id")
       ↔ ∀ v, StationStatusForm.clean_station_id
                (POST invalid_status_post !! "station_id") ≠ inl v)
    ∧ (is_Some (errs !! "status")
       ↔ Spec.status_in_choices (POST invalid_status_post !! "status") = false)
    ∧ (∀ k, is_Some (errs !! k) → k = "station_id" ∨ k = "status")
    ∧ errs ≠ ∅.
Proof.
  apply (post_reports_failed_fields (at_time 7) invalid_status_post empty_state
           invalid_status_response empty_state).
  - by_evaluation.
  - reflexivity.
Defined.

(** ** The search form and the station list, from the request on *)

Lemma clean_char_inr min_length max_length raw es :
  StationSearchForm.clean_char min_length max_length raw = inr es → es ≠ [].
Proof.
  unfold StationSearchForm.clean_char. cbv zeta. destruct (String.eqb _ _); [done|].
  by destruct (_ ++ _) eqn:E; intros [= <-].
Qed.

Lemma clean_choice_inr required choices raw es :
  StationSearchForm.clean_choice required choices raw = inr es → es ≠ [].
Proof.
  unfold StationSearchForm.clean_choice. cbv zeta.
  destruct (String.eqb _ _); [by destruct required; intros [= <-]|].
  by destruct (existsb _ _); intros [= <-].
Qed.

Lemma clean_char_inl min_length max_length raw v :
  StationSearchForm.clean_char min_length max_length raw = inl v →
  v = Py.strip (default "" raw)
  ∧ (v ≠ "" →
     (∀ limit, min_length = Some limit → (limit ≤ String.length v)%nat)
     ∧ (String.length v ≤ max_length)%nat
     ∧ StationStatusForm.has_nul v = false).
Proof.
  unfold StationSearchForm.clean_char. cbv zeta. generalize (Py.strip (default "" raw)). intros value.
  destruct (String.eqb_spec value "") as [->|Hne];
    [intros [= <-]; split; [done|]; by intros []|].
  destruct min_length as [limit|].
  - destruct (Nat.ltb_spec (String.length value) limit); [by simpl|].
    destruct (Nat.ltb_spec max_length (String.length value)); [by simpl|].
    destruct (StationStatusForm.has_nul value) eqn:Hn; [by simpl|]. simpl.
    intros [= <-]. split; [done|]. intros _. split; [by intros ? [= <-]|done].
  - destruct (Nat.ltb_spec max_length (String.length value)); [by simpl|].
    destruct (StationStatusForm.has_nul value) eqn:Hn; [by simpl|]. simpl.
    intros [= <-]. split; [done|]. intros _. split; [by intros ? [=]|done].
Qed.

Lemma clean_choice_inl required choices raw v :
  StationSearchForm.clean_choice required choices raw = inl v →
  v = default "" raw
  ∧ (v = "" ∧ required = false ∨ v ≠ "" ∧ v ∈ choices.*1).
Proof.
  unfold StationSearchForm.clean_choice. cbv zeta. generalize (default "" raw). intros value.
  destruct (String.eqb_spec value "") as [He|Hne].
  - destruct required; [done|]. intros [= <-]. eauto.
  - destruct (existsb _ _) eqn:E; [|done]. intros [= <-]. split; [done|]. right.
    split; [done|]. apply existsb_exists in E as ([k d] & Hin & Hk).
    apply String.eqb_eq in Hk. simpl in Hk. subst k.
    apply list_elem_of_fmap. exists (value, d). split; [done|].
    by apply list_elem_of_In.
Qed.

Lemma clean_errors (form : StationSearchForm.t) :
  StationSearchForm.errors (StationSearchForm.clean form) = [] →
  StationSearchForm.errors form = []
  ∧ StationSearchForm.clean form = form
  ∧ (StationSearchForm.cleaned_data form !! "search_type" = Some "zip" →
     StationSearchForm.blank (StationSearchForm.cleaned_data form !! "zip_code") = false)
  ∧ (StationSearchForm.cleaned_data form !! "search_type" = Some "city" →
     StationSearchForm.blank (StationSearchForm.cleaned_data form !! "city_state") = false).
Proof.
  unfold StationSearchForm.clean. cbv zeta.
  destruct (bool_decide _ && StationSearchForm.blank (StationSearchForm.cleaned_data form !! "zip_code")) eqn:E1;
    [simpl; by intros [_ [=]]%app_nil|].
  destruct (bool_decide _ && StationSearchForm.blank (StationSearchForm.cleaned_data form !! "city_state")) eqn:E2;
    [simpl; by intros [_ [=]]%app_nil|].
  intros H. split; [done|]. split; [done|].
  split; intros Hs; rewrite Hs in *.
  - by rewrite bool_decide_true in E1.
  - by rewrite bool_decide_true in E2.
Qed.

Lemma clean_fields_valid (data : gmap string string) fs (form : StationSearchForm.t) :
  Forall (λ f : string * (option string → string + list string),
            ∀ raw es, f.2 raw = inr es → es ≠ []) fs →
  StationSearchForm.errors (foldl (StationSearchForm.clean_field data) form fs) = [] →
  StationSearchForm.errors form = [] ∧ Forall (λ f, ∃ v, f.2 (data !! f.1) = inl v) fs.
Proof.
  intros Hfs. revert form.
  induction Hfs as [|f fs Hf _ IH]; intros form; simpl; [done|].
  intros H. apply IH in H as [H Hall]. unfold StationSearchForm.clean_field in H.
  destruct (f.2 (data !! f.1)) as [v|es] eqn:E; simpl in H.
  - split; [done|]. constructor; eauto.
  - apply app_nil in H as [_ H]. apply fmap_nil_inv in H. by destruct (Hf _ _ E).
Qed.

Lemma fields_report :
  Forall (λ f : string * (option string → string + list string),
            ∀ raw es, f.2 raw = inr es → es ≠ []) StationSearchForm.fields.
Proof.
  repeat constructor; simpl; intros raw es;
    first [apply clean_char_inr | apply clean_choice_inr].
Qed.

Lemma full_clean_valid (data : gmap string string) :
  StationSearchForm.errors (StationSearchForm.full_clean data) = [] →
  ∃ search_type zip_code city_state connector network,
    StationSearchForm.clean_choice true StationSearchForm.SEARCH_TYPE_CHOICES (data !! "search_type") = inl search_type
    ∧ StationSearchForm.clean_char (Some 5%nat) 10 (data !! "zip_code") = inl zip_code
    ∧ StationSearchForm.clean_char None 100 (data !! "city_state") = inl city_state
    ∧ StationSearchForm.clean_choice false StationSearchForm.CONNECTOR_CHOICES (data !! "connector_type") = inl connector
    ∧ StationSearchForm.clean_choice false StationSearchForm.NETWORK_CHOICES (data !! "network") = inl network
    ∧ StationSearchForm.cleaned_data (StationSearchForm.full_clean data)
      = <["network" := network]>
          (<["connector_type" := connector]>
             (<["city_state" := city_state]>
                (<["zip_code" := zip_code]> (<["search_type" := search_type]> ∅))))
    ∧ (search_type = "zip" → zip_code ≠ "")
    ∧ (search_type = "city" → city_state ≠ "").
Proof.
  unfold StationSearchForm.full_clean. intros H.
  apply clean_errors in H as (H & -> & Hzip & Hcity).
  destruct (clean_fields_valid _ _ _ fields_report H) as [_ Hall].
  revert Hzip Hcity. unfold StationSearchForm.fields in *.
  apply Forall_cons in Hall as [[v1 E1] Hall].
  apply Forall_cons in Hall as [[v2 E2] Hall].
  apply Forall_cons in Hall as [[v3 E3] Hall].
  apply Forall_cons in Hall as [[v4 E4] Hall].
  apply Forall_cons in Hall as [[v5 E5] _].
  cbn [fst snd] in *. cbn [foldl]. unfold StationSearchForm.clean_field. cbn [fst snd].
  rewrite E1, E2, E3, E4, E5. cbn [StationSearchForm.cleaned_data StationSearchForm.errors].
  rewrite !lookup_insert_ne by done. rewrite !lookup_insert_eq.
  intros Hzip Hcity. exists v1, v2, v3, v4, v5.
  repeat (split; [done|]). split.
  - intros ->. specialize (Hzip eq_refl). simpl in Hzip. by intros ->.
  - intros ->. specialize (Hcity eq_refl). simpl in Hcity. by intros ->.
Qed.

Lemma strip_shape (s : string) :
  first_is_space (Py.strip s) = false ∧ last_is_space (Py.strip s) = false.
Proof. apply strip_fixed_iff, strip_idempotent. Qed.

Lemma location_valid (GET : gmap string string) :
  StationSearchForm.is_valid (StationSearchForm.bind_form GET) = true →
  ∃ v1 v2 v3,
    StationSearchForm.clean_choice true StationSearchForm.SEARCH_TYPE_CHOICES
      (GET !! "search_type") = inl v1
    ∧ StationSearchForm.clean_char (Some 5%nat) 10 (GET !! "zip_code") = inl v2
    ∧ StationSearchForm.clean_char None 100 (GET !! "city_state") = inl v3
    ∧ (v1 = "zip" ∧ v2 ≠ ""
       ∧ StationListRequest.location (StationSearchForm.bind_form GET)
         = Returns (Some v2)
       ∨ v1 = "city" ∧ v3 ≠ ""
         ∧ StationListRequest.location (StationSearchForm.bind_form GET)
           = Returns (Some v3)).
Proof.
  unfold StationSearchForm.bind_form. destruct (Nat.eqb (size GET) 0); [done|].
  intros Hv. unfold StationListRequest.location. rewrite Hv.
  assert (StationSearchForm.errors (StationSearchForm.full_clean GET) = []) as Herr
    by (simpl in Hv; by destruct (StationSearchForm.errors (StationSearchForm.full_clean GET))).
  destruct (full_clean_valid GET Herr)
    as (v1 & v2 & v3 & v4 & v5 & E1 & E2 & E3 & _ & _ & Hcd & Hzip & Hcity).
  exists v1, v2, v3. split; [done|]. split; [done|]. split; [done|].
  unfold StationSearchForm.cleaned. rewrite Hcd.
  rewrite !lookup_insert_ne by done. rewrite !lookup_insert_eq.
  apply clean_choice_inl in E1 as [_ Hch].
  assert (v1 = "zip" ∨ v1 = "city") as [Hz|Hc].
  { destruct Hch as [[_ [=]]|[_ Hin]]. simpl in Hin. set_unfold in Hin.
    destruct Hin as [?|[?|[]]]; eauto. }
  - left. split; [done|]. split; [by apply Hzip|]. by rewrite Hz.
  - right. split; [done|]. split; [by apply Hcity|]. by rewrite Hc.
Qed.

Lemma location_invalid (GET : gmap string string) :
  StationSearchForm.is_valid (StationSearchForm.bind_form GET) = false →
  StationListRequest.location (StationSearchForm.bind_form GET) = Returns None.
Proof.
  intros Hv. unfold StationListRequest.location. rewrite Hv.
  by destruct (StationSearchForm.bind_form GET).
Qed.

Lemma location_total (GET : gmap string string) :
  ∃ o, StationListRequest.location (StationSearchForm.bind_form GET) = Returns o
    ∧ (StationSearchForm.is_valid (StationSearchForm.bind_form GET) = false → o = None)
    ∧ ∀ loc, o = Some loc → loc ≠ "".
Proof.
  destruct (StationSearchForm.is_valid (StationSearchForm.bind_form GET)) eqn:Hv.
  - destruct (location_valid GET Hv)
      as (v1 & v2 & v3 & _ & _ & _ & [(_ & Hne & ->)|(_ & Hne & ->)]);
      eexists; (split; [done|]); (split; [done|]); by intros loc [= <-].
  - rewrite (location_invalid GET Hv). exists None. split; [done|].
    split; [done|]. by intros loc [=].
Qed.

(** The location a search runs on.  Reading the form never fails.  An
    unbound form (no query parameter at all) and an invalid one give no
    location.  A location, when there is one, is not empty, has no
    whitespace around it and no null character; it is the stripped zip
    code, of 5 to 10 characters, when the search is by zip, and the
    stripped city of at most 100 characters when it is by city. *)
Theorem search_location (GET : gmap string string) :
  ∃ o, StationListRequest.location (StationSearchForm.bind_form GET) = Returns o
    ∧ (StationSearchForm.is_valid (StationSearchForm.bind_form GET) = false → o = None)
    ∧ (size GET = 0%nat → o = None)
    ∧ ∀ loc, o = Some loc →
        loc ≠ "" ∧ first_is_space loc = false ∧ last_is_space loc = false
        ∧ StationStatusForm.has_nul loc = false
        ∧ (GET !! "search_type" = Some "zip"
           ∧ loc = Py.strip (default "" (GET !! "zip_code"))
           ∧ (5 ≤ String.length loc ≤ 10)%nat
           ∨ GET !! "search_type" = Some "city"
             ∧ loc = Py.strip (default "" (GET !! "city_state"))
             ∧ (String.length loc ≤ 100)%nat).
Proof.
  destruct (StationSearchForm.is_valid (StationSearchForm.bind_form GET)) eqn:Hv.
  2:{ rewrite (location_invalid GET Hv). exists None. split; [done|].
      split; [done|]. split; [done|]. by intros loc [=]. }
  assert (size GET ≠ 0%nat) as Hsize.
  { intros He. revert Hv. unfold StationSearchForm.bind_form. by rewrite He. }
  destruct (location_valid GET Hv) as (v1 & v2 & v3 & E1 & E2 & E3 & Hcases).
  apply clean_choice_inl in E1 as [Hv1 _].
  assert (∀ c, v1 = c → c ≠ "" → GET !! "search_type" = Some c) as Hget.
  { intros c <- Hc. rewrite Hv1 in *. by destruct (GET !! "search_type"). }
  destruct Hcases as [(Hz & Hne & ->)|(Hc & Hne & ->)].
  - exists (Some v2). split; [done|]. split; [done|]. split; [done|].
    intros loc [= <-]. apply clean_char_inl in E2 as [Hv2 Hb].
    destruct (Hb Hne) as (Hmin & Hmax & Hnul).
    pose proof (strip_shape (default "" (GET !! "zip_code"))) as [? ?].
    rewrite <- Hv2 in *. repeat split; try done.
    left. split; [by apply Hget|]. split; [done|].
    split; [by apply Hmin|done].
  - exists (Some v3). split; [done|]. split; [done|]. split; [done|].
    intros loc [= <-]. apply clean_char_inl in E3 as [Hv3 Hb].
    destruct (Hb Hne) as (_ & Hmax & Hnul).
    pose proof (strip_shape (default "" (GET !! "city_state"))) as [? ?].
    rewrite <- Hv3 in *. repeat split; try done.
    right. split; [by apply Hget|]. done.
Qed.

(** A search by zip code whose zip code is padded with spaces. *)
Example search_location_zip :
  StationListRequest.location (StationSearchForm.bind_form zip_search)
  = Returns (Some "79101")
  ∧ StationListRequest.location (StationSearchForm.bind_form zip_missing)
    = Returns None
  ∧ StationListRequest.location (StationSearchForm.bind_form ∅) = Returns None.
Proof. repeat split; by_evaluation. Qed.

Lemma paginate_returns env (stations : list dict) (page_number : option string) :
  ∃ n, 1 ≤ n ≤ Paginator.num_pages stations 10
    ∧ StationListView.paginate env stations page_number
      = Returns {| object_list := take 10 (drop (Z.to_nat ((n - 1) * 10)) stations);
                   number := n |}.
Proof.
  set (arg := match page_number with Some s => PageStr s | None => PageNone end).
  pose proof (settled_page_in_range env stations arg) as Hr.
  exists (settled_page env stations arg). split; [done|].
  unfold StationListView.paginate. fold arg.
  by rewrite get_page_settled, page_in_range by done.
Qed.

Lemma paginate_empty env (page_number : option string) :
  StationListView.paginate env [] page_number
  = Returns {| object_list := []; number := 1 |}.
Proof.
  destruct (paginate_returns env [] page_number) as (n & Hn & ->).
  assert (n = 1) as -> by (change (Paginator.num_pages [] 10) with 1 in Hn; lia).
  done.
Qed.

Lemma get_context_data_located env (GET : gmap string string) o st :
  StationListRequest.location (StationSearchForm.bind_form GET) = Returns o →
  StationListRequest.get_context_data env GET st
  = StationListView.get_context_data env o (GET !! "page") st.
Proof.
  intros H. unfold StationListRequest.get_context_data. by rewrite H.
Qed.

(** Without a valid search (no query parameter, or a form with an error)
    the view makes no remote call and no query: the state is untouched,
    and the context holds the empty first page of one page, without an
    error message. *)
Theorem get_context_data_without_search env (GET : gmap string string) st :
  StationSearchForm.is_valid (StationSearchForm.bind_form GET) = false →
  StationListRequest.get_context_data env GET st = (Returns no_search_context, st).
Proof.
  intros Hv. unfold StationListRequest.get_context_data, StationListRequest.location.
  rewrite Hv.
  assert (match StationSearchForm.bind_form GET with
          | Some _ => Returns None
          | None => Returns (@None string)
          end = Returns None) as -> by (by destruct (StationSearchForm.bind_form GET)).
  unfold StationListView.get_context_data, mbind, M_bind, lift, mret, M_ret. simpl.
  by rewrite paginate_empty.
Qed.

(** A search by zip without a zip code. *)
Lemma get_context_data_without_search_witness :
  StationListRequest.get_context_data (env_status 200) zip_missing broken_12345
  = (Returns no_search_context, broken_12345).
Proof.
  apply (get_context_data_without_search (env_status 200) zip_missing broken_12345).
  by_evaluation.
Defined.

Lemma get_context_data_found env (loc : string) (page_number : option string) st :
  StationListView.get_context_data env (Some loc) page_number st
  = match NRELClient.get_stations env loc st with
    | (Raises e, st1) => (Raises e, st1)
    | (Returns l, st1) =>
        match StationListView.merge_local_status env l st1 with
        | (Raises e, st2) => (Raises e, st2)
        | (Returns out, st2) =>
            match StationListView.paginate env out page_number with
            | Returns p =>
                (Returns {| page_obj := p;
                            paginator_num_pages := Paginator.num_pages out 10;
                            error_message :=
                              match l with
                              | [] => if Py.truthy (VStr loc)
                                      then Some no_stations_message else None
                              | _ => None
                              end |}, st2)
            | Raises e => (Raises e, st2)
            end
        end
    end.
Proof.
  unfold StationListView.get_context_data, mbind, M_bind, lift, mret, M_ret.
  destruct (NRELClient.get_stations env loc st) as [[l|e] st1]; [|done].
  destruct (StationListView.merge_local_status env l st1) as [[out|e] st2]; [|done].
  cbn [fst snd]. by destruct (StationListView.paginate env out page_number).
Qed.

Lemma get_stations_pair env location st :
  NRELClient.get_stations env location st
  = ((NRELClient.get_stations env location st).1,
     {| rows := rows st; trace := trace st ++ remote_calls env location |}).
Proof.
  rewrite <- get_stations_state. by destruct (NRELClient.get_stations env location st).
Qed.

Lemma location_truthy (GET : gmap string string) (loc : string) :
  StationListRequest.location (StationSearchForm.bind_form GET) = Returns (Some loc) →
  Py.truthy (VStr loc) = true.
Proof.
  intros H. destruct (location_total GET) as (o & Ho & _ & Hloc).
  rewrite H in Ho. injection Ho as <-. pose proof (Hloc loc eq_refl) as Hne.
  simpl. by destruct (String.eqb_spec loc "").
Qed.

(** A valid search for which the client returns no station (a failure it
    absorbed, or an answer without DC-fast stations) always shows the
    message, on the empty first page of one page; the status table is not
    queried, the only effects being the remote calls of the search. *)
Theorem get_context_data_no_stations env (GET : gmap string string) (loc : string) st :
  StationListRequest.location (StationSearchForm.bind_form GET) = Returns (Some loc) →
  (NRELClient.get_stations env loc st).1 = Returns [] →
  StationListRequest.get_context_data env GET st
  = (Returns no_stations_context,
     {| rows := rows st; trace := trace st ++ remote_calls env loc |}).
Proof.
  intros Hloc Hgs. unfold StationListRequest.get_context_data.
  rewrite Hloc. unfold mbind at 1, M_bind at 1, lift at 1.
  rewrite get_context_data_found, get_stations_pair, Hgs.
  cbn [StationListView.merge_local_status mret M_ret].
  by rewrite paginate_empty, (location_truthy _ _ Hloc).
Qed.

(** The station finder answers 503 to the search of the zip code. *)
Lemma get_context_data_no_stations_witness :
  StationListRequest.get_context_data (env_status 503) zip_search broken_12345
  = (Returns no_stations_context,
     {| rows := rows broken_12345;
        trace := trace broken_12345 ++ remote_calls (env_status 503) "79101" |}).
Proof.
  apply (get_context_data_no_stations (env_status 503) zip_search "79101" broken_12345);
    by_evaluation.
Defined.

Lemma with_status_fields env (m : gmap string string) (s : dict) :
  Spec.with_status env m s !! "max_power_kw" = s !! "max_power_kw"
  ∧ Spec.with_status env m s !! "id" = s !! "id"
  ∧ is_Some (Spec.with_status env m s !! "local_status")
  ∧ Spec.has_dc_fast (Spec.with_status env m s) = Spec.has_dc_fast s.
Proof.
  unfold Spec.with_status, Spec.has_dc_fast, Py.get.
  split; [by rewrite lookup_insert_ne|]. split; [by rewrite lookup_insert_ne|].
  split; [rewrite lookup_insert_eq; by eexists|]. by rewrite lookup_insert_ne.
Qed.

(** What a returned context holds: a page whose number lies between 1
    and the number of pages, with at most 10 stations, each of which has
    DC-fast ports, an identifier, an estimated power and a local status
    (possibly [None]); and the error message, which is absent or the one
    message of the view, the latter only on an empty page. *)
Theorem get_context_data_page env (GET : gmap string string) st ctx st' :
  StationListRequest.get_context_data env GET st = (Returns ctx, st') →
  1 ≤ number (page_obj ctx) ≤ paginator_num_pages ctx
  ∧ (length (object_list (page_obj ctx)) ≤ 10)%nat
  ∧ Forall (λ s, Spec.has_dc_fast s = true
                 ∧ is_Some (s !! "max_power_kw")
                 ∧ is_Some (s !! "local_status")
                 ∧ is_Some (s !! "id"))
      (object_list (page_obj ctx))
  ∧ (error_message ctx = None ∨ error_message ctx = Some no_stations_message)
  ∧ (error_message ctx ≠ None → object_list (page_obj ctx) = []).
Proof.
  unfold StationListRequest.get_context_data.
  destruct (location_total GET) as (o & Ho & _ & Hloc). rewrite Ho.
  unfold mbind at 1, M_bind at 1, lift at 1.
  destruct o as [loc|].
  - rewrite get_context_data_found, get_stations_pair.
    destruct (NRELClient.get_stations env loc st).1 as [l|e] eqn:Hgs; [|done].
    apply get_stations_records in Hgs.
    set (st1 := {| rows := rows st; trace := _ |}).
    destruct (stations_ids_or_not l) as [Hid|Hex];
      [|by rewrite merge_local_status_missing_id].
    destruct (decide (length l = 0%nat)) as [->%nil_length_inv|Hlen].
    + cbn [StationListView.merge_local_status mret M_ret]. rewrite paginate_empty.
      intros [= <- <-].
      cbn [page_obj object_list number paginator_num_pages error_message].
      split; [done|]. split; [simpl; lia|]. split; [done|].
      split; [destruct (negb _); eauto|done].
    + assert (l ≠ []) as Hne by (by intros ->).
      rewrite merge_local_status_run by done.
      set (m := Spec.status_map _ _). set (out := _ <$> l).
      destruct (paginate_returns env out (GET !! "page")) as (n & Hn & ->).
      intros [= <- <-]. cbn [page_obj object_list number paginator_num_pages error_message].
      split; [done|]. split; [rewrite length_take; lia|]. split.
      * apply Forall_take, Forall_drop. unfold out. apply Forall_fmap.
        eapply Forall_impl; [apply Forall_and; split; [exact Hgs|exact Hid]|].
        intros s [[Hdc (p & Hp & _)] Hs]. unfold compose.
        destruct (with_status_fields env m s) as (-> & -> & ? & ->).
        rewrite Hp. repeat split; eauto.
      * destruct l; [by destruct Hne|]. split; [by left|done].
  - unfold StationListView.get_context_data, mbind, M_bind, lift, mret, M_ret. simpl.
    rewrite paginate_empty. intros [= <- <-]. simpl.
    split; [done|]. split; [lia|]. split; [done|]. split; [by left|done].
Qed.

(** The search of the test, on the table with one report. *)
Lemma get_context_data_page_witness :
  1 ≤ number (page_obj found_context) ≤ paginator_num_pages found_context
  ∧ (length (object_list (page_obj found_context)) ≤ 10)%nat
  ∧ Forall (λ s, Spec.has_dc_fast s = true
                 ∧ is_Some (s !! "max_power_kw")
                 ∧ is_Some (s !! "local_status")
                 ∧ is_Some (s !! "id"))
      (object_list (page_obj found_context))
  ∧ (error_message found_context = None
     ∨ error_message found_context = Some no_stations_message)
  ∧ (error_message found_context ≠ None → object_list (page_obj found_context) = []).
Proof.
  apply (get_context_data_page (env_status 200) zip_search broken_12345 found_context
           (StationListRequest.get_context_data (env_status 200) zip_search
              broken_12345).2).
  by_evaluation.
Defined.

(** The view raises exactly when the station search raises, or the merge
    of the local status raises on the stations the search returned, and
    then with that exception: reading the form and paginating are never
    the cause, and a request without a valid search cannot fail. *)
Theorem get_context_data_raises env (GET : gmap string string) st e :
  (StationListRequest.get_context_data env GET st).1 = Raises e ↔
  ∃ loc,
    StationListRequest.location (StationSearchForm.bind_form GET) = Returns (Some loc)
    ∧ ((NRELClient.get_stations env loc st).1 = Raises e
       ∨ ∃ l, (NRELClient.get_stations env loc st).1 = Returns l
              ∧ (StationListView.merge_local_status env l
                   (NRELClient.get_stations env loc st).2).1 = Raises e).
Proof.
  destruct (location_total GET) as (o & Ho & _ & _).
  rewrite (get_context_data_located _ _ _ _ Ho), Ho.
  destruct o as [loc|].
  - transitivity
      ((NRELClient.get_stations env loc st).1 = Raises e
       ∨ ∃ l, (NRELClient.get_stations env loc st).1 = Returns l
              ∧ (StationListView.merge_local_status env l
                   (NRELClient.get_stations env loc st).2).1 = Raises e).
    2:{ split; [intros H; by exists loc|]. by intros (loc' & [= <-] & H). }
    rewrite get_context_data_found.
    destruct (NRELClient.get_stations env loc st) as [[l|e'] st1]; cbn [fst snd].
    + destruct (StationListView.merge_local_status env l st1) as [[out|e''] st2]
        eqn:Hm.
      * destruct (paginate_returns env out (GET !! "page")) as (n & Hn & ->).
        cbn [fst]. split; [done|].
        intros [H|(l' & [= <-] & H)]; [done|]. rewrite Hm in H. done.
      * cbn [fst]. split.
        -- intros [= <-]. right. exists l. split; [done|]. by rewrite Hm.
        -- intros [H|(l' & [= <-] & H)]; [done|]. rewrite Hm in H.
           by injection H as <-.
    + split.
      * intros [= <-]. by left.
      * intros [[= <-]|(l' & H & _)]; done.
  - split.
    + unfold StationListView.get_context_data, mbind, M_bind, lift, mret, M_ret.
      simpl. by rewrite paginate_empty.
    + by intros (loc & [=] & _).
Qed.

(** A record whose port count is [null] fails the whole page. *)
Lemma get_context_data_raises_witness :
  (StationListRequest.get_context_data
     (env_with amarillo
        (HttpResponse {| status_code := 200; body_json := Some null_count_body |}))
     zip_search broken_12345).1 = Raises TypeError.
Proof.
  apply (proj2 (get_context_data_raises
                  (env_with amarillo
                     (HttpResponse {| status_code := 200;
                                      body_json := Some null_count_body |}))
                  zip_search broken_12345 TypeError)).
  exists "79101". split; [by_evaluation|]. left. by_evaluation.
Defined.

Lemma remote_calls_shape env location :
  (length (remote_calls env location) ≤ 2)%nat
  ∧ Forall (λ ev, is_remote ev = true) (remote_calls env location).
Proof.
  unfold remote_calls.
  destruct (NREL_API_KEY env) as [api_key|]; [|split; [simpl; lia|constructor]].
  destruct (Py.truthy (VStr api_key)); [|split; [simpl; lia|constructor]].
  destruct (geocoder env (location +:+ ", USA"));
    (split; [simpl; lia|by repeat constructor]).
Qed.

(** The station list never writes: the rows of the status table are left
    as they are, also when the view raises, and the effects of a request
    are at most four, each a remote call of the search or a [SELECT] of
    the merge; a request without a valid search has no effect at all. *)
Theorem get_context_data_effects env (GET : gmap string string) st :
  rows (StationListRequest.get_context_data env GET st).2 = rows st
  ∧ ∃ added,
      trace (StationListRequest.get_context_data env GET st).2 = trace st ++ added
      ∧ Forall (λ ev, is_remote ev || is_select ev = true) added
      ∧ (length added ≤ 4)%nat
      ∧ (StationSearchForm.is_valid (StationSearchForm.bind_form GET) = false → added = []).
Proof.
  destruct (location_total GET) as (o & Ho & Hv & _).
  rewrite (get_context_data_located _ _ _ _ Ho).
  destruct o as [loc|].
  - rewrite get_context_data_found, get_stations_pair.
    destruct (remote_calls_shape env loc) as [Hlen Hrem].
    set (st1 := {| rows := rows st; trace := _ |}).
    assert (∃ added, trace st1 = trace st ++ added
                     ∧ Forall (λ ev, is_remote ev || is_select ev = true) added
                     ∧ (length added ≤ 4)%nat
                     ∧ (StationSearchForm.is_valid (StationSearchForm.bind_form GET) = false
                        → added = [])) as Hst1.
    { exists (remote_calls env loc). split; [done|].
      split; [|split; [lia|by intros [=]%Hv]].
      eapply Forall_impl; [exact Hrem|]. by intros ev ->. }
    destruct (NRELClient.get_stations env loc st).1 as [l|e'];
      [|split; [done|exact Hst1]].
    destruct (stations_ids_or_not l) as [Hid|Hex];
      [|rewrite merge_local_status_missing_id by done; split; [done|exact Hst1]].
    destruct (decide (length l = 0%nat)) as [->%nil_length_inv|Hl].
    + cbn [StationListView.merge_local_status mret M_ret].
      rewrite paginate_empty. split; [done|exact Hst1].
    + assert (l ≠ []) as Hne by (by intros ->).
      rewrite merge_local_status_run by done.
      destruct (paginate_returns env
                  (Spec.with_status env
                     (Spec.status_map (Spec.station_key env <$> l) (rows st1))
                   <$> l) (GET !! "page")) as (n & Hn & ->).
      cbn [snd]. split; [done|].
      eexists (remote_calls env loc ++ [_; _]). split.
      { unfold queried. cbn [trace st1]. by rewrite <- app_assoc. }
      split; [|split; [rewrite length_app; simpl; lia|by intros [=]%Hv]].
      apply Forall_app. split.
      * eapply Forall_impl; [exact Hrem|]. by intros ev ->.
      * by repeat constructor.
  - unfold StationListView.get_context_data, mbind, M_bind, lift, mret, M_ret. simpl.
    rewrite paginate_empty. simpl. split; [done|]. exists [].
    rewrite app_nil_r. repeat split; [constructor|simpl; lia].
Qed.

(** ** The vehicle lookups *)

Section WithCollationOrder.
Context (collate : relation string) `{!RelDecision collate}.
Context `{!PartialOrder collate} `{!Total collate}.

Lemma distinct_ordered_spec (values : list string) :
  StronglySorted collate (distinct_ordered collate values)
  ∧ NoDup (distinct_ordered collate values)
  ∧ ∀ x, x ∈ distinct_ordered collate values ↔ x ∈ values.
Proof.
  unfold distinct_ordered. split; [apply StronglySorted_merge_sort; apply _|].
  split.
  - rewrite merge_sort_Permutation. apply NoDup_remove_dups.
  - intros x. by rewrite merge_sort_Permutation, elem_of_remove_dups.
Qed.

Lemma distinct_ordered_ext (l1 l2 : list string) :
  (∀ x, x ∈ l1 ↔ x ∈ l2) →
  distinct_ordered collate l1 = distinct_ordered collate l2.
Proof.
  intros H.
  destruct (distinct_ordered_spec l1) as (S1 & N1 & E1).
  destruct (distinct_ordered_spec l2) as (S2 & N2 & E2).
  apply (StronglySorted_unique collate); [done..|].
  apply NoDup_Permutation; [done..|]. intros x. by rewrite E1, E2.
Qed.

Lemma blank_false (o : option string) :
  StationSearchForm.blank o = false ↔ ∃ s, o = Some s ∧ s ≠ "".
Proof.
  destruct o as [s|]; simpl.
  - destruct (String.eqb_spec s ""); split; try done.
    + by intros (? & [= <-] & ?).
    + eauto.
  - split; [done|]. by intros (? & [=] & _).
Qed.

Lemma manufacturers_of_elem env (table : list ElectricVehicle) (year : string) names :
  manufacturers_of collate env table year = Returns names →
  StronglySorted collate names ∧ NoDup names
  ∧ ∀ m, m ∈ names ↔
      ∃ v n, v ∈ table ∧ int_of_str env year = Some n
             ∧ model_year v = n ∧ manufacturer v = m.
Proof.
  unfold manufacturers_of, prep_year.
  destruct (int_of_str env year) as [n|]; [|done]. simpl. intros [= <-].
  destruct (distinct_ordered_spec
              (manufacturer <$> filter (λ v, model_year v = n) table))
    as (S & N & E).
  split; [done|]. split; [done|]. intros m. rewrite E, list_elem_of_fmap. split.
  - intros (v & -> & [Hy Hv]%list_elem_of_filter). by exists v, n.
  - intros (v & n' & Hv & [= <-] & Hy & Hm). exists v. split; [done|].
    by apply list_elem_of_filter.
Qed.

Lemma models_of_elem env (table : list ElectricVehicle) (year make : string) names :
  models_of collate env table year make = Returns names →
  StronglySorted collate names ∧ NoDup names
  ∧ ∀ m, m ∈ names ↔
      ∃ v n, v ∈ table ∧ int_of_str env year = Some n
             ∧ model_year v = n ∧ manufacturer v = make ∧ model v = m.
Proof.
  unfold models_of, prep_year.
  destruct (int_of_str env year) as [n|]; [|done]. simpl. intros [= <-].
  destruct (distinct_ordered_spec
              (model <$> filter (λ v, model_year v = n ∧ manufacturer v = make) table))
    as (S & N & E).
  split; [done|]. split; [done|]. intros m. rewrite E, list_elem_of_fmap. split.
  - intros (v & -> & [[Hy Hk] Hv]%list_elem_of_filter). by exists v, n.
  - intros (v & n' & Hv & [= <-] & Hy & Hk & Hm). exists v. split; [done|].
    by apply list_elem_of_filter.
Qed.

Lemma manufacturers_of_perm env (table table' : list ElectricVehicle) (year : string) :
  table' ≡ₚ table →
  manufacturers_of collate env table' year = manufacturers_of collate env table year.
Proof.
  intros Hp. unfold manufacturers_of.
  destruct (prep_year env year) as [n|]; [|done]. simpl. f_equal.
  apply distinct_ordered_ext. intros x. rewrite !list_elem_of_fmap.
  split; intros (v & -> & [Hyr Hv]%list_elem_of_filter); exists v;
    (split; [done|]); apply list_elem_of_filter; (split; [done|]);
    [by rewrite <- Hp|by rewrite Hp].
Qed.

Lemma models_of_perm env (table table' : list ElectricVehicle) (year make : string) :
  table' ≡ₚ table →
  models_of collate env table' year make = models_of collate env table year make.
Proof.
  intros Hp. unfold models_of.
  destruct (prep_year env year) as [n|]; [|done]. simpl. f_equal.
  apply distinct_ordered_ext. intros x. rewrite !list_elem_of_fmap.
  split; intros (v & -> & [Hyr Hv]%list_elem_of_filter); exists v;
    (split; [done|]); apply list_elem_of_filter; (split; [done|]);
    [by rewrite <- Hp|by rewrite Hp].
Qed.

Lemma prep_year_raises env (year : string) e :
  prep_year env year = Raises e ↔ e = ValueError ∧ int_of_str env year = None.
Proof.
  unfold prep_year. destruct (int_of_str env year); split; try done.
  - by intros [_ [=]].
  - by intros [= <-].
  - by intros [-> _].
Qed.

(** [get_manufacturers] answers with status 200 and the manufacturers of
    the vehicles of the requested year: each once, in ascending order of
    the collation, and no other name; the list is empty when the year is
    missing or empty.  The answer does not depend on the order in which
    the table yields its rows.  The only way to fail is a year that is
    not a number, which raises [ValueError]. *)
Theorem get_manufacturers_listing env (table : list ElectricVehicle)
    (GET : gmap string string) :
  (∀ resp, get_manufacturers collate env table GET = Returns resp →
     ∃ names, resp = manufacturers_response names
       ∧ StronglySorted collate names ∧ NoDup names
       ∧ (∀ m, m ∈ names ↔
            ∃ v, v ∈ table ∧ of_year env (GET !! "year") v ∧ manufacturer v = m)
       ∧ ∀ table', table' ≡ₚ table →
           get_manufacturers collate env table' GET = Returns resp)
  ∧ (∀ e, get_manufacturers collate env table GET = Raises e ↔
       e = ValueError
       ∧ ∃ y, GET !! "year" = Some y ∧ y ≠ "" ∧ int_of_str env y = None).
Proof.
  unfold get_manufacturers. cbv zeta.
  destruct (StationSearchForm.blank (GET !! "year")) eqn:Hb; cbn [negb].
  - assert (∀ v, ¬ of_year env (GET !! "year") v) as Hno.
    { intros v (y & n & Hy & Hne & _).
      assert (StationSearchForm.blank (GET !! "year") = false) as Hf
        by (apply blank_false; eauto). congruence. }
    split.
    + intros resp [= <-]. exists []. split; [done|]. split; [constructor|].
      split; [constructor|]. split; [|done].
      intros m. split; [by intros ?%elem_of_nil|]. intros (v & _ & Hv & _).
      by destruct (Hno v).
    + intros e. split; [done|]. intros (_ & y & Hy & Hne & _).
      assert (StationSearchForm.blank (GET !! "year") = false) as Hf
        by (apply blank_false; eauto). congruence.
  - apply blank_false in Hb as (y & Hy & Hne). rewrite Hy.
    change (default "" (Some y)) with y.
    destruct (manufacturers_of collate env table y) as [names|e'] eqn:E.
    + split.
      * intros resp [= <-]. exists names. split; [done|].
        destruct (manufacturers_of_elem _ _ _ _ E) as (S & N & El).
        split; [done|]. split; [done|]. split.
        -- intros m. rewrite El. split.
           ++ intros (v & n & Hv & Hn & Hyr & Hm). exists v. split; [done|].
              split; [|done]. by exists y, n.
           ++ intros (v & Hv & (y' & n & [= <-] & _ & Hn & Hyr) & Hm).
              by exists v, n.
        -- intros table' Hp. by rewrite (manufacturers_of_perm _ _ _ _ Hp), E.
      * intros e. split; [done|]. intros (_ & y' & [= <-] & _ & Hn).
        revert E. unfold manufacturers_of, prep_year. by rewrite Hn.
    + split; [done|]. intros e. revert E. unfold manufacturers_of, prep_year.
      destruct (int_of_str env y) as [n|] eqn:Hn; [done|]. simpl. intros [= <-].
      split; [intros [= <-]; eauto|]. by intros [-> _].
Qed.


(** [get_models] answers with status 200 and the models of the vehicles
    of the requested year and manufacturer: each once, in ascending order
    of the collation, and no other name; the list is empty when the year
    or the manufacturer is missing or empty.  The answer does not depend
    on the order of the rows, and the only way to fail is a year that is
    not a number. *)
Theorem get_models_listing env (table : list ElectricVehicle)
    (GET : gmap string string) :
  (∀ resp, get_models collate env table GET = Returns resp →
     ∃ names, resp = models_response names
       ∧ StronglySorted collate names ∧ NoDup names
       ∧ (∀ m, m ∈ names ↔
            ∃ v, v ∈ table ∧ of_year env (GET !! "year") v
                 ∧ of_make (GET !! "manufacturer") v ∧ model v = m)
       ∧ ∀ table', table' ≡ₚ table →
           get_models collate env table' GET = Returns resp)
  ∧ (∀ e, get_models collate env table GET = Raises e ↔
       e = ValueError
       ∧ ∃ y mk, GET !! "year" = Some y ∧ y ≠ ""
                 ∧ GET !! "manufacturer" = Some mk ∧ mk ≠ ""
                 ∧ int_of_str env y = None).
Proof.
  unfold get_models. cbv zeta.
  destruct (StationSearchForm.blank (GET !! "year")) eqn:Hb; cbn [negb andb].
  { assert (∀ y, GET !! "year" = Some y → y ≠ "" → False) as Hno.
    { intros y Hy Hne.
      assert (StationSearchForm.blank (GET !! "year") = false) as Hf
        by (apply blank_false; eauto). congruence. }
    split.
    - intros resp [= <-]. exists []. split; [done|]. split; [constructor|].
      split; [constructor|]. split; [|done].
      intros m. split; [by intros ?%elem_of_nil|].
      intros (v & _ & (y & n & Hy & Hne & _) & _). by destruct (Hno y).
    - intros e. split; [done|]. intros (_ & y & mk & Hy & Hne & _).
      by destruct (Hno y). }
  destruct (StationSearchForm.blank (GET !! "manufacturer")) eqn:Hb'; cbn [negb].
  { assert (∀ mk, GET !! "manufacturer" = Some mk → mk ≠ "" → False) as Hno.
    { intros mk Hm Hne.
      assert (StationSearchForm.blank (GET !! "manufacturer") = false) as Hf
        by (apply blank_false; eauto). congruence. }
    split.
    - intros resp [= <-]. exists []. split; [done|]. split; [constructor|].
      split; [constructor|]. split; [|done].
      intros m. split; [by intros ?%elem_of_nil|].
      intros (v & _ & _ & (mk & Hm & Hne & _) & _). by destruct (Hno mk).
    - intros e. split; [done|]. intros (_ & y & mk & _ & _ & Hm & Hne & _).
      by destruct (Hno mk). }
  apply blank_false in Hb as (y & Hy & Hne).
  apply blank_false in Hb' as (mk & Hm & Hnm). rewrite Hy, Hm.
  change (default "" (Some y)) with y. change (default "" (Some mk)) with mk.
  destruct (models_of collate env table y mk) as [names|e'] eqn:E.
  - split.
    + intros resp [= <-]. exists names. split; [done|].
      destruct (models_of_elem _ _ _ _ _ E) as (S & N & El).
      split; [done|]. split; [done|]. split.
      * intros m. rewrite El. split.
        -- intros (v & n & Hv & Hn & Hyr & Hmk & Hmd). exists v. split; [done|].
           split; [by exists y, n|]. split; [by exists mk|done].
        -- intros (v & Hv & (y' & n & [= <-] & _ & Hn & Hyr)
                   & (mk' & [= <-] & _ & Hmk) & Hmd).
           by exists v, n.
      * intros table' Hp. by rewrite (models_of_perm _ _ _ _ _ Hp), E.
    + intros e. split; [done|]. intros (_ & y' & mk' & [= <-] & _ & _ & _ & Hn).
      revert E. unfold models_of, prep_year. by rewrite Hn.
  - split; [done|]. intros e. revert E. unfold models_of.
    destruct (prep_year env y) as [n|e''] eqn:Hp; [done|]. simpl. intros [= <-].
    apply prep_year_raises in Hp as [-> Hn].
    split; [intros [= <-]; split; [done|]; by exists y, mk|]. by intros [-> _].
Qed.

Lemma Returns_inj {A : Type} (a b : A) : Returns a = Returns b → a = b.
Proof. by intros [= ->]. Qed.

Lemma manufacturers_response_inj (l1 l2 : list string) :
  manufacturers_response l1 = manufacturers_response l2 → l1 = l2.
Proof.
  intros H. apply (f_equal (λ r, content r !! "manufacturers")) in H.
  unfold manufacturers_response in H. cbn [content] in H.
  rewrite !lookup_singleton_eq in H. injection H as H.
  revert l2 H. induction l1 as [|x l1 IH]; intros [|y l2] H; try done.
  injection H as -> H. f_equal. by apply IH.
Qed.

(** The two lookups fit together: a manufacturer that [get_manufacturers]
    lists for a year has at least one model in the answer of [get_models]
    for that year, all of them models of that manufacturer; unless its
    name is empty (the default of the column), for which [get_models]
    lists nothing. *)
Theorem listed_manufacturer_has_models env (table : list ElectricVehicle)
    (GET : gmap string string) (names : list string) (m : string) :
  get_manufacturers collate env table GET = Returns (manufacturers_response names) →
  m ∈ names →
  ∃ models,
    get_models collate env table (<["manufacturer" := m]> GET)
    = Returns (models_response models)
    ∧ (m ≠ "" → models ≠ [])
    ∧ (m = "" → models = [])
    ∧ ∀ x, x ∈ models → ∃ v, v ∈ table ∧ manufacturer v = m ∧ model v = x.
Proof.
  intros Hget Hin. unfold get_manufacturers in Hget. cbv zeta in Hget.
  destruct (StationSearchForm.blank (GET !! "year")) eqn:Hb; cbn [negb] in Hget.
  { apply Returns_inj, (manufacturers_response_inj [] names) in Hget as <-.
    by apply elem_of_nil in Hin. }
  apply blank_false in Hb as (y & Hy & Hne). rewrite Hy in Hget.
  change (default "" (Some y)) with y in Hget.
  destruct (manufacturers_of collate env table y) as [names'|e] eqn:E; [|done].
  apply Returns_inj, (manufacturers_response_inj names' names) in Hget as ->.
  destruct (manufacturers_of_elem _ _ _ _ E) as (_ & _ & El).
  apply El in Hin as (v & n & Hv & Hn & Hyr & Hm).
  unfold get_models. cbv zeta.
  rewrite lookup_insert_ne by done. rewrite lookup_insert_eq, Hy.
  change (default "" (Some y)) with y. change (default "" (Some m)) with m.
  assert (StationSearchForm.blank (Some y) = false) as ->
    by (apply blank_false; eauto).
  cbn [negb andb]. destruct (String.eqb_spec m "") as [Hm0|Hm0].
  - assert (StationSearchForm.blank (Some m) = true) as ->
      by (simpl; by rewrite Hm0).
    cbn [negb]. exists []. split; [done|]. split; [done|]. split; [done|].
    by intros x ?%elem_of_nil.
  - assert (StationSearchForm.blank (Some m) = false) as ->
      by (apply blank_false; eauto).
    cbn [negb]. destruct (models_of collate env table y m) as [models|e] eqn:Em.
    + exists models. split; [done|].
      destruct (models_of_elem _ _ _ _ _ Em) as (_ & _ & Elm).
      split; [|split; [done|]].
      * intros _ ->. assert (model v ∈ @nil string) as Hnil
          by (apply Elm; by exists v, n).
        by apply elem_of_nil in Hnil.
      * intros x (v' & _ & Hv' & _ & _ & Hk & Hmd)%Elm. by exists v'.
    + revert Em. unfold models_of, prep_year. by rewrite Hn.
Qed.


Lemma distinct_descending_spec (values : list Z) :
  StronglySorted Z.ge (distinct_descending values)
  ∧ NoDup (distinct_descending values)
  ∧ ∀ y, y ∈ distinct_descending values ↔ y ∈ values.
Proof.
  unfold distinct_descending.
  assert (Total Z.ge) by (intros x y; lia).
  assert (Transitive Z.ge) by (intros x y z; lia).
  split; [by apply StronglySorted_merge_sort|]. split.
  - rewrite merge_sort_Permutation. apply NoDup_remove_dups.
  - intros y. by rewrite merge_sort_Permutation, elem_of_remove_dups.
Qed.

Lemma blank_default (o : option string) :
  StationSearchForm.blank (Some (default "" o)) = StationSearchForm.blank o.
Proof. by destruct o. Qed.

(** The choices [get_form] sets on the form.  The years are those of the
    table, each once, from the latest down, after the placeholder.  The
    manufacturers, and the models, are the placeholder followed by the
    list the JSON lookup gives for the same year (and manufacturer): the
    form accepts what the page offers.  A value of the POST data takes
    precedence over the query string. *)
Theorem get_form_choices env (table : list ElectricVehicle)
    (POST GET : gmap string string) (c : Choices) :
  get_form collate env table POST GET = Returns c →
  let year := or_else (POST !! "model_year") (GET !! "model_year") in
  let make := or_else (POST !! "manufacturer") (GET !! "manufacturer") in
  (∃ years,
     model_year_choices c
     = (VStr "", VStr "--- Choose a Year ---") :: ((λ y, (VInt y, VInt y)) <$> years)
     ∧ StronglySorted Z.ge years ∧ NoDup years
     ∧ ∀ y, y ∈ years ↔ ∃ v, v ∈ table ∧ model_year v = y)
  ∧ (∃ makes,
       manufacturer_choices c
       = ("", "--- Choose a Make ---") :: ((λ m, (m, m)) <$> makes)
       ∧ get_manufacturers collate env table {[ "year" := default "" year ]}
         = Returns (manufacturers_response makes))
  ∧ (∃ models,
       model_choices c = ("", "--- Choose a Model ---") :: ((λ m, (m, m)) <$> models)
       ∧ get_models collate env table
           {[ "year" := default "" year; "manufacturer" := default "" make ]}
         = Returns (models_response models))
  ∧ (StationSearchForm.blank (POST !! "model_year") = false →
     year = POST !! "model_year").
Proof.
  unfold get_form, get_manufacturers, get_models. cbv zeta.
  rewrite lookup_singleton_eq, lookup_insert_eq.
  rewrite lookup_insert_ne by done. rewrite lookup_singleton_eq.
  rewrite !blank_default.
  set (year := or_else (POST !! "model_year") (GET !! "model_year")).
  set (make := or_else (POST !! "manufacturer") (GET !! "manufacturer")).
  change (default "" (Some (default "" year))) with (default "" year).
  change (default "" (Some (default "" make))) with (default "" make).
  intros H.
  assert (StationSearchForm.blank (POST !! "model_year") = false →
          year = POST !! "model_year") as Hpost.
  { intros Hb. unfold year, or_else. by rewrite Hb. }
  assert (∃ years,
            (VStr "", VStr "--- Choose a Year ---")
            :: ((λ y, (VInt y, VInt y)) <$> distinct_descending (model_year <$> table))
            = (VStr "", VStr "--- Choose a Year ---")
              :: ((λ y, (VInt y, VInt y)) <$> years)
            ∧ StronglySorted Z.ge years ∧ NoDup years
            ∧ ∀ y, y ∈ years ↔ ∃ v, v ∈ table ∧ model_year v = y) as Hyears.
  { exists (distinct_descending (model_year <$> table)). split; [done|].
    destruct (distinct_descending_spec (model_year <$> table)) as (S & N & E).
    split; [done|]. split; [done|]. intros y. rewrite E, list_elem_of_fmap.
    split; intros (v & ? & ?); by exists v. }
  revert H.
  destruct (StationSearchForm.blank year); cbn [negb andb].
  - cbn [mbind outcome_bind]. intros [= <-]. cbn.
    split; [done|]. split; [by exists []|]. split; [by exists []|done].
  - destruct (manufacturers_of collate env table (default "" year)) as [makes|e];
      [|done].
    cbn [mbind outcome_bind].
    destruct (StationSearchForm.blank make); cbn [negb].
    + intros [= <-]. cbn.
      split; [done|]. split; [by exists makes|]. split; [by exists []|done].
    + destruct (models_of collate env table (default "" year) (default "" make))
        as [models|e]; [|done].
      cbn [mbind outcome_bind]. intros [= <-]. cbn.
      split; [done|]. split; [by exists makes|]. split; [by exists models|done].
Qed.

End WithCollationOrder.

(** The lookups on the sample table, in byte order. *)
Example get_manufacturers_2024 :
  get_manufacturers String.le env_decimal sample_vehicles {[ "year" := "2024" ]}
  = Returns (manufacturers_response ["Hyundai"; "Tesla"])
  ∧ get_models String.le env_decimal sample_vehicles
      {[ "year" := "2024"; "manufacturer" := "Tesla" ]}
    = Returns (models_response ["Model 3"; "Model Y"])
  ∧ get_manufacturers String.le env_decimal sample_vehicles ∅
    = Returns (manufacturers_response [])
  ∧ get_manufacturers String.le env_decimal sample_vehicles {[ "year" := "this" ]}
    = Raises ValueError.
Proof. repeat split; by_evaluation. Qed.

(** The manufacturers of 2024 on the sample table, in byte order. *)
Lemma get_manufacturers_listing_witness :
  (∀ resp,
     get_manufacturers String.le env_decimal sample_vehicles {[ "year" := "2024" ]}
     = Returns resp →
     ∃ names, resp = manufacturers_response names
       ∧ StronglySorted String.le names ∧ NoDup names
       ∧ (∀ m, m ∈ names ↔
            ∃ v, v ∈ sample_vehicles
                 ∧ of_year env_decimal (({[ "year" := "2024" ]} : gmap string string)
                                        !! "year") v
                 ∧ manufacturer v = m)
       ∧ ∀ table', table' ≡ₚ sample_vehicles →
           get_manufacturers String.le env_decimal table' {[ "year" := "2024" ]}
           = Returns resp)
  ∧ (∀ e,
       get_manufacturers String.le env_decimal sample_vehicles {[ "year" := "2024" ]}
       = Raises e ↔
       e = ValueError
       ∧ ∃ y, ({[ "year" := "2024" ]} : gmap string string) !! "year" = Some y
              ∧ y ≠ "" ∧ int_of_str env_decimal y = None).
Proof.
  apply (get_manufacturers_listing String.le env_decimal sample_vehicles
           {[ "year" := "2024" ]}).
Defined.

(** The Tesla models of 2024 on the sample table. *)
Lemma get_models_listing_witness :
  (∀ resp,
     get_models String.le env_decimal sample_vehicles
       {[ "year" := "2024"; "manufacturer" := "Tesla" ]} = Returns resp →
     ∃ names, resp = models_response names
       ∧ StronglySorted String.le names ∧ NoDup names
       ∧ (∀ m, m ∈ names ↔
            ∃ v, v ∈ sample_vehicles
                 ∧ of_year env_decimal
                     (({[ "year" := "2024"; "manufacturer" := "Tesla" ]}
                       : gmap string string) !! "year") v
                 ∧ of_make
                     (({[ "year" := "2024"; "manufacturer" := "Tesla" ]}
                       : gmap string string) !! "manufacturer") v
                 ∧ model v = m)
       ∧ ∀ table', table' ≡ₚ sample_vehicles →
           get_models String.le env_decimal table'
             {[ "year" := "2024"; "manufacturer" := "Tesla" ]} = Returns resp)
  ∧ (∀ e,
       get_models String.le env_decimal sample_vehicles
         {[ "year" := "2024"; "manufacturer" := "Tesla" ]} = Raises e ↔
       e = ValueError
       ∧ ∃ y mk,
           ({[ "year" := "2024"; "manufacturer" := "Tesla" ]} : gmap string string)
           !! "year" = Some y ∧ y ≠ ""
           ∧ ({[ "year" := "2024"; "manufacturer" := "Tesla" ]} : gmap string string)
             !! "manufacturer" = Some mk ∧ mk ≠ ""
           ∧ int_of_str env_decimal y = None).
Proof.
  apply (get_models_listing String.le env_decimal sample_vehicles
           {[ "year" := "2024"; "manufacturer" := "Tesla" ]}).
Defined.

(** Tesla, listed for 2024, has models. *)
Lemma listed_manufacturer_has_models_witness :
  ∃ models,
    get_models String.le env_decimal sample_vehicles
      (<["manufacturer" := "Tesla"]> {[ "year" := "2024" ]})
    = Returns (models_response models)
    ∧ ("Tesla" ≠ "" → models ≠ [])
    ∧ ("Tesla" = "" → models = [])
    ∧ ∀ x, x ∈ models →
        ∃ v, v ∈ sample_vehicles ∧ manufacturer v = "Tesla" ∧ model v = x.
Proof.
  apply (listed_manufacturer_has_models String.le env_decimal sample_vehicles
           {[ "year" := "2024" ]} ["Hyundai"; "Tesla"] "Tesla").
  - by_evaluation.
  - by apply (bool_decide_unpack _).
Defined.

(** The form posted with the year 2024 and the manufacturer Tesla. *)
Lemma get_form_choices_witness :
  let year := or_else (tesla_2024 !! "model_year") ((∅ : gmap string string) !! "model_year") in
  let make := or_else (tesla_2024 !! "manufacturer") ((∅ : gmap string string) !! "manufacturer") in
  (∃ years,
     model_year_choices tesla_2024_choices
     = (VStr "", VStr "--- Choose a Year ---") :: ((λ y, (VInt y, VInt y)) <$> years)
     ∧ StronglySorted Z.ge years ∧ NoDup years
     ∧ ∀ y, y ∈ years ↔ ∃ v, v ∈ sample_vehicles ∧ model_year v = y)
  ∧ (∃ makes,
       manufacturer_choices tesla_2024_choices
       = ("", "--- Choose a Make ---") :: ((λ m, (m, m)) <$> makes)
       ∧ get_manufacturers String.le env_decimal sample_vehicles
           {[ "year" := default "" year ]}
         = Returns (manufacturers_response makes))
  ∧ (∃ models,
       model_choices tesla_2024_choices
       = ("", "--- Choose a Model ---") :: ((λ m, (m, m)) <$> models)
       ∧ get_models String.le env_decimal sample_vehicles
           {[ "year" := default "" year; "manufacturer" := default "" make ]}
         = Returns (models_response models))
  ∧ (StationSearchForm.blank (tesla_2024 !! "model_year") = false →
     year = tesla_2024 !! "model_year").
Proof.
  apply (get_form_choices String.le env_decimal sample_vehicles tesla_2024 ∅
           tesla_2024_choices).
  by_evaluation.
Defined.

(** ** The host lists of the production settings *)

Lemma split_piece (sep : ascii) (s : string) :
  has_char sep s = false → production.split sep s = [s].
Proof.
  induction s as [|c s IH]; simpl; [done|].
  destruct (Ascii.eqb c sep); [done|]. simpl. intros H. by rewrite (IH H).
Qed.

Lemma split_app (sep : ascii) (s r : string) :
  has_char sep s = false →
  production.split sep (s +:+ String sep r) = s :: production.split sep r.
Proof.
  induction s as [|c s IH].
  - intros _. rewrite append_nil. simpl. by rewrite Ascii.eqb_refl.
  - rewrite append_cons. simpl.
    destruct (Ascii.eqb c sep); [done|]. simpl. intros H. by rewrite (IH H).
Qed.

Lemma split_join (sep : ascii) (pieces : list string) :
  pieces ≠ [] →
  Forall (λ p, has_char sep p = false) pieces →
  production.split sep (join sep pieces) = pieces.
Proof.
  induction pieces as [|p [|q l] IH]; [done| |]; intros _ Hall.
  - apply split_piece. by inversion Hall.
  - inversion Hall as [|? ? Hp Hrest]; subst.
    change (join sep (p :: q :: l)) with (p +:+ String sep (join sep (q :: l))).
    rewrite split_app by done. f_equal. by apply IH.
Qed.

Lemma split_no_sep (sep : ascii) (s : string) :
  Forall (λ p, has_char sep p = false) (production.split sep s).
Proof.
  induction s as [|c s IH]; simpl; [by repeat constructor|].
  destruct (Ascii.eqb c sep) eqn:E; [by constructor|].
  destruct (production.split sep s) as [|piece pieces].
  - repeat constructor. simpl. by rewrite E.
  - inversion IH; subst. constructor; [|done]. simpl. by rewrite E.
Qed.

Lemma stripped_elem (hosts : list string) (h : string) :
  h ∈ production.stripped hosts ↔ h ≠ "" ∧ ∃ raw, raw ∈ hosts ∧ h = Py.strip raw.
Proof.
  unfold production.stripped. rewrite list_elem_of_omap. split.
  - intros (raw & Hin & H). destruct (String.eqb_spec (Py.strip raw) ""); [done|].
    injection H as <-. eauto.
  - intros (Hne & raw & Hin & ->). exists raw. split; [done|].
    by destruct (String.eqb_spec (Py.strip raw) "").
Qed.

Lemma stripped_clean (hosts : list string) :
  Forall (λ h, has_char "," h = false) hosts →
  Forall clean_entry (production.stripped hosts).
Proof.
  intros Hall. apply Forall_forall. intros h (Hne & raw & Hin & ->)%stripped_elem.
  pose proof (strip_shape raw) as [? ?].
  split; [done|]. split; [done|]. split; [done|].
  destruct (has_char "," (Py.strip raw)) eqn:E; [|done].
  apply strip_has_char in E. rewrite Forall_forall in Hall.
  by rewrite (Hall raw Hin) in E.
Qed.

Lemma stripped_cons (h : string) (hosts : list string) :
  production.stripped (h :: hosts)
  = if String.eqb (Py.strip h) "" then production.stripped hosts
    else Py.strip h :: production.stripped hosts.
Proof.
  unfold production.stripped. cbn [omap list_omap].
  by destruct (String.eqb (Py.strip h) "").
Qed.

Lemma stripped_fixed (hosts : list string) :
  Forall (λ h, h ≠ "" ∧ first_is_space h = false ∧ last_is_space h = false) hosts →
  production.stripped hosts = hosts.
Proof.
  induction 1 as [|h l (Hne & Hf & Hl) _ IH]; [done|].
  rewrite stripped_cons, IH.
  assert (Py.strip h = h) as -> by (by apply strip_fixed_iff).
  by destruct (String.eqb_spec h "").
Qed.

(** Whatever the environment holds, [ALLOWED_HOSTS] ends with the Cloud
    Run suffix, and no entry of the two lists is empty, padded with
    whitespace or holds a comma; with the variable unset, the first list
    is the suffix alone and the second is empty. *)
Theorem host_lists_entries (environ : gmap string string) :
  last (production.ALLOWED_HOSTS environ) = Some ".run.app"
  ∧ Forall clean_entry (production.ALLOWED_HOSTS environ)
  ∧ Forall clean_entry (production.CSRF_TRUSTED_ORIGINS environ)
  ∧ (environ !! "ALLOWED_HOSTS" = None →
     production.ALLOWED_HOSTS environ = [".run.app"])
  ∧ (environ !! "CSRF_TRUSTED_ORIGINS" = None →
     production.CSRF_TRUSTED_ORIGINS environ = []).
Proof.
  unfold production.ALLOWED_HOSTS, production.CSRF_TRUSTED_ORIGINS,
    production.environ_get.
  split; [apply last_snoc|]. split; [|split; [|split]].
  - apply Forall_app. split; [apply stripped_clean, split_no_sep|].
    by repeat constructor.
  - apply stripped_clean, split_no_sep.
  - by intros ->.
  - by intros ->.
Qed.

(** The round trip of a host list through the environment: the hosts
    joined by commas come back stripped, without the blank ones and in
    their order, before the Cloud Run suffix; hosts that are clean come
    back as they are. *)
Theorem host_lists_round_trip (environ : gmap string string) (hosts : list string) :
  Forall (λ h, has_char "," h = false) hosts →
  environ !! "ALLOWED_HOSTS" = Some (join "," hosts) →
  production.ALLOWED_HOSTS environ = production.stripped hosts ++ [".run.app"]
  ∧ (Forall (λ h, h ≠ "" ∧ first_is_space h = false ∧ last_is_space h = false) hosts →
     production.ALLOWED_HOSTS environ = hosts ++ [".run.app"]).
Proof.
  intros Hall Henv.
  assert (production.ALLOWED_HOSTS environ = production.stripped hosts ++ [".run.app"])
    as Heq.
  { unfold production.ALLOWED_HOSTS, production.environ_get. rewrite Henv.
    change (default "" (Some (join "," hosts))) with (join "," hosts).
    destruct hosts as [|h l]; [done|]. by rewrite split_join. }
  split; [done|]. intros Hclean. by rewrite Heq, stripped_fixed.
Qed.

(** Two hosts, the second one written with spaces around it. *)
Lemma host_lists_round_trip_witness :
  production.ALLOWED_HOSTS two_hosts
  = production.stripped ["example.com"; " api.example.com "] ++ [".run.app"]
  ∧ (Forall (λ h, h ≠ "" ∧ first_is_space h = false ∧ last_is_space h = false)
       ["example.com"; " api.example.com "] →
     production.ALLOWED_HOSTS two_hosts
     = ["example.com"; " api.example.com "] ++ [".run.app"]).
Proof.
  apply (host_lists_round_trip two_hosts ["example.com"; " api.example.com "]).
  - by repeat constructor.
  - reflexivity.
Defined.

Example allowed_hosts_two :
  production.ALLOWED_HOSTS two_hosts = ["example.com"; "api.example.com"; ".run.app"]
  ∧ production.ALLOWED_HOSTS {[ "ALLOWED_HOSTS" := " , ,," ]} = [".run.app"].
Proof. split; by_evaluation. Qed.
